(** * Moltbook agent: a shallow embedding of [moltbook_agent.py]

    The development follows the Python source class by class:
    - [Text]: the [str] methods the agent uses ([startswith], slicing,
      [strip], [upper], [in], [split], [join]);
    - [Py]: Python values as [json] produces them, truthiness, subscripts,
      [dict.get] and exceptions;
    - [Sys]: the agent object, the requests it issues and what it prints,
      and the state and exception monad the methods run in;
    - [PollinationsAI]: the chat client, with its streaming aggregator;
    - [MoltbookAgent]: the social client ([_make_request] and the operations
      built on it), [ask_ai] and [autonomous_browse].

    Code outside the repository (the [requests] and [json] libraries, the
    remote services, [str()] formatting inside f-strings) is an explicit
    environment [Env]: every general theorem holds for all environments. *)

From Stdlib Require Import String Ascii List ZArith Bool Arith Lia.
From Stdlib Require Import Floats.PrimFloat.
Import ListNotations.
Set Warnings "-register-all".
Open Scope list_scope.
Open Scope string_scope.

(* ================================================================== *)
(** ** Text: the [str] operations used by the agent *)
(* ================================================================== *)

(** A Python [str] is modelled as a Rocq [string] whose characters are the
    code points below 256.  [isspace] is Python's [str.isspace] on that range.
    [upper] maps a-z to A-Z; Python's case mapping of the code points
    128..255 never yields a letter of the words UPVOTE or COMMENT, so the
    two containment tests of [autonomous_browse] agree with Python's. *)
Module Text.

Definition LF : ascii := ascii_of_nat 10.
Definition NL : string := String LF "".

Definition isspace (c : ascii) : bool :=
  let n := nat_of_ascii c in
  ((9 <=? n)%nat && (n <=? 13)%nat) || ((28 <=? n)%nat && (n <=? 32)%nat)
  || (n =? 133)%nat || (n =? 160)%nat.

(** [s.startswith(p)] *)
Fixpoint startswith (p s : string) : bool :=
  match p, s with
  | EmptyString, _ => true
  | String a p', String b s' => Ascii.eqb a b && startswith p' s'
  | String _ _, EmptyString => false
  end.

(** [s[n:]] for [0 <= n] *)
Fixpoint slice_from (n : nat) (s : string) : string :=
  match n, s with
  | O, _ => s
  | S _, EmptyString => EmptyString
  | S n', String _ r => slice_from n' r
  end.

(** [s[:n]] for [0 <= n] *)
Fixpoint slice_to (n : nat) (s : string) : string :=
  match n, s with
  | O, _ => EmptyString
  | S _, EmptyString => EmptyString
  | S n', String c r => String c (slice_to n' r)
  end.

Fixpoint lstrip (s : string) : string :=
  match s with
  | EmptyString => EmptyString
  | String c r => if isspace c then lstrip r else s
  end.

Fixpoint rstrip (s : string) : string :=
  match s with
  | EmptyString => EmptyString
  | String c r =>
      match rstrip r with
      | EmptyString => if isspace c then EmptyString else String c EmptyString
      | String _ _ as r' => String c r'
      end
  end.

(** [s.strip()] *)
Definition strip (s : string) : string := rstrip (lstrip s).

Definition upper_char (c : ascii) : ascii :=
  let n := nat_of_ascii c in
  if (97 <=? n)%nat && (n <=? 122)%nat then ascii_of_nat (n - 32) else c.

(** [s.upper()] *)
Fixpoint upper (s : string) : string :=
  match s with
  | EmptyString => EmptyString
  | String c r => String (upper_char c) (upper r)
  end.

(** [str.lower] on the code points below 256: A-Z, and the capital
    letters 192 to 222 of Latin-1 but the multiplication sign. *)
Definition lower_char (c : ascii) : ascii :=
  let n := nat_of_ascii c in
  if ((65 <=? n)%nat && (n <=? 90)%nat)
     || ((192 <=? n)%nat && (n <=? 222)%nat && negb (n =? 215)%nat)
  then ascii_of_nat (n + 32) else c.

(** [s.lower()] *)
Fixpoint lower (s : string) : string :=
  match s with
  | EmptyString => EmptyString
  | String c r => String (lower_char c) (lower r)
  end.

(** [needle in s] for two strings *)
Fixpoint contains (needle s : string) : bool :=
  startswith needle s
  || match s with
     | EmptyString => false
     | String _ r => contains needle r
     end.

(** [s.split('\n')]: never empty, one more piece than there are newlines *)
Fixpoint split_lines (s : string) : list string :=
  match s with
  | EmptyString => [EmptyString]
  | String c r =>
      if Ascii.eqb c LF then EmptyString :: split_lines r
      else match split_lines r with
           | [] => [String c EmptyString]
           | h :: t => String c h :: t
           end
  end.

(** [sep.join(l)] *)
Fixpoint join (sep : string) (l : list string) : string :=
  match l with
  | [] => EmptyString
  | [x] => x
  | x :: (_ :: _) as rest => x ++ sep ++ join sep rest
  end.

(** [s.endswith(suffix)] *)
Fixpoint endswith (suffix s : string) : bool :=
  String.eqb suffix s
  || match s with
     | EmptyString => false
     | String _ r => endswith suffix r
     end.

(** The last character of [s], or [d] for the empty text. *)
Fixpoint last_char (d : ascii) (s : string) : ascii :=
  match s with
  | EmptyString => d
  | String c r => last_char c r
  end.

(** Whitespace only, as [strip] sees it. *)
Fixpoint all_space (s : string) : bool :=
  match s with
  | EmptyString => true
  | String c r => isspace c && all_space r
  end.

Fixpoint has_newline (s : string) : bool :=
  match s with
  | EmptyString => false
  | String c r => Ascii.eqb c LF || has_newline r
  end.

(** The text after the first line: what follows the first newline. *)
Fixpoint after_first_line (s : string) : string :=
  match s with
  | EmptyString => EmptyString
  | String c r => if Ascii.eqb c LF then r else after_first_line r
  end.

End Text.

(* ================================================================== *)
(** ** Py: values and exceptions *)
(* ================================================================== *)

Module Py.

(** What [json.loads] and [response.json()] return. A [dict] keeps its
    items in order; [dict_get] reads the first binding of a key. *)
Inductive pyval : Type :=
| PNone
| PBool (b : bool)
| PInt (n : Z)
| PFloat (f : float)
| PStr (s : string)
| PList (l : list pyval)
| PDict (d : list (string * pyval)).

(** Exceptions raised inside the agent. [RequestException] stands for the
    whole [requests.exceptions.RequestException] family; it carries its
    message and, for an HTTP status error, the text of [e.response].
    [ValueError] is the plain one, not its subclass
    [json.JSONDecodeError]. *)
Inductive exn : Type :=
| TypeError
| KeyError
| IndexError
| AttributeError
| UnicodeDecodeError
| ValueError
| RecursionError
| RequestException (msg : string) (response_text : option string).

Inductive result (A : Type) : Type :=
| Ok (a : A)
| Raise (e : exn).
Arguments Ok {A} a.
Arguments Raise {A} e.

(** [bool(v)] *)
Definition truthy (v : pyval) : bool :=
  match v with
  | PNone => false
  | PBool b => b
  | PInt n => negb (Z.eqb n 0)
  | PFloat f => negb (PrimFloat.eqb f 0%float)
  | PStr s => negb (String.eqb s "")
  | PList l => match l with [] => false | _ :: _ => true end
  | PDict d => match d with [] => false | _ :: _ => true end
  end.

Fixpoint dict_get (k : string) (d : list (string * pyval)) : option pyval :=
  match d with
  | [] => None
  | (k', v) :: d' => if String.eqb k k' then Some v else dict_get k d'
  end.

(** [d[k] = v] on a dict: replace the binding or add one at the end *)
Fixpoint dict_set (k : string) (v : pyval) (d : list (string * pyval))
  : list (string * pyval) :=
  match d with
  | [] => [(k, v)]
  | (k', v') :: d' =>
      if String.eqb k k' then (k, v) :: d' else (k', v') :: dict_set k v d'
  end.

Definition is_str (k : string) (v : pyval) : bool :=
  match v with PStr s => String.eqb s k | _ => false end.

(** [k in v] for a string [k] *)
Definition py_in (k : string) (v : pyval) : result bool :=
  match v with
  | PDict d => Ok (match dict_get k d with Some _ => true | None => false end)
  | PList l => Ok (existsb (is_str k) l)
  | PStr s => Ok (Text.contains k s)
  | PNone | PBool _ | PInt _ | PFloat _ => Raise TypeError
  end.

(** [v[k]] for a string [k] *)
Definition subscript_key (v : pyval) (k : string) : result pyval :=
  match v with
  | PDict d => match dict_get k d with Some x => Ok x | None => Raise KeyError end
  | _ => Raise TypeError
  end.

(** [v[0]] *)
Definition subscript_0 (v : pyval) : result pyval :=
  match v with
  | PList l => match l with x :: _ => Ok x | [] => Raise IndexError end
  | PStr s => match s with
              | String c _ => Ok (PStr (String c EmptyString))
              | EmptyString => Raise IndexError
              end
  | PDict _ => Raise KeyError
  | PNone | PBool _ | PInt _ | PFloat _ => Raise TypeError
  end.

(** [len(v)] *)
Definition py_len (v : pyval) : result nat :=
  match v with
  | PStr s => Ok (String.length s)
  | PList l => Ok (List.length l)
  | PDict d => Ok (List.length d)
  | PNone | PBool _ | PInt _ | PFloat _ => Raise TypeError
  end.

(** [v.get(k, default)] *)
Definition py_get (v : pyval) (k : string) (default : pyval) : result pyval :=
  match v with
  | PDict d => Ok (match dict_get k d with Some x => x | None => default end)
  | _ => Raise AttributeError
  end.

(** [isinstance(v, list)] *)
Definition is_list (v : pyval) : bool :=
  match v with PList _ => true | _ => false end.

End Py.

(* ================================================================== *)
(** ** Sys: the world the agent runs in *)
(* ================================================================== *)

Module Sys.
Import Py.

(** [{"role": ..., "content": ...}] *)
Record message : Type := Message { role : string; content : pyval }.

(** A request handed to the [requests] library. *)
Inductive call : Type :=
| ChatPost (messages : list message) (stream : bool)
| Http (method endpoint : string)
       (data params : option (list (string * pyval))).

(** The statuses for which [Response.raise_for_status()] raises an
    [HTTPError]: the client and server errors, 400 to 599, and no other. *)
Definition is_error_status (status : Z) : bool :=
  (400 <=? status)%Z && (status <? 600)%Z.

(** A chat completion response: its status code, the message
    [raise_for_status] would raise with, the lines [iter_lines()] yields,
    whether the connection breaks after them, and the text that
    [response.json()] parses. *)
Record chat_response : Type :=
  { chat_status : Z;
    chat_error : string;
    iter_lines : list string;
    stream_error : option string;
    chat_text : string }.

(** What [requests.post(...)] comes to: it raises a [RequestException] (a
    timeout, a connection error) or returns a response. *)
Inductive chat_reply : Type :=
| ChatFailed (msg : string)
| ChatResponse (r : chat_response).

(** A response of Moltbook: status code, the message [raise_for_status]
    would raise with, and [response.text]. *)
Record http_response : Type :=
  { resp_status : Z;
    resp_error : string;
    resp_text : string }.

Inductive http_reply : Type :=
| HttpFailed (msg : string)
| HttpResponse (r : http_response).


(** A transport failure of the chat request, with its message: the request
    raises, or the response has a status [raise_for_status] raises for. *)
Definition transport_failure (reply : chat_reply) : option string :=
  match reply with
  | ChatFailed msg => Some msg
  | ChatResponse r =>
      if is_error_status (chat_status r) then Some (chat_error r) else None
  end.

(** The limits of the interpreter a JSON text can run into: an integer
    literal of more digits than [int] converts (4300 unless configured),
    and a nesting deeper than the recursion limit. *)
Inductive limit : Type :=
| IntDigits
| Depth.

(** What the parser raises at a limit: neither is a
    [json.JSONDecodeError]. *)
Definition limit_error (l : limit) : exn :=
  match l with
  | IntDigits => ValueError
  | Depth => RecursionError
  end.

(** What [json.loads] comes to on a text: the value of a JSON text;
    [json.JSONDecodeError] for a text that is no JSON; or the exception
    of a limit. *)
Inductive parsed : Type :=
| Parsed (v : pyval)
| Malformed
| Refused (l : limit).

(** Everything that is not code of the repository. The two services see
    the requests issued before the current one. [hashable_slices] tells
    the interpreter apart: from Python 3.12 on a slice can be hashed, so
    that slicing a dict is a lookup that fails with [KeyError]; before,
    it is a [TypeError]. *)
Record Env : Type :=
  { json_loads : string -> parsed;
    hashable_slices : bool;
    decode_utf8 : string -> option string;
    py_str : pyval -> string;
    ai_service : list call -> list message -> bool -> chat_reply;
    moltbook_service : list call -> call -> http_reply }.

(** The agent object ([MoltbookConfig.api_key], [None] or a string unless
    [register] stores something else; [agent_info];
    [conversation_history]; [AIConfig.streaming]) and what it has done to
    the outside: requests issued, chunks printed and seconds slept, oldest
    first. *)
Record state : Type :=
  { api_key : pyval;
    agent_info : option pyval;
    conversation_history : list message;
    streaming : bool;
    net : list call;
    console : list string;
    slept : nat }.

Definition M (A : Type) : Type := state -> result A * state.

Definition ret {A} (a : A) : M A := fun s => (Ok a, s).

Definition raise {A} (e : exn) : M A := fun s => (Raise e, s).

Definition bind {A B} (m : M A) (k : A -> M B) : M B :=
  fun s => match m s with
           | (Ok a, s') => k a s'
           | (Raise e, s') => (Raise e, s')
           end.

Definition lift {A} (r : result A) : M A := fun s => (r, s).

(** [try: body  except requests.exceptions.RequestException as e: handler] *)
Definition except_request {A} (body : M A)
           (handler : string -> option string -> M A) : M A :=
  fun s => match body s with
           | (Raise (RequestException msg body), s') => handler msg body s'
           | other => other
           end.

Definition get : M state := fun s => (Ok s, s).

(** The state after one more request, printed chunks, a sleep, and the
    assignments to the agent's attributes. *)
Definition add_call (c : call) (s : state) : state :=
  {| api_key := api_key s; agent_info := agent_info s;
     conversation_history := conversation_history s;
     streaming := streaming s;
     net := (net s ++ [c])%list;
     console := console s; slept := slept s |}.

Definition add_console (out : list string) (s : state) : state :=
  {| api_key := api_key s; agent_info := agent_info s;
     conversation_history := conversation_history s;
     streaming := streaming s; net := net s;
     console := (console s ++ out)%list; slept := slept s |}.

Definition add_sleep (n : nat) (s : state) : state :=
  {| api_key := api_key s; agent_info := agent_info s;
     conversation_history := conversation_history s;
     streaming := streaming s; net := net s;
     console := console s; slept := slept s + n |}.

Definition with_agent_info (v : pyval) (s : state) : state :=
  {| api_key := api_key s; agent_info := Some v;
     conversation_history := conversation_history s;
     streaming := streaming s; net := net s;
     console := console s; slept := slept s |}.

Definition with_api_key (k : pyval) (s : state) : state :=
  {| api_key := k; agent_info := agent_info s;
     conversation_history := conversation_history s;
     streaming := streaming s; net := net s;
     console := console s; slept := slept s |}.

Definition add_history (m : message) (s : state) : state :=
  {| api_key := api_key s; agent_info := agent_info s;
     conversation_history := (conversation_history s ++ [m])%list;
     streaming := streaming s; net := net s;
     console := console s; slept := slept s |}.

Definition issue (c : call) : M unit := fun s => (Ok tt, add_call c s).

(** [print(text, end='', flush=True)] *)
Definition write (text : string) : M unit :=
  fun s => (Ok tt, add_console [text] s).

(** [print(text)] *)
Definition print (text : string) : M unit := write (text ++ Text.NL).

(** [response.raise_for_status()] on a response with the given status,
    error message and text *)
Definition raise_for_status (status : Z) (msg text : string) : M unit :=
  if is_error_status status then raise (RequestException msg (Some text))
  else ret tt.

(** [time.sleep(n)] *)
Definition sleep (n : nat) : M unit := fun s => (Ok tt, add_sleep n s).

Definition set_agent_info (v : pyval) : M unit :=
  fun s => (Ok tt, with_agent_info v s).

Definition set_key (k : pyval) : M unit :=
  fun s => (Ok tt, with_api_key k s).

(** [self.conversation_history.append(m)] *)
Definition history_append (m : message) : M unit :=
  fun s => (Ok tt, add_history m s).

(** Nothing but the console differs. *)
Definition quiet (s s' : state) : Prop :=
  api_key s' = api_key s /\ agent_info s' = agent_info s
  /\ conversation_history s' = conversation_history s
  /\ streaming s' = streaming s /\ net s' = net s /\ slept s' = slept s.

(** A fresh agent, as [MoltbookAgent.__init__] leaves it. *)
Definition init (key : pyval) (stream : bool) : state :=
  {| api_key := key; agent_info := None; conversation_history := [];
     streaming := stream; net := []; console := []; slept := 0 |}.

End Sys.

Declare Scope py_scope.
Delimit Scope py_scope with py.
Notation "x <- c ;; k" := (Sys.bind c (fun x => k))
  (at level 61, c at next level, right associativity) : py_scope.
Notation "c ;; k" := (Sys.bind c (fun _ => k))
  (at level 61, right associativity) : py_scope.
Open Scope py_scope.

(* ================================================================== *)
(** ** PollinationsAI: the chat client *)
(* ================================================================== *)

Module PollinationsAI.
Import Py Sys.

Section Client.
Variable E : Env.

(** Lines 69-75, the body of the inner [try]: one decoded payload is
    folded into [full_response]. *)
Definition absorb (data : pyval) (full_response : string) : M string :=
  has <- lift (py_in "choices" data) ;;
  if has : bool then
    choices <- lift (subscript_key data "choices") ;;
    n <- lift (py_len choices) ;;
    if (0 <? n)%nat then
      first <- lift (subscript_0 choices) ;;
      delta <- lift (py_get first "delta" (PDict [])) ;;
      content <- lift (py_get delta "content" (PStr "")) ;;
      if truthy content then
        match content with
        | PStr c => write c ;; ret (full_response ++ c)
        | _ => raise TypeError
        end
      else ret full_response
    else ret full_response
  else ret full_response.

(** Lines 61-77: the [for] loop over [response.iter_lines()]. *)
Fixpoint stream_loop (lines : list string) (ending : option string)
         (full_response : string) : M string :=
  match lines with
  | [] => match ending with
          | Some msg => raise (RequestException msg None)
          | None => ret full_response
          end
  | line :: rest =>
      if String.eqb line "" then stream_loop rest ending full_response
      else
        match decode_utf8 E line with
        | None => raise UnicodeDecodeError
        | Some line_text =>
            if Text.startswith "data: " line_text then
              let data_str := Text.slice_from 6 line_text in
              if String.eqb (Text.strip data_str) "[DONE]"
              then ret full_response
              else
                match json_loads E data_str with
                | Malformed => stream_loop rest ending full_response
                | Refused l => raise (limit_error l)
                | Parsed data =>
                    full_response' <- absorb data full_response ;;
                    stream_loop rest ending full_response'
                end
            else stream_loop rest ending full_response
        end
  end.

(** [requests.post(...)] and [response.raise_for_status()] *)
Definition post (messages : list message) (stream : bool) : M chat_response :=
  s <- get ;;
  issue (ChatPost messages stream) ;;
  match ai_service E (net s) messages stream with
  | ChatFailed msg => raise (RequestException msg None)
  | ChatResponse r =>
      raise_for_status (chat_status r) (chat_error r) (chat_text r) ;;
      ret r
  end.

(** [response.json()]: a body that is no JSON raises
    [requests.exceptions.JSONDecodeError], a [RequestException]; the
    exception of a limit is passed on as it is. *)
Definition response_json (text : string) : M pyval :=
  match json_loads E text with
  | Parsed v => ret v
  | Malformed => raise (RequestException "Expecting value" None)
  | Refused l => raise (limit_error l)
  end.

Definition chat (messages : list message) (stream : bool) : M pyval :=
  except_request
    (response <- post messages stream ;;
     if stream then
       full_response <-
         stream_loop (iter_lines response) (stream_error response) "" ;;
       print "" ;;
       ret (PStr full_response)
     else
       data <- response_json (chat_text response) ;;
       choices <- lift (subscript_key data "choices") ;;
       first <- lift (subscript_0 choices) ;;
       msg <- lift (subscript_key first "message") ;;
       lift (subscript_key msg "content"))
    (fun e _ => print ("AI API Error: " ++ e) ;; ret (PStr "")).

(** The transport failure [chat] meets, with its message: the request
    raises or is answered with an error status ([transport_failure]); or,
    with streaming, the connection of an accepted response times out or
    breaks while its lines are read, so that the loop of lines 61-77 ends
    in the [RequestException] of [iter_lines()]. A connection that fails
    only after the sentinel, or after a frame that made the loop raise, is
    not met. *)
Definition transport_failure_met (messages : list message) (stream : bool)
           (s : state) : option string :=
  match ai_service E (net s) messages stream with
  | ChatFailed msg => Some msg
  | ChatResponse r =>
      if is_error_status (chat_status r) then Some (chat_error r)
      else if stream then
        match fst (stream_loop (iter_lines r) (stream_error r) ""
                     (add_call (ChatPost messages stream) s)) with
        | Raise (RequestException msg _) => Some msg
        | _ => None
        end
      else None
  end.

(** *** The stream as the specification reads it *)

(** The payload of a line that is a [data: ] frame. *)
Definition payload (line : string) : option string :=
  if String.eqb line "" then None
  else match decode_utf8 E line with
       | Some line_text =>
           if Text.startswith "data: " line_text
           then Some (Text.slice_from 6 line_text)
           else None
       | None => None
       end.

Definition is_sentinel (line : string) : bool :=
  match payload line with
  | Some data_str => String.eqb (Text.strip data_str) "[DONE]"
  | None => false
  end.

Definition decodes (line : string) : bool :=
  String.eqb line ""
  || match decode_utf8 E line with Some _ => true | None => false end.

(** The [content] field of the [delta] of the first choice, when there
    is one and it is a string; the empty text otherwise. *)
Definition delta_content (data : pyval) : string :=
  match data with
  | PDict d =>
      match dict_get "choices" d with
      | Some (PList (PDict first :: _)) =>
          match dict_get "delta" first with
          | Some (PDict delta) =>
              match dict_get "content" delta with
              | Some (PStr c) => c
              | _ => ""
              end
          | _ => ""
          end
      | _ => ""
      end
  | _ => ""
  end.

(** A completion chunk: a JSON object whose [choices], if present, is a
    list whose first element, if any, is an object whose [delta], if
    present, is an object whose [content], if present, is a string or a
    false value such as [null]. *)
Definition chunk_shaped (data : pyval) : bool :=
  match data with
  | PDict d =>
      match dict_get "choices" d with
      | None => true
      | Some (PList []) => true
      | Some (PList (PDict first :: _)) =>
          match dict_get "delta" first with
          | None => true
          | Some (PDict delta) =>
              match dict_get "content" delta with
              | None => true
              | Some (PStr _) => true
              | Some v => negb (truthy v)
              end
          | Some _ => false
          end
      | Some _ => false
      end
  | _ => false
  end.

(** What one line adds to the reply. *)
Definition contribution (line : string) : string :=
  match payload line with
  | Some data_str =>
      match json_loads E data_str with
      | Parsed data => delta_content data
      | Malformed | Refused _ => ""
      end
  | None => ""
  end.

(** A line before the sentinel that the aggregator is specified for: it
    decodes, it is not the sentinel, and its payload, when it is valid
    JSON, is within the limits of the parser and a completion chunk. *)
Definition admissible (line : string) : bool :=
  decodes line && negb (is_sentinel line)
  && match payload line with
     | Some data_str =>
         match json_loads E data_str with
         | Parsed data => chunk_shaped data
         | Malformed => true
         | Refused _ => false
         end
     | None => true
     end.

Definition nonempty (s : string) : bool := negb (String.eqb s "").

End Client.
End PollinationsAI.

(* ================================================================== *)
(** ** MoltbookAgent: social client, conversation and browsing *)
(* ================================================================== *)

Module MoltbookAgent.
Import Py Sys.

Definition dict : Type := list (string * pyval).

(** [v[:n]] on a value. A dict has no key that is a slice: the lookup
    raises [KeyError] where slices can be hashed, and [TypeError] for the
    unhashable key before. The other values cannot be subscripted. *)
Definition py_slice_to (E : Env) (n : nat) (v : pyval) : result pyval :=
  match v with
  | PStr s => Ok (PStr (Text.slice_to n s))
  | PList l => Ok (PList (firstn n l))
  | PDict _ => Raise (if hashable_slices E then KeyError else TypeError)
  | PNone | PBool _ | PInt _ | PFloat _ => Raise TypeError
  end.

(** [h[-n:]] on a list, for [0 < n] *)
Definition last_n {A} (n : nat) (h : list A) : list A :=
  skipn (List.length h - n) h.

(** What [_make_request] prints when no key is set. *)
Definition no_key_message : string :=
  "Error: API key not set. Please register or set API key." ++ Text.NL.

(** An optional [str] argument, as [if content:] reads it *)
Definition given (o : option string) : bool :=
  match o with
  | Some s => negb (String.eqb s "")
  | None => false
  end.

(** The specification's [ActionDecision]. *)
Inductive ActionDecision : Type :=
| Upvote
| Comment (text : string)
| Skip.

(** Requests by kind. *)
Definition is_comment_call (c : call) : bool :=
  match c with
  | Http method endpoint _ _ =>
      String.eqb method "POST" && Text.endswith "/comments" endpoint
  | ChatPost _ _ => false
  end.

Definition is_vote_call (c : call) : bool :=
  match c with
  | Http method endpoint _ _ =>
      String.eqb method "POST"
      && (Text.endswith "/upvote" endpoint || Text.endswith "/downvote" endpoint)
  | ChatPost _ _ => false
  end.

Definition is_chat_call (c : call) : bool :=
  match c with
  | ChatPost _ _ => true
  | Http _ _ _ _ => false
  end.

(** The requests issued between two states. *)
Definition issued (s s' : state) : list call :=
  skipn (List.length (net s)) (net s').

(** The messages [ask_ai] puts before the history window. *)
Definition system_part (system_prompt : option string) : list message :=
  match system_prompt with
  | Some p => if given system_prompt then [Message "system" (PStr p)] else []
  | None => []
  end.

(** Lines printed by [autonomous_browse]. *)
Definition starting_text : string :=
  Text.NL ++ "🤖 Starting autonomous browsing mode..." ++ Text.NL.
Definition no_profile_text : string :=
  "Failed to get profile. Is your agent claimed?".
Definition fetching_text : string := Text.NL ++ "📰 Fetching feed...".
Definition no_posts_text : string := "No posts found or error fetching feed".

(** The two requests a browsing pass starts with. *)
Definition profile_request : call := Http "GET" "/agents/me" None None.
Definition feed_request : call :=
  Http "GET" "/posts" None (Some [("sort", PStr "hot"); ("limit", PInt 10)]).

(** The bodies of the requests of [create_post] and [add_comment]: the
    optional fields are there when they are given and not empty. *)
Definition optional_field (k : string) (o : option string) : dict :=
  match o with
  | Some v => if given o then [(k, PStr v)] else []
  | None => []
  end.

Definition post_data (submolt title : string) (content url : option string)
  : dict :=
  ([("submolt", PStr submolt); ("title", PStr title)]
     ++ optional_field "content" content ++ optional_field "url" url)%list.

Definition comment_data (content : string) (parent_id : option string) : dict :=
  ([("content", PStr content)] ++ optional_field "parent_id" parent_id)%list.

(** The messages of the request [ask_ai] sends. *)
Definition request_messages (user_message : string)
           (system_prompt : option string) (s : state) : list message :=
  (system_part system_prompt ++ last_n 10 (conversation_history s)
     ++ [Message "user" (PStr user_message)])%list.

Section Agent.
Variable E : Env.

(** [{v}] inside an f-string *)
Definition fmt (v : pyval) : string := py_str E v.

(** What [requests.get/post/patch/delete] is given besides the URL and
    the headers; [None] for a method the code does not support. *)
Definition request_of (method endpoint : string)
           (data params : option dict) : option call :=
  if String.eqb method "GET" then Some (Http method endpoint None params)
  else if String.eqb method "POST" then Some (Http method endpoint data None)
  else if String.eqb method "PATCH" then Some (Http method endpoint data None)
  else if String.eqb method "DELETE" then Some (Http method endpoint None None)
  else None.

(** Lines 111-125, the body of the [try]. *)
Definition send (method endpoint : string) (data params : option dict)
  : M pyval :=
  match request_of method endpoint data params with
  | None => print ("Unsupported method: " ++ method) ;; ret PNone
  | Some c =>
      s <- get ;;
      issue c ;;
      match moltbook_service E (net s) c with
      | HttpFailed msg => raise (RequestException msg None)
      | HttpResponse r =>
          raise_for_status (resp_status r) (resp_error r) (resp_text r) ;;
          if negb (String.eqb (resp_text r) "") then
            match json_loads E (resp_text r) with
            | Parsed v => ret v
            | Malformed => raise (RequestException "Expecting value" None)
            | Refused l => raise (limit_error l)
            end
          else ret (PDict [])
      end
  end.

Definition _make_request (method endpoint : string)
           (data params : option dict) : M pyval :=
  s <- get ;;
  if negb (truthy (api_key s)) then
    print "Error: API key not set. Please register or set API key." ;;
    ret PNone
  else
    except_request
      (send method endpoint data params)
      (fun msg body =>
         print ("Moltbook API Error: " ++ msg) ;;
         match body with
         | Some text => print ("Response: " ++ text)
         | None => ret tt
         end ;;
         ret PNone).

Definition register (name description : string) : M pyval :=
  let data := [("name", PStr name); ("description", PStr description)] in
  result <- _make_request "POST" "/agents/register" (Some data) None ;;
  (if truthy result then
     has <- lift (py_in "api_key" result) ;;
     if has : bool then
       key <- lift (subscript_key result "api_key") ;;
       set_key key ;;
       print (Text.NL ++ "✓ Agent registered successfully!") ;;
       print ("  Name: " ++ name) ;;
       claim <- lift (py_get result "claim_url" (PStr "N/A")) ;;
       print ("  Claim URL: " ++ fmt claim) ;;
       code <- lift (py_get result "verification_code" (PStr "N/A")) ;;
       print ("  Verification Code: " ++ fmt code) ;;
       print (Text.NL ++ "⚠ IMPORTANT: Visit the claim URL to verify your agent!") ;;
       print "  API Key has been saved internally."
     else ret tt
   else ret tt) ;;
  ret result.

Definition set_api_key (key : string) : M unit :=
  set_key (PStr key) ;;
  print "✓ API key set successfully".

Definition get_profile : M pyval :=
  result <- _make_request "GET" "/agents/me" None None ;;
  (if truthy result then set_agent_info result else ret tt) ;;
  ret result.

Definition get_feed (sort : string) (limit : Z) : M pyval :=
  let params := [("sort", PStr sort); ("limit", PInt limit)] in
  _make_request "GET" "/posts" None (Some params).

Definition get_post (post_id : pyval) : M pyval :=
  _make_request "GET" ("/posts/" ++ fmt post_id) None None.

Definition create_post (submolt title : string) (content url : option string)
  : M pyval :=
  let data := [("submolt", PStr submolt); ("title", PStr title)] in
  let data := match content with
              | Some c => if given content then dict_set "content" (PStr c) data
                          else data
              | None => data
              end in
  let data := match url with
              | Some u => if given url then dict_set "url" (PStr u) data
                          else data
              | None => data
              end in
  result <- _make_request "POST" "/posts" (Some data) None ;;
  (if truthy result then print ("✓ Post created: " ++ title) else ret tt) ;;
  ret result.

Definition add_comment (post_id : pyval) (content : string)
           (parent_id : option string) : M pyval :=
  let data := [("content", PStr content)] in
  let data := match parent_id with
              | Some p => if given parent_id
                          then dict_set "parent_id" (PStr p) data else data
              | None => data
              end in
  result <- _make_request "POST" ("/posts/" ++ fmt post_id ++ "/comments")
                          (Some data) None ;;
  (if truthy result then print "✓ Comment added" else ret tt) ;;
  ret result.

Definition upvote_post (post_id : pyval) : M pyval :=
  _make_request "POST" ("/posts/" ++ fmt post_id ++ "/upvote") None None.

Definition downvote_post (post_id : pyval) : M pyval :=
  _make_request "POST" ("/posts/" ++ fmt post_id ++ "/downvote") None None.

Definition search (query : string) (limit : Z) : M pyval :=
  let params := [("q", PStr query); ("limit", PInt limit)] in
  _make_request "GET" "/search" None (Some params).

Definition list_submolts : M pyval :=
  _make_request "GET" "/submolts" None None.

Definition create_submolt (name description : string) : M pyval :=
  let data := [("name", PStr name); ("description", PStr description)] in
  _make_request "POST" "/submolts" (Some data) None.

Definition subscribe_submolt (submolt_name : string) : M pyval :=
  _make_request "POST" ("/submolts/" ++ submolt_name ++ "/subscribe")
                None None.

(** The requests of [upvote_post] and of [add_comment] without a parent,
    and the requests a state lets through: all with a key, none without. *)
Definition upvote_request (post_id : pyval) : call :=
  Http "POST" ("/posts/" ++ fmt post_id ++ "/upvote") None None.

Definition comment_request (post_id : pyval) (text : string) : call :=
  Http "POST" ("/posts/" ++ fmt post_id ++ "/comments")
       (Some [("content", PStr text)]) None.

Definition when_keyed (s : state) (c : call) : list call :=
  if truthy (api_key s) then [c] else [].

(** [ask_ai]: the request carries the optional system prompt, the last
    ten entries of the history and the new user message; the history
    grows by the user message and the reply. *)
Definition ask_ai (user_message : string) (system_prompt : option string)
  : M pyval :=
  s <- get ;;
  let messages := [] in
  let messages :=
    match system_prompt with
    | Some p => if given system_prompt
                then (messages ++ [Message "system" (PStr p)])%list
                else messages
    | None => messages
    end in
  let messages := (messages ++ last_n 10 (conversation_history s))%list in
  let messages := (messages ++ [Message "user" (PStr user_message)])%list in
  response <- PollinationsAI.chat E messages (streaming s) ;;
  history_append (Message "user" (PStr user_message)) ;;
  history_append (Message "assistant" response) ;;
  ret response.

(** Lines 287-303: the prompt of one post. *)
Definition context_of (post_title content500 submolt score : pyval) : string :=
  Text.join Text.NL
    [ "";
      "You are an AI agent browsing Moltbook, a social network for AI agents.";
      "";
      "Post Details:";
      "- Title: " ++ fmt post_title;
      "- Content: " ++ fmt content500;
      "- Submolt: " ++ fmt submolt;
      "- Score: " ++ fmt score;
      "";
      "Decide what action to take. Options:";
      "1. UPVOTE - If the post is interesting or valuable";
      "2. COMMENT - If you have something meaningful to add";
      "3. SKIP - If not interesting";
      "";
      "Respond with ONLY one of: UPVOTE, COMMENT, SKIP";
      "Then on a new line, if COMMENT, provide the comment text (keep it concise, 1-2 sentences).";
      "" ].

(** Lines 313-314: the comment carried by a decision text. *)
Definition comment_text_of (decision : string) : string :=
  let lines := Text.split_lines (Text.strip decision) in
  if (1 <? List.length lines)%nat
  then Text.strip (Text.join Text.NL (tl lines))
  else "Interesting post!".

(** Lines 307-320: the decision text is interpreted and acted upon. *)
Definition act (post_id : pyval) (decision : pyval) : M unit :=
  match decision with
  | PStr d =>
      if Text.contains "UPVOTE" (Text.upper d) then
        print "  → AI Decision: Upvoting" ;;
        upvote_post post_id ;;
        ret tt
      else if Text.contains "COMMENT" (Text.upper d) then
        let comment_text := comment_text_of d in
        print "  → AI Decision: Commenting" ;;
        print ("  Comment: " ++ Text.slice_to 100 comment_text ++ "...") ;;
        add_comment post_id comment_text None ;;
        ret tt
      else
        print "  → AI Decision: Skipping"
  | _ => raise AttributeError
  end.

(** The same lines as the specification's data model has them: a pure
    classification into an [ActionDecision] and its execution. *)
Definition interpret (d : string) : ActionDecision :=
  if Text.contains "UPVOTE" (Text.upper d) then Upvote
  else if Text.contains "COMMENT" (Text.upper d) then Comment (comment_text_of d)
  else Skip.

Definition perform (post_id : pyval) (a : ActionDecision) : M unit :=
  match a with
  | Upvote =>
      print "  → AI Decision: Upvoting" ;;
      upvote_post post_id ;;
      ret tt
  | Comment comment_text =>
      print "  → AI Decision: Commenting" ;;
      print ("  Comment: " ++ Text.slice_to 100 comment_text ++ "...") ;;
      add_comment post_id comment_text None ;;
      ret tt
  | Skip => print "  → AI Decision: Skipping"
  end.

(** Lines 275-323: the body of the loop over the first five posts. *)
Definition browse_post (idx : Z) (post : pyval) : M unit :=
  print (Text.NL ++ "--- Post " ++ fmt (PInt idx) ++ "/5 ---") ;;
  post_title <- lift (py_get post "title" (PStr "Untitled")) ;;
  post_content <- lift (py_get post "content" (PStr "")) ;;
  post_id <- lift (py_get post "id" (PStr "")) ;;
  submolt <- lift (py_get post "submolt" (PStr "unknown")) ;;
  score <- lift (py_get post "score" (PInt 0)) ;;
  print ("Title: " ++ fmt post_title) ;;
  print ("Submolt: " ++ fmt submolt) ;;
  print ("Score: " ++ fmt score) ;;
  content500 <- lift (py_slice_to E 500 post_content) ;;
  decision <- ask_ai (context_of post_title content500 submolt score) None ;;
  act post_id decision ;;
  sleep 2.

Fixpoint browse_posts (idx : Z) (posts : list pyval) : M unit :=
  match posts with
  | [] => ret tt
  | post :: rest => browse_post idx post ;; browse_posts (idx + 1) rest
  end.

(** Lines 267-325: what [autonomous_browse] does with the feed it got. *)
Definition browse_feed (feed : pyval) : M unit :=
  if negb (truthy feed) || negb (is_list feed) then
    print no_posts_text
  else
    match feed with
    | PList posts =>
        print ("Found " ++ fmt (PInt (Z.of_nat (List.length posts)))
               ++ " posts" ++ Text.NL) ;;
        browse_posts 1 (firstn 5 posts) ;;
        print (Text.NL ++ "✓ Autonomous browsing complete")
    | _ => ret tt
    end.

(** Lines 257-325: what it does with the profile it got. *)
Definition browse_profile (profile : pyval) : M unit :=
  if negb (truthy profile) then
    print no_profile_text
  else
    agent_name <- lift (py_get profile "name" (PStr "Unknown")) ;;
    print ("Agent: " ++ fmt agent_name) ;;
    print fetching_text ;;
    feed <- get_feed "hot" 10 ;;
    browse_feed feed.

Definition autonomous_browse : M unit :=
  print starting_text ;;
  profile <- get_profile ;;
  browse_profile profile.

(** [heartbeat]; [now] is the text of
    [datetime.now().strftime('%Y-%m-%d %H:%M:%S')]. *)
Definition heartbeat (now : string) : M unit :=
  print (Text.NL ++ "💓 Heartbeat at " ++ now) ;;
  profile <- get_profile ;;
  if truthy profile then
    name <- lift (py_get profile "name" (PStr "Unknown")) ;;
    print ("✓ Connected as " ++ fmt name) ;;
    autonomous_browse
  else
    print "✗ Failed to connect".

End Agent.

(** How far a run went: at most [calls] requests were issued, at most
    [chats] of them to the chat service, at most [secs] seconds slept. *)
Definition within (calls chats secs : nat) (s s' : state) : Prop :=
  exists l,
    net s' = (net s ++ l)%list
    /\ (List.length l <= calls)%nat
    /\ (List.length (filter is_chat_call l) <= chats)%nat
    /\ (slept s <= slept s' <= slept s + secs)%nat.

(** A computation that stays within these bounds from every state,
    whether it returns or raises. *)
Definition bounded {A} (calls chats secs : nat) (m : M A) : Prop :=
  forall s, within calls chats secs s (snd (m s)).

(** Requests that touch no content: neither a vote nor a comment. *)
Definition harmless (c : call) : bool :=
  negb (is_vote_call c) && negb (is_comment_call c).

(** A computation all of whose requests satisfy [P]. *)
Definition only {A} (P : call -> bool) (m : M A) : Prop :=
  forall s, exists l, net (snd (m s)) = (net s ++ l)%list /\ forallb P l = true.

End MoltbookAgent.

(* ================================================================== *)
(** ** The examples of [example.py] *)
(* ================================================================== *)

Module Examples.
Import Py Sys MoltbookAgent.

(** [MoltbookAgent(MoltbookConfig(api_key=key), AIConfig())]: a new agent
    object in the running process. *)
Definition fresh_agent (key : string) (s : state) : state :=
  {| api_key := PStr key; agent_info := None;
     conversation_history := []; streaming := true;
     net := net s; console := console s; slept := slept s |}.

Definition new_agent (key : string) : M unit :=
  fun s => (Ok tt, fresh_agent key s).

Definition placeholder_key : string := "your_moltbook_api_key_here".

(** [for post in v]: the items of a list, the characters of a text. *)
Fixpoint chars (s : string) : list pyval :=
  match s with
  | EmptyString => []
  | String c r => PStr (String c EmptyString) :: chars r
  end.

Definition py_iter (v : pyval) : result (list pyval) :=
  match v with
  | PList l => Ok l
  | PStr s => Ok (chars s)
  | PDict d => Ok (map (fun kv => PStr (fst kv)) d)
  | PNone | PBool _ | PInt _ | PFloat _ => Raise TypeError
  end.

Definition guided_system_prompt : string :=
  "You are creating content for Moltbook, a social network for AI agents."
  ++ Text.NL ++ "Generate a thoughtful post about AI collaboration.".

Definition guided_user_message : string :=
  "Create a post about how AI agents can work together effectively. "
  ++ "Include a catchy title and 2-3 paragraph content.".

Section Runs.
Variable E : Env.

Definition example_autonomous_agent : M unit :=
  print ("Example 1: Autonomous Agent" ++ Text.NL) ;;
  new_agent placeholder_key ;;
  profile <- get_profile E ;;
  (if truthy profile then
     name <- lift (subscript_key profile "name") ;;
     print ("Logged in as: " ++ fmt E name ++ Text.NL)
   else ret tt) ;;
  autonomous_browse E.

Definition example_guided_posting : M unit :=
  print ("Example 2: AI-Assisted Posting" ++ Text.NL) ;;
  new_agent placeholder_key ;;
  response <- ask_ai E guided_user_message (Some guided_system_prompt) ;;
  print (Text.NL ++ "AI Generated:" ++ Text.NL ++ fmt E response).

(** Lines 70-76 of [example.py]: the prompt of one search result. *)
Definition engage_prompt (title content200 score : pyval) : string :=
  Text.join Text.NL
    [ "";
      "Should I engage with this post? Answer YES or NO and explain why.";
      "";
      "Title: " ++ fmt E title;
      "Content: " ++ fmt E content200;
      "Score: " ++ fmt E score;
      "" ].

(** Lines 69-79: the body of the loop over the first three results. *)
Definition engage_post (post : pyval) : M unit :=
  title <- lift (py_get post "title" PNone) ;;
  content <- lift (py_get post "content" (PStr "")) ;;
  content200 <- lift (py_slice_to E 200 content) ;;
  score <- lift (py_get post "score" (PInt 0)) ;;
  decision <- ask_ai E (engage_prompt title content200 score) None ;;
  shown <- lift (subscript_key post "title") ;;
  print (Text.NL ++ "Post: " ++ fmt E shown) ;;
  print ("AI Decision: " ++ fmt E decision).

Fixpoint engage_posts (posts : list pyval) : M unit :=
  match posts with
  | [] => ret tt
  | post :: rest => engage_post post ;; engage_posts rest
  end.

Definition example_search_and_engage : M unit :=
  print ("Example 3: Search and Engage" ++ Text.NL) ;;
  new_agent placeholder_key ;;
  results <- search E "machine learning" 20 ;;
  if truthy results then
    n <- lift (py_len results) ;;
    print ("Found " ++ fmt E (PInt (Z.of_nat n))
           ++ " posts about machine learning" ++ Text.NL) ;;
    first3 <- lift (py_slice_to E 3 results) ;;
    posts <- lift (py_iter first3) ;;
    engage_posts posts
  else ret tt.

Definition example_heartbeat_routine (now : string) : M unit :=
  print ("Example 4: Heartbeat Routine" ++ Text.NL) ;;
  new_agent placeholder_key ;;
  heartbeat E now.

End Runs.
End Examples.

(* ================================================================== *)
(** ** The interactive shell *)
(* ================================================================== *)

(** [interactive_mode] and [main]. What the operator does is a list of
    events, one for each call of [input()] that gets an answer: a typed
    line, or an interrupt at the prompt. When the list is used up, standard
    input is at its end and [input()] raises [EOFError]. Interrupts while a
    command runs are not modelled. *)
Module Shell.
Import Py Sys MoltbookAgent.

Inductive event : Type :=
| Typed (line : string)
| CtrlC.

(** What a command can raise: one of the exceptions of the agent,
    [EOFError] from [input()], or [KeyboardInterrupt]. *)
Inductive signal : Type :=
| Exception (e : exn)
| EOFError
| KeyboardInterrupt.

Inductive outcome (A : Type) : Type :=
| Done (a : A)
| Raised (g : signal).
Arguments Done {A} a.
Arguments Raised {A} g.

(** A computation that also reads the operator's input. *)
Definition R (A : Type) : Type :=
  list event -> state -> outcome A * list event * state.

Definition done {A} (a : A) : R A := fun keys s => (Done a, keys, s).

Definition then_ {A B} (r : R A) (k : A -> R B) : R B :=
  fun keys s =>
    match r keys s with
    | (Done a, keys', s') => k a keys' s'
    | (Raised g, keys', s') => (Raised g, keys', s')
    end.

(** A method of the agent, run from the shell. *)
Definition call_agent {A} (m : M A) : R A :=
  fun keys s =>
    match m s with
    | (Ok a, s') => (Done a, keys, s')
    | (Raise e, s') => (Raised (Exception e), keys, s')
    end.

(** [input(prompt)] *)
Definition input (prompt : string) : R string :=
  fun keys s =>
    let s' := add_console [prompt] s in
    match keys with
    | [] => (Raised EOFError, [], s')
    | Typed line :: rest => (Done line, rest, s')
    | CtrlC :: rest => (Raised KeyboardInterrupt, rest, s')
    end.

(** [input(prompt).strip()] *)
Definition ask_line (prompt : string) : R string :=
  then_ (input prompt) (fun line => done (Text.strip line)).

Definition say (text : string) : R unit := call_agent (print text).

(** [for item in items: body(item)] inside the shell *)
Fixpoint for_each (body : pyval -> R unit) (items : list pyval) : R unit :=
  match items with
  | [] => done tt
  | item :: rest => then_ (body item) (fun _ => for_each body rest)
  end.

(** The lines of the [help] command. *)
Definition help_lines : list string :=
  [ Text.NL ++ "Available Commands:";
    "  register          - Register a new agent";
    "  setkey            - Set API key";
    "  profile           - View your profile";
    "  feed              - View feed";
    "  post              - Create a post";
    "  search            - Search posts";
    "  submolts          - List communities";
    "  browse            - AI autonomous browsing";
    "  heartbeat         - Run heartbeat routine";
    "  ask               - Ask AI a question";
    "  help              - Show this help";
    "  quit              - Exit" ].

Fixpoint say_all (lines : list string) : R unit :=
  match lines with
  | [] => done tt
  | line :: rest => then_ (say line) (fun _ => say_all rest)
  end.

(** ["=" * 60] *)
Definition rule : string :=
  "============================================================".

(** [text or None], [text or default] for a text *)
Definition or_none (text : string) : option string :=
  if String.eqb text "" then None else Some text.
Definition or_else (text default : string) : string :=
  if String.eqb text "" then default else text.

Section Agent.
Variable E : Env.

(** The text of [str(e)] for an exception of the agent, and the reading
    of the clock for [heartbeat], as the shell is in that state. *)
Variable message_of : exn -> string.
Variable clock : state -> string.

Definition do_profile : R unit :=
  then_ (call_agent (get_profile E)) (fun profile =>
  if truthy profile then
    then_ (say (Text.NL ++ "Profile:")) (fun _ =>
    then_ (call_agent (lift (py_get profile "name" PNone))) (fun name =>
    then_ (say ("  Name: " ++ fmt E name)) (fun _ =>
    then_ (call_agent (lift (py_get profile "description" PNone))) (fun d =>
    then_ (say ("  Description: " ++ fmt E d)) (fun _ =>
    then_ (call_agent (lift (py_get profile "karma" (PInt 0)))) (fun karma =>
    then_ (say ("  Karma: " ++ fmt E karma)) (fun _ =>
    then_ (call_agent (lift (py_get profile "created_at" PNone))) (fun c =>
    say ("  Created: " ++ fmt E c)))))))))
  else done tt).

Definition show_feed_post (post : pyval) : R unit :=
  then_ (call_agent (lift (py_get post "score" (PInt 0)))) (fun score =>
  then_ (call_agent (lift (py_get post "title" PNone))) (fun title =>
  then_ (say (Text.NL ++ "  [" ++ fmt E score ++ "↑] " ++ fmt E title)) (fun _ =>
  then_ (call_agent (lift (py_get post "author" (PStr "unknown")))) (fun author =>
  then_ (call_agent (lift (py_get post "submolt" PNone))) (fun submolt =>
  then_ (say ("  by " ++ fmt E author ++ " in /" ++ fmt E submolt)) (fun _ =>
  then_ (call_agent (lift (py_get post "id" PNone))) (fun id =>
  say ("  ID: " ++ fmt E id)))))))).

Definition do_feed : R unit :=
  then_ (ask_line "Sort by (hot/new/top): ") (fun typed =>
  let sort := or_else typed "hot" in
  then_ (call_agent (get_feed E sort 10)) (fun feed =>
  if truthy feed && is_list feed then
    match feed with
    | PList posts =>
        then_ (say (Text.NL ++ "📰 Feed ("
                    ++ fmt E (PInt (Z.of_nat (List.length posts)))
                    ++ " posts):")) (fun _ =>
        for_each show_feed_post posts)
    | _ => done tt
    end
  else done tt)).

Definition do_post : R unit :=
  then_ (ask_line "Submolt: ") (fun submolt =>
  then_ (ask_line "Title: ") (fun title =>
  then_ (ask_line "Content (optional): ") (fun typed =>
  then_ (call_agent (create_post E submolt title (or_none typed) None))
        (fun _ => done tt)))).

Definition show_search_post (post : pyval) : R unit :=
  then_ (call_agent (lift (py_get post "title" PNone))) (fun title =>
  then_ (say (Text.NL ++ "  " ++ fmt E title)) (fun _ =>
  then_ (call_agent (lift (py_get post "submolt" PNone))) (fun submolt =>
  then_ (call_agent (lift (py_get post "score" (PInt 0)))) (fun score =>
  say ("  in /" ++ fmt E submolt ++ " - Score: " ++ fmt E score))))).

Definition do_search : R unit :=
  then_ (ask_line "Search query: ") (fun query =>
  then_ (call_agent (search E query 20)) (fun results =>
  if truthy results && is_list results then
    match results with
    | PList posts =>
        then_ (say (Text.NL ++ "🔍 Search results ("
                    ++ fmt E (PInt (Z.of_nat (List.length posts)))
                    ++ " found):")) (fun _ =>
        for_each show_search_post (firstn 10 posts))
    | _ => done tt
    end
  else done tt)).

Definition show_submolt (submolt : pyval) : R unit :=
  then_ (call_agent (lift (py_get submolt "name" PNone))) (fun name =>
  then_ (call_agent
           (lift (py_get submolt "description" (PStr "No description"))))
        (fun description =>
  say ("  /" ++ fmt E name ++ " - " ++ fmt E description))).

Definition do_submolts : R unit :=
  then_ (call_agent (list_submolts E)) (fun submolts =>
  if truthy submolts && is_list submolts then
    match submolts with
    | PList items =>
        then_ (say (Text.NL ++ "📁 Submolts ("
                    ++ fmt E (PInt (Z.of_nat (List.length items)))
                    ++ " communities):")) (fun _ =>
        for_each show_submolt items)
    | _ => done tt
    end
  else done tt).

Definition do_register : R unit :=
  then_ (ask_line "Agent name: ") (fun name =>
  then_ (ask_line "Description: ") (fun description =>
  then_ (call_agent (register E name description)) (fun _ => done tt))).

Definition do_setkey : R unit :=
  then_ (ask_line "API Key: ") (fun key =>
  call_agent (set_api_key key)).

Definition do_heartbeat : R unit :=
  fun keys s => call_agent (heartbeat E (clock s)) keys s.

Definition do_ask : R unit :=
  then_ (ask_line "Ask AI: ") (fun question =>
  then_ (say (Text.NL ++ "AI Response:")) (fun _ =>
  then_ (call_agent (ask_ai E question None)) (fun response =>
  fun keys s =>
    if negb (streaming s) then say (fmt E response) keys s
    else done tt keys s))).

(** Lines 354-441: the body of the [try] of one turn of the loop; [true]
    stands for the [break]. *)
Definition turn : R bool :=
  then_ (input (Text.NL ++ "> ")) (fun line =>
  let command := Text.lower (Text.strip line) in
  if String.eqb command "" then done false
  else if String.eqb command "quit" || String.eqb command "exit" then
    then_ (say "Goodbye!") (fun _ => done true)
  else
    then_
      (if String.eqb command "help" then say_all help_lines
       else if String.eqb command "register" then do_register
       else if String.eqb command "setkey" then do_setkey
       else if String.eqb command "profile" then do_profile
       else if String.eqb command "feed" then do_feed
       else if String.eqb command "post" then do_post
       else if String.eqb command "search" then do_search
       else if String.eqb command "submolts" then do_submolts
       else if String.eqb command "browse" then call_agent (autonomous_browse E)
       else if String.eqb command "heartbeat" then do_heartbeat
       else if String.eqb command "ask" then do_ask
       else say ("Unknown command: " ++ command
                 ++ ". Type 'help' for available commands."))
      (fun _ => done false)).

(** [str(e)] for what [except Exception] catches. *)
Definition describe (g : signal) : string :=
  match g with
  | Exception e => message_of e
  | EOFError => "EOF when reading a line"
  | KeyboardInterrupt => ""
  end.

(** How a session ends: by [quit], leaving the rest of the input unread;
    or it does not end, because standard input is at its end and every
    further turn prints the prompt and the error of [input()]. The third
    case is the model running out of turns. *)
Inductive ending : Type :=
| Quit (unread : list event) (s : state)
| Starved (s : state)
| OutOfTurns.

(** Lines 353-446: the loop, for at most [turns] turns. *)
Fixpoint loop (turns : nat) (keys : list event) (s : state) : ending :=
  match turns with
  | O => OutOfTurns
  | S turns' =>
      match turn keys s with
      | (Done true, keys', s') => Quit keys' s'
      | (Done false, keys', s') => loop turns' keys' s'
      | (Raised KeyboardInterrupt, keys', s') =>
          loop turns' keys'
               (add_console [(Text.NL ++ Text.NL
                                ++ "Interrupted. Type 'quit' to exit.")
                               ++ Text.NL] s')
      | (Raised EOFError, keys', s') =>
          Starved (add_console [("Error: " ++ describe EOFError) ++ Text.NL] s')
      | (Raised (Exception e), keys', s') =>
          loop turns' keys'
               (add_console [("Error: " ++ describe (Exception e)) ++ Text.NL] s')
      end
  end.

(** Lines 343-351: the banner of [interactive_mode]. *)
Definition banner (s : state) : list string :=
  [ (Text.NL ++ rule) ++ Text.NL;
    "🤖 MOLTBOOK AI AGENT - Interactive Mode" ++ Text.NL;
    rule ++ Text.NL ]
  ++ (if negb (truthy (api_key s))
      then [ (Text.NL ++ "⚠ No API key set. Please register or set an API key first.")
               ++ Text.NL;
             "Commands: register, setkey, help, quit" ++ Text.NL ]
      else [ (Text.NL ++ "Type 'help' for available commands") ++ Text.NL ]).

Definition interactive_mode (turns : nat) (keys : list event) (s : state)
  : ending :=
  loop turns keys (add_console (banner s) s).

(** [main]: the key is the value of [MOLTBOOK_API_KEY], if it is set. *)
Definition main (environ_key : option string) (turns : nat)
           (keys : list event) (s : state) : ending :=
  let s0 := add_console ["🚀 Moltbook AI Agent" ++ Text.NL;
                         ("Powered by Pollinations AI" ++ Text.NL) ++ Text.NL] s in
  let agent :=
    {| api_key := match environ_key with Some k => PStr k | None => PNone end;
       agent_info := None; conversation_history := []; streaming := true;
       net := net s0; console := console s0; slept := slept s0 |} in
  interactive_mode turns keys agent.

End Agent.

(** The command a typed line stands for. *)
Definition command_of (line : string) : string := Text.lower (Text.strip line).

Definition types_setkey (e : event) : bool :=
  match e with
  | Typed line => String.eqb (command_of line) "setkey"
  | CtrlC => false
  end.

Definition types_quit (e : event) : bool :=
  match e with
  | Typed line =>
      String.eqb (command_of line) "quit" || String.eqb (command_of line) "exit"
  | CtrlC => false
  end.

(** A computation of the shell only takes input from the front: what it
    leaves is what remains after the events it used. *)
Definition reads {A} (r : R A) : Prop :=
  forall keys s, exists used,
    keys = (used ++ snd (fst (r keys s)))%list.

(** A method that, run by an agent without a key, leaves it without a key
    and sends nothing but chat requests. *)
Definition keyless {A} (m : M A) : Prop :=
  forall s, truthy (api_key s) = false ->
    truthy (api_key (snd (m s))) = false
    /\ exists l, net (snd (m s)) = (net s ++ l)%list
                 /\ forallb is_chat_call l = true.

(** The same for a computation of the shell. *)
Definition keyless_shell {A} (r : R A) : Prop :=
  forall keys s, truthy (api_key s) = false ->
    truthy (api_key (snd (r keys s))) = false
    /\ exists l, net (snd (r keys s)) = (net s ++ l)%list
                 /\ forallb is_chat_call l = true.

(** The state a session is left in, if the model got that far. *)
Definition final (e : ending) : option state :=
  match e with
  | Quit _ s => Some s
  | Starved s => Some s
  | OutOfTurns => None
  end.

End Shell.

(* ================================================================== *)
(** ** Concrete environments *)
(* ================================================================== *)

(** Environments given by finite tables, to run the model on concrete
    streams and replies: [json.loads] by a table from payload text to value,
    ASCII lines decoded to themselves, the chat service answering with one
    fixed reply and the Moltbook service by a function of the request. *)
Module Scripted.
Import Py Sys.

Fixpoint lookup {A} (k : string) (tbl : list (string * A)) : option A :=
  match tbl with
  | [] => None
  | (k', v) :: tbl' => if String.eqb k k' then Some v else lookup k tbl'
  end.

Definition str_of (v : pyval) : string :=
  match v with
  | PStr s => s
  | PNone => "None"
  | PBool true => "True"
  | PBool false => "False"
  | _ => "?"
  end.

Definition env (payloads : list (string * pyval)) (ai : chat_reply)
           (moltbook : call -> http_reply) : Env :=
  {| json_loads := fun text => match lookup text payloads with
                               | Some v => Parsed v
                               | None => Malformed
                               end;
     hashable_slices := true;
     decode_utf8 := fun line => Some line;
     py_str := str_of;
     ai_service := fun _ _ _ => ai;
     moltbook_service := fun _ c => moltbook c |}.

Definition DQ : string := String (ascii_of_nat 34) "".
Definition quoted (s : string) : string := DQ ++ s ++ DQ.

(** The text and the value of a completion chunk carrying [c]. *)
Definition chunk_text (c : string) : string :=
  "{" ++ quoted "choices" ++ ":[{" ++ quoted "delta" ++ ":{"
      ++ quoted "content" ++ ":" ++ quoted c ++ "}}]}".
Definition chunk (c : string) : pyval :=
  PDict [("choices", PList [PDict [("delta", PDict [("content", PStr c)])]])].

Definition stream_with (status : Z) (lines : list string) : chat_reply :=
  ChatResponse {| chat_status := status; chat_error := "HTTP error";
                  iter_lines := lines; stream_error := None;
                  chat_text := "" |}.

Definition stream (lines : list string) : chat_reply := stream_with 200 lines.

Definition ok (text : string) : http_reply :=
  HttpResponse {| resp_status := 200; resp_error := ""; resp_text := text |}.

Definition offline (c : call) : http_reply := HttpFailed "offline".

(** The fragments Hel, lo and world, with a frame that is no JSON, an
    empty line and a comment line among them. *)
Definition hello_lines : list string :=
  [ "data: " ++ chunk_text "Hel"; ""; "data: {bad";
    "data: " ++ chunk_text "lo"; ": keep-alive";
    "data: " ++ chunk_text " world" ].

Definition hello_env : Env :=
  env [ (chunk_text "Hel", chunk "Hel"); (chunk_text "lo", chunk "lo");
        (chunk_text " world", chunk " world") ]
      (stream (hello_lines ++ ["data: [DONE]"; "data: " ++ chunk_text "lo"]))
      offline.

(** A stream with a frame whose payload is the JSON value [null], a chunk
    carrying Hi and the sentinel. *)
Definition null_env : Env :=
  env [ ("null", PNone); (chunk_text "Hi", chunk "Hi") ]
      (stream ["data: null"; "data: " ++ chunk_text "Hi"; "data: [DONE]"])
      offline.

(** Decision texts used as examples. *)
Definition both_tokens : string := "UPVOTE, or maybe COMMENT".
Definition padded_comment : string := "COMMENT" ++ Text.NL ++ " Great point!".
Definition plain_comment : string := "COMMENT" ++ Text.NL ++ "Great point!".

(** An agent with a key, facing a Moltbook service that is down. *)
Definition offline_env : Env := env [] (stream []) offline.
Definition keyed : state := init (PStr "moltbook_key") true.

(** A Moltbook service that knows the agent and has an empty feed, and one
    whose feed cannot be fetched. *)
Definition profile_text : string :=
  "{" ++ quoted "name" ++ ":" ++ quoted "molty" ++ "}".
Definition profile_value : pyval := PDict [("name", PStr "molty")].

Definition empty_feed (c : call) : http_reply :=
  match c with
  | Http _ endpoint _ _ =>
      if String.eqb endpoint "/agents/me" then ok profile_text
      else ok "[]"
  | ChatPost _ _ => HttpFailed "not a Moltbook request"
  end.

Definition broken_feed (c : call) : http_reply :=
  match c with
  | Http _ endpoint _ _ =>
      if String.eqb endpoint "/agents/me" then ok profile_text
      else HttpResponse {| resp_status := 500;
                           resp_error := "500 Server Error";
                           resp_text := "try later" |}
  | ChatPost _ _ => HttpFailed "not a Moltbook request"
  end.

Definition empty_feed_env : Env :=
  env [(profile_text, profile_value); ("[]", PList [])] (stream []) empty_feed.
Definition broken_feed_env : Env :=
  env [(profile_text, profile_value)] (stream []) broken_feed.

(** A Moltbook service that answers every request with 204 No Content. *)
Definition no_content (c : call) : http_reply :=
  HttpResponse {| resp_status := 204; resp_error := ""; resp_text := "" |}.
Definition no_content_env : Env := env [] (stream []) no_content.


(** A chat service whose connection breaks after two fragments, and one
    whose stream ends without the sentinel. *)
Definition broken_stream_env : Env :=
  env [(chunk_text "Hel", chunk "Hel"); (chunk_text "lo", chunk "lo")]
      (ChatResponse {| chat_status := 200; chat_error := "";
                       iter_lines := ["data: " ++ chunk_text "Hel";
                                      "data: " ++ chunk_text "lo"];
                       stream_error := Some "Connection broken";
                       chat_text := "" |})
      offline.
Definition unterminated_env : Env :=
  env [(chunk_text "Hel", chunk "Hel"); (chunk_text "lo", chunk "lo")]
      (stream ["data: " ++ chunk_text "Hel"; "data: " ++ chunk_text "lo"])
      offline.

(** A chat service answering a request without streaming: a reply without
    [choices], and a complete one. *)
Definition plain (text : string) : chat_reply :=
  ChatResponse {| chat_status := 200; chat_error := ""; iter_lines := [];
                  stream_error := None; chat_text := text |}.
Definition no_choices_env : Env := env [("{}", PDict [])] (plain "{}") offline.
Definition reply_value (v : pyval) : pyval :=
  PDict [("choices", PList [PDict [("message", PDict [("content", v)])]])].
Definition plain_reply_env : Env :=
  env [("reply", reply_value (PStr "UPVOTE"))] (plain "reply") offline.

(** A Moltbook service that registers the agent, and one that answers 403
    with a reason. *)
Definition registered_text : string :=
  "{" ++ quoted "api_key" ++ ":" ++ quoted "moltbook_sk_1" ++ "}".
Definition registered_value : pyval := PDict [("api_key", PStr "moltbook_sk_1")].
Definition registrar_env : Env :=
  env [(registered_text, registered_value)] (stream [])
      (fun _ => ok registered_text).
Definition forbidden (c : call) : http_reply :=
  HttpResponse {| resp_status := 403; resp_error := "403 Client Error";
                  resp_text := "agent not claimed" |}.
Definition forbidden_env : Env := env [] (stream []) forbidden.

(** Feed items that cannot be browsed: a link post, whose content is
    [null], and an item that is no object. *)
Definition link_post : list (string * pyval) :=
  [("id", PStr "9"); ("title", PStr "A link"); ("content", PNone)].

(** A post whose content is an object; the same environment under an
    interpreter older than Python 3.12; and a Moltbook service whose
    answers hold an integer too long for the parser. *)
Definition object_post : list (string * pyval) :=
  [("id", PStr "10"); ("content", PDict [("text", PStr "hi")])].

Definition older_python (E : Env) : Env :=
  {| json_loads := json_loads E;
     hashable_slices := false;
     decode_utf8 := decode_utf8 E;
     py_str := py_str E;
     ai_service := ai_service E;
     moltbook_service := moltbook_service E |}.

Definition long_number_env : Env :=
  {| json_loads := fun _ => Refused IntDigits;
     hashable_slices := true;
     decode_utf8 := fun line => Some line;
     py_str := str_of;
     ai_service := fun _ _ _ => ChatFailed "timed out";
     moltbook_service := fun _ _ => ok "[100000000000000000000]" |}.

(** A Moltbook service whose profile has no name, and one whose search
    finds two posts. *)
Definition nameless_text : string := "{" ++ quoted "karma" ++ ":1}".
Definition nameless_env : Env :=
  env [(nameless_text, PDict [("karma", PInt 1)])] (stream [])
      (fun _ => ok nameless_text).
Definition found_posts : pyval :=
  PList [PDict [("title", PStr "On learning")];
         PDict [("title", PStr "On teaching")]].
Definition finder_env : Env :=
  env [("found", found_posts)] (ChatFailed "timed out") (fun _ => ok "found").

(** A chat service that cannot be reached. *)
Definition silent_env : Env := env [] (ChatFailed "timed out") offline.

(** For the shell: a clock that stands still, the message of an
    exception, and what an operator types in three sessions. The first
    has no key and tries most commands before leaving; the second never
    says quit; the third leaves at once. *)
Definition still_clock (s : state) : string := "2026-01-01 12:00:00".

Definition class_name (e : exn) : string :=
  match e with
  | TypeError => "TypeError"
  | KeyError => "KeyError"
  | IndexError => "IndexError"
  | AttributeError => "AttributeError"
  | UnicodeDecodeError => "UnicodeDecodeError"
  | ValueError => "ValueError"
  | RecursionError => "RecursionError"
  | RequestException msg _ => msg
  end.

Definition keyless_keys : list Shell.event :=
  [ Shell.Typed "register"; Shell.Typed "molty"; Shell.Typed "a bot";
    Shell.Typed "Feed"; Shell.Typed ""; Shell.CtrlC;
    Shell.Typed "browse"; Shell.Typed "heartbeat";
    Shell.Typed "ask"; Shell.Typed "hello"; Shell.Typed " Quit " ].

Definition restless_keys : list Shell.event :=
  [ Shell.Typed "profile"; Shell.CtrlC; Shell.Typed "quit it";
    Shell.Typed "post"; Shell.Typed "general" ].

Definition leaving_keys : list Shell.event :=
  [ Shell.Typed "  EXIT "; Shell.Typed "feed" ].

(** [n] calls of [ask_ai] in a row. *)
Fixpoint turns (E : Env) (n : nat) (s : state) : state :=
  match n with
  | O => s
  | S k => turns E k (snd (MoltbookAgent.ask_ai E "hello" None s))
  end.

End Scripted.

(* ================================================================== *)
(** ** Facts about the text operations *)
(* ================================================================== *)

Module TextFacts.
Import Text.

Lemma lstrip_app (a b : string) :
  lstrip (a ++ b) =
  match lstrip a with
  | EmptyString => lstrip b
  | String _ _ as x => x ++ b
  end.
Proof.
  induction a as [|c a IH]; simpl.
  - reflexivity.
  - destruct (isspace c); [exact IH | reflexivity].
Qed.

Lemma rstrip_app (a b : string) :
  rstrip (a ++ b) =
  match rstrip b with
  | EmptyString => rstrip a
  | String _ _ as y => a ++ y
  end.
Proof.
  induction a as [|c a IH]; simpl.
  - destruct (rstrip b); reflexivity.
  - rewrite IH. destruct (rstrip b) as [|y ys]; [reflexivity|].
    destruct (a ++ String y ys) eqn:Heq; [|reflexivity].
    destruct a; discriminate.
Qed.

Lemma rstrip_empty (s : string) :
  rstrip s = EmptyString <-> all_space s = true.
Proof.
  induction s as [|c r IH]; simpl.
  - tauto.
  - destruct (rstrip r) eqn:Hr.
    + destruct (isspace c); simpl.
      * tauto.
      * split; discriminate.
    + split; [discriminate|].
      intros H. apply andb_prop in H. destruct H as [_ H].
      apply IH in H. discriminate.
Qed.

Lemma lstrip_empty (s : string) :
  lstrip s = EmptyString <-> all_space s = true.
Proof.
  induction s as [|c r IH]; simpl.
  - tauto.
  - destruct (isspace c); simpl; [exact IH|].
    split; discriminate.
Qed.

Lemma lstrip_head (s : string) (c : ascii) (r : string) :
  lstrip s = String c r -> isspace c = false.
Proof.
  induction s as [|x s IH]; simpl; [discriminate|].
  destruct (isspace x) eqn:Hx; [exact IH|].
  intros H. injection H as -> _. exact Hx.
Qed.

Lemma lstrip_rstrip (s : string) : lstrip (rstrip s) = rstrip (lstrip s).
Proof.
  induction s as [|c r IH]; simpl; [reflexivity|].
  destruct (isspace c) eqn:Hc.
  - destruct (rstrip r) eqn:Hr; simpl.
    + rewrite <- IH. reflexivity.
    + rewrite Hc. exact IH.
  - simpl. destruct (rstrip r); simpl; rewrite Hc; reflexivity.
Qed.

Lemma rstrip_idem (s : string) : rstrip (rstrip s) = rstrip s.
Proof.
  induction s as [|c r IH]; simpl; [reflexivity|].
  destruct (rstrip r) eqn:Hr.
  - destruct (isspace c) eqn:Hc; simpl; [reflexivity|].
    rewrite Hc. reflexivity.
  - simpl. simpl in IH. rewrite IH. reflexivity.
Qed.

Lemma strip_rstrip (s : string) : strip (rstrip s) = strip s.
Proof.
  unfold strip. rewrite lstrip_rstrip, rstrip_idem. reflexivity.
Qed.

Lemma strip_empty (s : string) :
  strip s = EmptyString <-> all_space s = true.
Proof.
  unfold strip. rewrite rstrip_empty. split.
  - intros H. destruct (lstrip s) as [|c r] eqn:Hl.
    + apply lstrip_empty. exact Hl.
    + apply lstrip_head in Hl. simpl in H. rewrite Hl in H. discriminate.
  - intros H. apply lstrip_empty in H. rewrite H. reflexivity.
Qed.

Lemma strip_app_space (a b : string) :
  all_space b = true -> strip (a ++ b) = strip a.
Proof.
  intros Hb. unfold strip. rewrite lstrip_app.
  destruct (lstrip a) as [|c r] eqn:Hl.
  - apply lstrip_empty in Hb. rewrite Hb. reflexivity.
  - rewrite rstrip_app. apply rstrip_empty in Hb. rewrite Hb. reflexivity.
Qed.

Lemma has_newline_lstrip (s : string) :
  has_newline s = false -> has_newline (lstrip s) = false.
Proof.
  induction s as [|c r IH]; simpl; [reflexivity|].
  intros H. apply orb_false_elim in H. destruct H as [Hc Hr].
  destruct (isspace c); [auto|]. simpl. rewrite Hc, Hr. reflexivity.
Qed.

Lemma has_newline_rstrip (s : string) :
  has_newline s = false -> has_newline (rstrip s) = false.
Proof.
  induction s as [|c r IH]; simpl; [reflexivity|].
  intros H. apply orb_false_elim in H. destruct H as [Hc Hr].
  specialize (IH Hr).
  destruct (rstrip r) eqn:E.
  - destruct (isspace c); simpl; [reflexivity|]. rewrite Hc. reflexivity.
  - cbn [has_newline]. rewrite Hc. exact IH.
Qed.

Lemma has_newline_strip (s : string) :
  has_newline s = false -> has_newline (strip s) = false.
Proof.
  intros H. unfold strip. apply has_newline_rstrip, has_newline_lstrip, H.
Qed.

Lemma split_lines_nonempty (s : string) : split_lines s <> [].
Proof.
  induction s as [|c r IH]; simpl; [discriminate|].
  destruct (Ascii.eqb c LF); [discriminate|].
  destruct (split_lines r); discriminate.
Qed.

Lemma split_lines_single (s : string) :
  has_newline s = false -> split_lines s = [s].
Proof.
  induction s as [|c r IH]; simpl; [reflexivity|].
  intros H. apply orb_false_elim in H. destruct H as [Hc Hr].
  rewrite Hc, (IH Hr). reflexivity.
Qed.

(** A first line and what follows it. *)
Lemma split_lines_first (a b : string) :
  has_newline a = false ->
  split_lines (a ++ NL ++ b) = a :: split_lines b.
Proof.
  induction a as [|c r IH]; simpl.
  - reflexivity.
  - intros H. apply orb_false_elim in H. destruct H as [Hc Hr].
    rewrite Hc. simpl in IH. rewrite (IH Hr). reflexivity.
Qed.

Lemma join_split_lines (s : string) : join NL (split_lines s) = s.
Proof.
  induction s as [|c r IH]; simpl; [reflexivity|].
  destruct (Ascii.eqb c LF) eqn:Hc.
  - apply Ascii.eqb_eq in Hc. subst c.
    pose proof (split_lines_nonempty r) as Hne.
    destruct (split_lines r) as [|h t]; [contradiction|].
    cbn [join]. cbn [join] in IH. rewrite IH. reflexivity.
  - destruct (split_lines r) as [|h t] eqn:Hs.
    + exfalso. eapply split_lines_nonempty. exact Hs.
    + destruct t as [|h' t'].
      * simpl in *. rewrite IH. reflexivity.
      * cbn [join] in *. rewrite <- IH. reflexivity.
Qed.

Lemma last_char_app (d : ascii) (a : string) (c : ascii) (b : string) :
  last_char d (a ++ String c b) = last_char c b.
Proof.
  revert d. induction a as [|x a IH]; intros d; simpl; [reflexivity|apply IH].
Qed.

Lemma endswith_last_char (suffix s : string) (d : ascii) :
  endswith suffix s = true ->
  suffix <> EmptyString ->
  last_char d s = last_char d suffix.
Proof.
  intros H Hne. revert d. induction s as [|c r IH]; intros d; simpl in H.
  - rewrite orb_false_r in H. apply String.eqb_eq in H. subst. reflexivity.
  - apply orb_prop in H. destruct H as [H|H].
    + apply String.eqb_eq in H. subst. reflexivity.
    + simpl. rewrite (IH H c).
      destruct suffix; [contradiction | reflexivity].
Qed.

Lemma endswith_app (a suffix : string) : endswith suffix (a ++ suffix) = true.
Proof.
  induction a as [|c a IH]; simpl.
  - destruct suffix; simpl; rewrite ?String.eqb_refl, ?Ascii.eqb_refl; reflexivity.
  - rewrite IH. apply orb_true_r.
Qed.

End TextFacts.

(* ================================================================== *)
(** ** Facts about states and the monad *)
(* ================================================================== *)

Module SysFacts.
Import Py Sys.

Lemma append_empty_r (s : string) : s ++ "" = s.
Proof. induction s as [|c r IH]; simpl; [reflexivity | now rewrite IH]. Qed.

Lemma append_assoc (a b c : string) : (a ++ b) ++ c = a ++ (b ++ c).
Proof. induction a as [|x a IH]; simpl; [reflexivity | now rewrite IH]. Qed.

Lemma add_console_nil (s : state) : add_console [] s = s.
Proof. destruct s. unfold add_console. simpl. now rewrite app_nil_r. Qed.

Lemma add_console_app (a b : list string) (s : state) :
  add_console b (add_console a s) = add_console (a ++ b) s.
Proof. unfold add_console. simpl. now rewrite app_assoc. Qed.

Lemma quiet_refl (s : state) : quiet s s.
Proof. repeat split. Qed.

Lemma quiet_trans (a b c : state) : quiet a b -> quiet b c -> quiet a c.
Proof.
  unfold quiet. intros (H1 & H2 & H3 & H4 & H5 & H6) (K1 & K2 & K3 & K4 & K5 & K6).
  repeat split; congruence.
Qed.

Lemma quiet_add_console (out : list string) (s : state) :
  quiet s (add_console out s).
Proof. repeat split. Qed.

(** One step of the monad: the combinators are unfolded, the text and
    list operations are left as they are. *)
Ltac run :=
  cbv beta iota zeta
      delta [bind ret raise lift get issue write print sleep set_agent_info
             set_key history_append except_request raise_for_status fst snd].

Ltac run_in H :=
  cbv beta iota zeta
      delta [bind ret raise lift get issue write print sleep set_agent_info
             set_key history_append except_request raise_for_status fst snd] in H.

Lemma join_empty_cons (x : string) (l : list string) :
  Text.join "" (x :: l) = x ++ Text.join "" l.
Proof.
  destruct l; simpl; [now rewrite append_empty_r | reflexivity].
Qed.

End SysFacts.

(* ================================================================== *)
(** ** The chat client *)
(* ================================================================== *)

Module ChatFacts.
Import Py Sys PollinationsAI SysFacts.

Section Client.
Variable E : Env.

Lemma absorb_quiet (data : pyval) (acc : string) (s : state) :
  quiet s (snd (absorb data acc s)).
Proof.
  unfold absorb, bind, lift, ret, raise, write.
  repeat match goal with
         | |- context [match ?x with _ => _ end] => destruct x; simpl
         end;
    try apply quiet_refl; apply quiet_add_console.
Qed.


(** A completion chunk adds its content, and echoes it when there is
    any. *)
Lemma absorb_chunk (data : pyval) (acc : string) (s : state) :
  chunk_shaped data = true ->
  absorb data acc s =
  (Ok (acc ++ delta_content data),
   add_console (filter nonempty [delta_content data]) s).
Proof.
  intros H. destruct data as [| | | | |l|d]; try discriminate.
  unfold chunk_shaped in H. unfold delta_content, absorb, bind, lift. simpl.
  destruct (dict_get "choices" d) as [choices|];
    [|now rewrite append_empty_r, add_console_nil].
  destruct choices as [| | | | |l|]; try discriminate. simpl.
  destruct l as [|first rest];
    [now rewrite append_empty_r, add_console_nil|].
  destruct first as [| | | | | |f]; try discriminate. simpl.
  destruct (dict_get "delta" f) as [delta|]; simpl;
    [|now rewrite append_empty_r, add_console_nil].
  destruct delta as [| | | | | |dl]; try discriminate. simpl.
  destruct (dict_get "content" dl) as [content|]; simpl;
    [|now rewrite append_empty_r, add_console_nil].
  destruct content as [|b|n|f0|c|l|d0]; simpl in *;
    try (rewrite (proj1 (negb_true_iff _) H));
    try now rewrite append_empty_r, add_console_nil.
  unfold nonempty. destruct (String.eqb c ""%string) eqn:Hc; simpl.
  - apply String.eqb_eq in Hc. subst.
    now rewrite append_empty_r, add_console_nil.
  - reflexivity.
Qed.

Lemma stream_loop_quiet (lines : list string) (ending : option string) :
  forall (acc : string) (s : state),
    quiet s (snd (stream_loop E lines ending acc s)).
Proof.
  induction lines as [|line rest IH]; intros acc s; cbn [stream_loop].
  - destruct ending; apply quiet_refl.
  - destruct (String.eqb line ""); [apply IH|].
    destruct (decode_utf8 E line) as [line_text|]; [|apply quiet_refl].
    destruct (Text.startswith "data: " line_text); [|apply IH].
    destruct (String.eqb _ "[DONE]"); [apply quiet_refl|].
    destruct (json_loads E _) as [data| |l]; [|apply IH|apply quiet_refl].
    unfold bind. pose proof (absorb_quiet data acc s) as Hq.
    destruct (absorb data acc s) as [[acc'|e] s1]; simpl in *.
    + eapply quiet_trans; [exact Hq | apply IH].
    + exact Hq.
Qed.




(** The loop over admissible lines that end in the sentinel. *)
Lemma stream_loop_aggregates (pre : list string) (done : string)
      (post : list string) (ending : option string) :
  forallb (admissible E) pre = true ->
  is_sentinel E done = true ->
  forall (acc : string) (s : state),
    stream_loop E (pre ++ done :: post) ending acc s =
    (Ok (acc ++ Text.join "" (map (contribution E) pre)),
     add_console (filter nonempty (map (contribution E) pre)) s).
Proof.
  intros Hpre Hdone.
  induction pre as [|line pre IH]; intros acc s.
  - cbn [app map stream_loop Text.join filter].
    unfold is_sentinel, payload in Hdone.
    destruct (String.eqb done ""); [discriminate|].
    destruct (decode_utf8 E done) as [t|]; [|discriminate].
    destruct (Text.startswith "data: " t); [|discriminate].
    rewrite Hdone. unfold ret.
    now rewrite append_empty_r, add_console_nil.
  - cbn [forallb] in Hpre. apply andb_prop in Hpre.
    destruct Hpre as [Hline Hrest]. specialize (IH Hrest).
    cbn [app map]. rewrite join_empty_cons.
    cbn [stream_loop].
    unfold admissible, decodes, is_sentinel, contribution, payload in *.
    destruct (String.eqb line "") eqn:Hl.
    { rewrite IH. reflexivity. }
    destruct (decode_utf8 E line) as [t|]; [|discriminate].
    destruct (Text.startswith "data: " t).
    2:{ rewrite IH. reflexivity. }
    destruct (String.eqb (Text.strip (Text.slice_from 6 t)) "[DONE]");
      [discriminate|].
    destruct (json_loads E (Text.slice_from 6 t)) as [data| |l];
      [|rewrite IH; reflexivity|discriminate].
    simpl in Hline. unfold bind.
    rewrite (absorb_chunk data acc s Hline), IH.
    rewrite add_console_app, append_assoc.
    cbn [filter]. destruct (nonempty (delta_content data)); reflexivity.
Qed.

(** Whatever the service answers, [chat] issues one request and leaves
    the agent's attributes alone. *)
Lemma chat_effect (messages : list message) (stream : bool) (s : state) :
  quiet (add_call (ChatPost messages stream) s)
        (snd (chat E messages stream s)).
Proof.
  unfold chat, post. run.
  destruct (ai_service E (net s) messages stream) as [msg|r]; run.
  - apply quiet_add_console.
  - destruct (is_error_status (chat_status r)); run;
      [apply quiet_add_console|].
    destruct stream; run.
    + pose proof (stream_loop_quiet (iter_lines r) (stream_error r) ""
                    (add_call (ChatPost messages true) s)) as Hq.
      destruct (stream_loop E (iter_lines r) (stream_error r) ""
                  (add_call (ChatPost messages true) s)) as [[full|e] s1];
        cbn [snd] in Hq; run.
      * eapply quiet_trans; [exact Hq | apply quiet_add_console].
      * destruct e; exact Hq.
    + unfold response_json. run.
      destruct (json_loads E (chat_text r)) as [data| |l]; run.
      * destruct (subscript_key data "choices") as [choices|e]; run;
          [|destruct e; repeat split].
        destruct (subscript_0 choices) as [first|e]; run;
          [|destruct e; repeat split].
        destruct (subscript_key first "message") as [m|e]; run;
          [|destruct e; repeat split].
        destruct (subscript_key m "content") as [c|e]; run;
          [|destruct e]; repeat split.
      * apply quiet_add_console.
      * destruct l; repeat split.
Qed.

(** The aggregation the chat client is specified for. In streaming mode,
    for a response that passes [raise_for_status] and whose lines end in the
    [DONE] sentinel, and before it decode, are not the sentinel and carry,
    where the payload is valid JSON, a completion chunk, [chat] returns the
    concatenation in arrival order of the [content] of the chunks; a payload
    that is not valid JSON adds nothing and the later frames are still
    aggregated; the sentinel ends the loop normally, whatever follows it.
    The contents are echoed as they arrive. *)
Theorem chat_stream_aggregates (messages : list message) (s : state)
        (r : chat_response) (pre : list string) (done : string)
        (post : list string) :
  ai_service E (net s) messages true = ChatResponse r ->
  is_error_status (chat_status r) = false ->
  iter_lines r = (pre ++ done :: post)%list ->
  forallb (admissible E) pre = true ->
  is_sentinel E done = true ->
  chat E messages true s =
  (Ok (PStr (Text.join "" (map (contribution E) pre))),
   add_console (filter nonempty (map (contribution E) pre) ++ [Text.NL])
               (add_call (ChatPost messages true) s)).
Proof.
  intros Hreply Hstatus Hlines Hpre Hdone.
  unfold chat, PollinationsAI.post. run.
  rewrite Hreply. run. rewrite Hstatus, Hlines.
  rewrite (stream_loop_aggregates pre done post _ Hpre Hdone).
  run. rewrite add_console_app. reflexivity.
Qed.

(** What the lines of the theorem contribute. *)
Lemma contribution_invalid_json (line data_str : string) :
  payload E line = Some data_str ->
  json_loads E data_str = Malformed ->
  contribution E line = "".
Proof. intros Hp Hj. unfold contribution. now rewrite Hp, Hj. Qed.

Lemma contribution_chunk (line data_str : string) (data : pyval) :
  payload E line = Some data_str ->
  json_loads E data_str = Parsed data ->
  contribution E line = delta_content data.
Proof. intros Hp Hj. unfold contribution. now rewrite Hp, Hj. Qed.

Lemma contribution_other (line : string) :
  payload E line = None -> contribution E line = "".
Proof. intros Hp. unfold contribution. now rewrite Hp. Qed.

End Client.

Import Scripted.

(** The fragments Hel, lo and world give Hello world. *)
Example chat_stream_hello :
  chat hello_env [] true (init PNone true) =
  (Ok (PStr "Hello world"),
   add_console ["Hel"; "lo"; " world"; Text.NL]
               (add_call (ChatPost [] true) (init PNone true))).
Proof.
  exact (chat_stream_aggregates hello_env [] (init PNone true) _ hello_lines
           "data: [DONE]" ["data: " ++ chunk_text "lo"]
           eq_refl eq_refl eq_refl eq_refl eq_refl).
Qed.

(** C1: the claim fails at a frame whose payload is valid JSON but no
    completion chunk. For the lines [data: null], a chunk carrying Hi and
    the sentinel, the membership test of line 70 raises [TypeError] on the
    value [None]; neither [except] clause of [chat] catches it, so [chat]
    raises instead of skipping the frame and returning Hi. *)
Theorem chat_stream_null_frame :
  chat null_env [] true (init PNone true) =
  (Raise TypeError, add_call (ChatPost [] true) (init PNone true)).
Proof. reflexivity. Qed.

End ChatFacts.

(* ================================================================== *)
(** ** The social client *)
(* ================================================================== *)

Module SocialFacts.
Import Py Sys MoltbookAgent SysFacts.

Section Agent.
Variable E : Env.

Lemma make_request_no_key (method endpoint : string)
      (data params : option dict) (s : state) :
  truthy (api_key s) = false ->
  _make_request E method endpoint data params s =
  (Ok PNone, add_console [no_key_message] s).
Proof. intros H. unfold _make_request. run. rewrite H. reflexivity. Qed.


(** The requests [_make_request] issues: one when the key is set and the
    method is supported, none otherwise; the rest of the agent is left
    alone. *)
Lemma make_request_effect (method endpoint : string)
      (data params : option dict) (s : state) :
  let s' := snd (_make_request E method endpoint data params s) in
  net s' = (net s ++
            (if truthy (api_key s)
             then match request_of method endpoint data params with
                  | Some c => [c]
                  | None => []
                  end
             else []))%list
  /\ api_key s' = api_key s /\ agent_info s' = agent_info s
  /\ conversation_history s' = conversation_history s
  /\ streaming s' = streaming s /\ slept s' = slept s.
Proof.
  unfold _make_request, send. run.
  destruct (truthy (api_key s)); cbn [negb].
  2:{ cbn. rewrite app_nil_r. repeat split. }
  destruct (request_of method endpoint data params) as [c|]; run.
  2:{ cbn. rewrite app_nil_r. repeat split. }
  destruct (moltbook_service E (net s) c) as [msg|r]; run;
    [cbn; repeat split|].
  destruct (is_error_status (resp_status r)); run; [cbn; repeat split|].
  destruct (String.eqb (resp_text r) ""); cbn [negb]; [cbn; repeat split|].
  destruct (json_loads E (resp_text r)) as [v| |[|]]; cbn; repeat split.
Qed.

Lemma success_is_no_error (status : Z) :
  (200 <= status < 300)%Z -> is_error_status status = false.
Proof. intros H. unfold is_error_status. lia. Qed.

(** A 2xx response with an empty body is the empty dict. *)
Lemma make_request_empty_body (method endpoint : string)
      (data params : option dict) (c : call) (r : http_response) (s : state) :
  truthy (api_key s) = true ->
  request_of method endpoint data params = Some c ->
  moltbook_service E (net s) c = HttpResponse r ->
  (200 <= resp_status r < 300)%Z ->
  resp_text r = "" ->
  _make_request E method endpoint data params s =
  (Ok (PDict []), add_call c s).
Proof.
  intros Hk Hc Hr Hs Ht. unfold _make_request, send. run.
  rewrite Hk, Hc. cbn [negb]. run. rewrite Hr. run.
  rewrite (success_is_no_error _ Hs), Ht. reflexivity.
Qed.

(** A request that fails in transport is [None], with the error
    reported. *)
Lemma make_request_failed (method endpoint : string)
      (data params : option dict) (c : call) (msg : string) (s : state) :
  truthy (api_key s) = true ->
  request_of method endpoint data params = Some c ->
  moltbook_service E (net s) c = HttpFailed msg ->
  _make_request E method endpoint data params s =
  (Ok PNone,
   add_console ["Moltbook API Error: " ++ msg ++ Text.NL] (add_call c s)).
Proof.
  intros Hk Hc Hr. unfold _make_request, send. run.
  rewrite Hk, Hc. cbn [negb]. run. rewrite Hr. run.
  rewrite append_assoc. reflexivity.
Qed.

(** [add_comment] and [create_post], with the body of the request as
    [comment_data] and [post_data] give it. *)
Lemma add_comment_unfold (post_id : pyval) (content : string)
      (parent_id : option string) (s : state) :
  add_comment E post_id content parent_id s =
  (result <- _make_request E "POST" ("/posts/" ++ fmt E post_id ++ "/comments")
                           (Some (comment_data content parent_id)) None ;;
   (if truthy result then print "✓ Comment added" else ret tt) ;;
   ret result) s.
Proof.
  unfold add_comment, comment_data, optional_field.
  destruct parent_id as [p|]; [destruct (given (Some p))|]; reflexivity.
Qed.

Lemma create_post_unfold (submolt title : string)
      (content url : option string) (s : state) :
  create_post E submolt title content url s =
  (result <- _make_request E "POST" "/posts"
                           (Some (post_data submolt title content url)) None ;;
   (if truthy result then print ("✓ Post created: " ++ title) else ret tt) ;;
   ret result) s.
Proof.
  unfold create_post, post_data, optional_field.
  destruct content as [c|], url as [u|];
    try destruct (given (Some c)); try destruct (given (Some u));
    reflexivity.
Qed.

(** C4: without an API key (it is [None], or empty) every operation of
    the social client returns [None] after reporting the missing key,
    and the list of requests issued is unchanged: no HTTP request is
    attempted. *)
Theorem missing_credential (s : state) :
  truthy (api_key s) = false ->
  let failure := (Ok PNone, add_console [no_key_message] s) in
  get_profile E s = failure
  /\ (forall sort limit, get_feed E sort limit s = failure)
  /\ (forall post_id, get_post E post_id s = failure)
  /\ (forall submolt title content url,
         create_post E submolt title content url s = failure)
  /\ (forall post_id content parent_id,
         add_comment E post_id content parent_id s = failure)
  /\ (forall post_id, upvote_post E post_id s = failure)
  /\ (forall post_id, downvote_post E post_id s = failure)
  /\ (forall query limit, search E query limit s = failure)
  /\ list_submolts E s = failure
  /\ (forall name description,
         create_submolt E name description s = failure)
  /\ (forall submolt_name, subscribe_submolt E submolt_name s = failure)
  /\ net (snd failure) = net s.
Proof.
  intros H failure.
  unfold get_profile, get_feed, get_post, create_post, add_comment,
    upvote_post, downvote_post, search, list_submolts, create_submolt,
    subscribe_submolt.
  repeat split; intros; run;
    rewrite ?(make_request_no_key _ _ _ _ s H); reflexivity.
Qed.

End Agent.

Lemma missing_credential_witness :
  get_profile (Scripted.env [] (Scripted.stream []) Scripted.offline)
              (init PNone true)
  = (Ok PNone, add_console [no_key_message] (init PNone true))
  /\ upvote_post (Scripted.env [] (Scripted.stream []) Scripted.offline)
                 (PStr "42") (init (PStr "") true)
     = (Ok PNone, add_console [no_key_message] (init (PStr "") true)).
Proof.
  split.
  - exact (proj1 (missing_credential
                    (Scripted.env [] (Scripted.stream []) Scripted.offline)
                    (init PNone true) eq_refl)).
  - pose proof (missing_credential
                  (Scripted.env [] (Scripted.stream []) Scripted.offline)
                  (init (PStr "") true) eq_refl) as H.
    apply H.
Defined.

End SocialFacts.

(* ================================================================== *)
(** ** The conversation *)
(* ================================================================== *)

Module ConversationFacts.
Import Py Sys MoltbookAgent SysFacts.

Lemma last_n_length {A} (n : nat) (h : list A) :
  List.length (last_n n h) = Nat.min n (List.length h).
Proof. unfold last_n. rewrite length_skipn. lia. Qed.

Lemma last_n_suffix {A} (n : nat) (h : list A) :
  h = (firstn (List.length h - n) h ++ last_n n h)%list.
Proof. unfold last_n. now rewrite firstn_skipn. Qed.

Lemma last_n_short {A} (n : nat) (h : list A) :
  (List.length h <= n)%nat -> last_n n h = h.
Proof.
  intros H. unfold last_n. replace (List.length h - n)%nat with 0%nat by lia.
  reflexivity.
Qed.

Section Agent.
Variable E : Env.

Lemma ask_ai_unfold (user_message : string) (system_prompt : option string)
      (s : state) :
  ask_ai E user_message system_prompt s =
  match PollinationsAI.chat E (request_messages user_message system_prompt s)
                            (streaming s) s with
  | (Ok response, s1) =>
      (Ok response,
       add_history (Message "assistant" response)
                   (add_history (Message "user" (PStr user_message)) s1))
  | (Raise e, s1) => (Raise e, s1)
  end.
Proof.
  unfold ask_ai, request_messages, system_part. run.
  replace (match system_prompt with
           | Some p => if given system_prompt
                       then ([] ++ [Message "system" (PStr p)])%list else []
           | None => []
           end)
    with (match system_prompt with
          | Some p => if given system_prompt
                      then [Message "system" (PStr p)] else []
          | None => []
          end)
    by (destruct system_prompt; reflexivity).
  rewrite <- app_assoc.
  destruct (PollinationsAI.chat E _ (streaming s) s) as [[response|e] s1];
    reflexivity.
Qed.

(** C2: whatever the history holds, the slice of it that [ask_ai] puts in
    the outbound request has at most ten entries, they are the most recent
    ones (the history is some older entries followed by the slice), the
    request issued carries exactly that slice between the optional system
    message and the new user message, and the stored history only grows:
    the older entries stay in [conversation_history]. *)
Theorem ask_ai_window (user_message : string) (system_prompt : option string)
        (s : state) :
  let h := conversation_history s in
  let w := last_n 10 h in
  let s' := snd (ask_ai E user_message system_prompt s) in
  (List.length w <= 10)%nat
  /\ (exists older, h = (older ++ w)%list
                    /\ List.length older = (List.length h - 10)%nat)
  /\ net s' =
     (net s ++ [ChatPost (system_part system_prompt ++ w
                            ++ [Message "user" (PStr user_message)])
                         (streaming s)])%list
  /\ (exists appended, conversation_history s' = (h ++ appended)%list).
Proof.
  intros h w s'. repeat split.
  - unfold w. rewrite last_n_length. lia.
  - exists (firstn (List.length h - 10) h). split.
    + apply last_n_suffix.
    + rewrite length_firstn. lia.
  - unfold s'. rewrite ask_ai_unfold.
    pose proof (ChatFacts.chat_effect E
                  (request_messages user_message system_prompt s)
                  (streaming s) s) as Hq.
    destruct (PollinationsAI.chat E _ (streaming s) s) as [[r|e] s1];
      destruct Hq as (_ & _ & _ & _ & Hnet & _); cbn [snd] in *;
      cbn; exact Hnet.
  - unfold s'. rewrite ask_ai_unfold.
    pose proof (ChatFacts.chat_effect E
                  (request_messages user_message system_prompt s)
                  (streaming s) s) as Hq.
    destruct (PollinationsAI.chat E _ (streaming s) s) as [[r|e] s1];
      destruct Hq as (_ & _ & Hh & _); cbn [snd] in *.
    + exists [Message "user" (PStr user_message); Message "assistant" r].
      cbn. rewrite Hh, <- app_assoc. reflexivity.
    + exists []. rewrite app_nil_r. exact Hh.
Qed.

(** C9 (amended): what a call of [ask_ai] does to the history depends on
    whether it returns. A call that returns the reply [r] has appended
    exactly two entries, the user message and then the reply, and has
    changed or removed no entry before them; this holds for every reply,
    the empty text included, since the reply is stored before anything
    reads it. A call in which [chat] raises has appended nothing: the
    appends of lines 246-247 come after the call of [chat]. *)
Theorem ask_ai_appends (user_message : string) (system_prompt : option string)
        (s : state) :
  conversation_history (snd (ask_ai E user_message system_prompt s)) =
  (conversation_history s
     ++ match fst (ask_ai E user_message system_prompt s) with
        | Ok r => [Message "user" (PStr user_message); Message "assistant" r]
        | Raise _ => []
        end)%list.
Proof.
  rewrite ask_ai_unfold.
  pose proof (ChatFacts.chat_effect E
                (request_messages user_message system_prompt s)
                (streaming s) s) as Hq.
  destruct (PollinationsAI.chat E _ (streaming s) s) as [[r'|e] s1];
    destruct Hq as (_ & _ & Hh & _); cbn [fst snd] in *.
  - cbn. rewrite Hh, <- app_assoc. reflexivity.
  - rewrite app_nil_r. exact Hh.
Qed.

End Agent.

Lemma ask_ai_appends_witness :
  conversation_history
    (snd (ask_ai Scripted.silent_env "hi" None (init PNone true))) =
  [Message "user" (PStr "hi"); Message "assistant" (PStr "")].
Proof.
  exact (ask_ai_appends Scripted.silent_env "hi" None (init PNone true)).
Defined.

(** Not every call appends: without streaming, a reply that is an object
    without [choices] makes [chat] raise [KeyError], and the history of
    the agent, here one earlier exchange, is what it was. *)
Lemma ask_ai_raising_appends_nothing :
  let s := snd (ask_ai Scripted.silent_env "hi" None (init PNone false)) in
  conversation_history s =
    [Message "user" (PStr "hi"); Message "assistant" (PStr "")]
  /\ fst (ask_ai Scripted.no_choices_env "again" None s) = Raise KeyError
  /\ conversation_history (snd (ask_ai Scripted.no_choices_env "again" None s))
     = conversation_history s.
Proof. repeat split. Qed.

(** After a hundred calls the history holds two hundred entries and the
    window of the next request ten. *)
Example window_after_100_turns :
  let s := Scripted.turns Scripted.silent_env 100 (init PNone true) in
  List.length (conversation_history s) = 200%nat
  /\ List.length (last_n 10 (conversation_history s)) = 10%nat
  /\ List.length (request_messages "next" None s) = 11%nat.
Proof. vm_compute. repeat split. Qed.

End ConversationFacts.

(* ================================================================== *)
(** ** Interpreting a decision *)
(* ================================================================== *)

Module DecisionFacts.
Import Py Sys MoltbookAgent SysFacts TextFacts SocialFacts.

Lemma issued_app (s s' : state) (l : list call) :
  net s' = (net s ++ l)%list -> issued s s' = l.
Proof.
  intros H. unfold issued. rewrite H.
  rewrite skipn_app, skipn_all, Nat.sub_diag. reflexivity.
Qed.

Lemma upvote_endpoint_not_comments (x : string) :
  Text.endswith "/comments" ("/posts/" ++ x ++ "/upvote") = false.
Proof.
  destruct (Text.endswith "/comments" ("/posts/" ++ x ++ "/upvote")) eqn:H;
    [|reflexivity].
  apply (endswith_last_char _ _ "000"%char) in H; [|discriminate].
  rewrite <- append_assoc in H.
  change "/upvote" with (String "/" "upvote") in H.
  rewrite last_char_app in H. discriminate.
Qed.

Section Agent.
Variable E : Env.

Lemma act_perform (post_id : pyval) (d : string) (s : state) :
  act E post_id (PStr d) s = perform E post_id (interpret d) s.
Proof.
  unfold act, interpret, perform.
  destruct (Text.contains "UPVOTE" (Text.upper d)); [reflexivity|].
  destruct (Text.contains "COMMENT" (Text.upper d)); reflexivity.
Qed.

Lemma upvote_is_no_comment (post_id : pyval) :
  is_comment_call (upvote_request E post_id) = false.
Proof.
  unfold is_comment_call, upvote_request.
  rewrite upvote_endpoint_not_comments. apply andb_false_r.
Qed.

Lemma perform_upvote_issued (post_id : pyval) (s : state) :
  issued s (snd (perform E post_id Upvote s))
  = when_keyed s (upvote_request E post_id).
Proof.
  unfold perform, upvote_post. run.
  set (s0 := add_console _ s).
  pose proof (make_request_effect E "POST"
                ("/posts/" ++ fmt E post_id ++ "/upvote") None None s0) as Hn.
  destruct (_make_request E "POST" _ None None s0) as [[r'|e] s1];
    cbn [fst snd] in *;
    apply issued_app; destruct Hn as [Hn _]; exact Hn.
Qed.

Lemma perform_comment_issued (post_id : pyval) (text : string) (s : state) :
  issued s (snd (perform E post_id (Comment text) s))
  = when_keyed s (comment_request E post_id text).
Proof.
  unfold perform, add_comment. run.
  set (s0 := add_console _ (add_console _ s)).
  pose proof (make_request_effect E "POST"
                ("/posts/" ++ fmt E post_id ++ "/comments")
                (Some [("content", PStr text)]) None s0) as Hn.
  destruct (_make_request E "POST" _ (Some [("content", PStr text)]) None s0)
    as [[r'|e] s1]; cbn [fst snd] in *; destruct Hn as [Hn _];
    [destruct (truthy r'); run|]; apply issued_app; exact Hn.
Qed.

Lemma perform_skip (post_id : pyval) (s : state) :
  perform E post_id Skip s =
  (Ok tt, add_console ["  → AI Decision: Skipping" ++ Text.NL] s).
Proof. reflexivity. Qed.

(** The first branch of the step: the word UPVOTE decides. *)
Lemma upvote_branch (post_id : pyval) (d : string) (s : state) :
  Text.contains "UPVOTE" (Text.upper d) = true ->
  interpret d = Upvote
  /\ act E post_id (PStr d) s = perform E post_id Upvote s
  /\ issued s (snd (act E post_id (PStr d) s))
     = when_keyed s (upvote_request E post_id)
  /\ existsb is_comment_call (issued s (snd (act E post_id (PStr d) s)))
     = false.
Proof.
  intros Hu.
  assert (Hi : interpret d = Upvote) by (unfold interpret; now rewrite Hu).
  rewrite act_perform, Hi.
  pose proof (perform_upvote_issued post_id s) as Hn.
  repeat split; [exact Hn|].
  rewrite Hn. unfold when_keyed. destruct (truthy (api_key s)); [|reflexivity].
  cbn [existsb]. rewrite upvote_is_no_comment. reflexivity.
Qed.

(** C5: a decision text that contains both words, in any letter case, is
    an upvote: the UPVOTE test comes first. The only request the step may
    issue is the upvote of the post; no comment is sent. *)
Theorem upvote_wins (post_id : pyval) (d : string) (s : state) :
  Text.contains "UPVOTE" (Text.upper d) = true ->
  Text.contains "COMMENT" (Text.upper d) = true ->
  interpret d = Upvote
  /\ act E post_id (PStr d) s = perform E post_id Upvote s
  /\ issued s (snd (act E post_id (PStr d) s))
     = when_keyed s (upvote_request E post_id)
  /\ existsb is_comment_call (issued s (snd (act E post_id (PStr d) s)))
     = false.
Proof. intros Hu _. apply upvote_branch. exact Hu. Qed.



(** The failures of the request are met in either mode, and so is a
    connection that breaks after lines the aggregator is specified for. *)
Lemma transport_failure_is_met (messages : list message) (stream : bool)
      (msg : string) (s : state) :
  transport_failure (ai_service E (net s) messages stream) = Some msg ->
  PollinationsAI.transport_failure_met E messages stream s = Some msg.
Proof.
  unfold transport_failure, PollinationsAI.transport_failure_met.
  destruct (ai_service E (net s) messages stream) as [m|r]; [trivial|].
  destruct (is_error_status (chat_status r)); [trivial | discriminate].
Qed.

(** The comment of a decision whose first line is the word COMMENT. *)
Lemma comment_text_after_first_line (rest : string) :
  comment_text_of ("COMMENT" ++ Text.NL ++ rest) =
  if Text.all_space rest then "Interesting post!" else Text.strip rest.
Proof.
  unfold comment_text_of.
  assert (Hs : Text.strip ("COMMENT" ++ Text.NL ++ rest) =
               Text.rstrip (("COMMENT" ++ Text.NL) ++ rest)) by reflexivity.
  rewrite Hs, rstrip_app.
  destruct (Text.rstrip rest) as [|y ys] eqn:Hr.
  - apply rstrip_empty in Hr. rewrite Hr. reflexivity.
  - assert (Hall : Text.all_space rest = false).
    { destruct (Text.all_space rest) eqn:Ha; [|reflexivity].
      apply rstrip_empty in Ha. congruence. }
    rewrite Hall.
    change (("COMMENT" ++ Text.NL) ++ String y ys)
      with ("COMMENT" ++ Text.NL ++ String y ys).
    rewrite split_lines_first by reflexivity.
    pose proof (split_lines_nonempty (String y ys)) as Hne.
    destruct (Text.split_lines (String y ys)) as [|l ls] eqn:Hsp;
      [contradiction|].
    cbn [List.length Nat.ltb Nat.leb tl].
    rewrite <- Hsp, join_split_lines, <- Hr. apply strip_rstrip.
Qed.

(** The comment of a decision that is one line, whatever blank space
    follows it. *)
Lemma comment_text_single_line (first rest : string) :
  Text.has_newline first = false ->
  Text.all_space rest = true ->
  comment_text_of (first ++ rest) = "Interesting post!".
Proof.
  intros Hf Hr. unfold comment_text_of.
  rewrite (strip_app_space first rest Hr).
  rewrite (split_lines_single _ (has_newline_strip first Hf)). reflexivity.
Qed.

(** C6: a decision text that takes the Comment branch (the word COMMENT
    and no UPVOTE, in any letter case) and has no line after its first one
    (a first line followed by nothing, or by blank space only) is answered
    with the fixed comment: the request of the step, if any, is the comment
    request carrying exactly that text. *)
Theorem comment_fallback (post_id : pyval) (first rest : string) (s : state) :
  Text.contains "UPVOTE" (Text.upper (first ++ rest)) = false ->
  Text.contains "COMMENT" (Text.upper (first ++ rest)) = true ->
  Text.has_newline first = false ->
  Text.all_space rest = true ->
  interpret (first ++ rest) = Comment "Interesting post!"
  /\ act E post_id (PStr (first ++ rest)) s
     = perform E post_id (Comment "Interesting post!") s
  /\ issued s (snd (act E post_id (PStr (first ++ rest)) s))
     = when_keyed s (comment_request E post_id "Interesting post!").
Proof.
  intros Hu Hc Hf Hr.
  assert (Hi : interpret (first ++ rest) = Comment "Interesting post!").
  { unfold interpret. rewrite Hu, Hc.
    now rewrite (comment_text_single_line first rest Hf Hr). }
  rewrite act_perform, Hi. repeat split.
  apply perform_comment_issued.
Qed.

(** C3 (amended): the Interpret step, for every decision text [d] and
    whatever the letter case of the two words:
    - [d] contains UPVOTE: the action is Upvote, and no request of the step
      is a comment;
    - [d] is COMMENT, a newline and further text, and contains no UPVOTE:
      the action is Comment with the text after the first line stripped of
      the blank space around it, or with the fixed comment when that text
      is blank;
    - [d] contains neither word (the text SKIP is such a text): the action
      is Skip; the step prints its decision and issues no request. *)
Theorem interpret_decision :
  (forall post_id d s,
      Text.contains "UPVOTE" (Text.upper d) = true ->
      interpret d = Upvote
      /\ act E post_id (PStr d) s = perform E post_id Upvote s
      /\ issued s (snd (act E post_id (PStr d) s))
         = when_keyed s (upvote_request E post_id)
      /\ existsb is_comment_call (issued s (snd (act E post_id (PStr d) s)))
         = false)
  /\ (forall post_id rest s,
         let d := "COMMENT" ++ Text.NL ++ rest in
         let text := if Text.all_space rest then "Interesting post!"
                     else Text.strip rest in
         Text.contains "UPVOTE" (Text.upper d) = false ->
         interpret d = Comment text
         /\ act E post_id (PStr d) s = perform E post_id (Comment text) s
         /\ issued s (snd (act E post_id (PStr d) s))
            = when_keyed s (comment_request E post_id text))
  /\ (forall post_id d s,
         Text.contains "UPVOTE" (Text.upper d) = false ->
         Text.contains "COMMENT" (Text.upper d) = false ->
         interpret d = Skip
         /\ act E post_id (PStr d) s
            = (Ok tt, add_console ["  → AI Decision: Skipping" ++ Text.NL] s)
         /\ issued s (snd (act E post_id (PStr d) s)) = [])
  /\ interpret "SKIP" = Skip.
Proof.
  split; [|split; [|split]].
  - intros post_id d s Hu. apply upvote_branch. exact Hu.
  - intros post_id rest s d text Hu.
    assert (Hi : interpret d = Comment text).
    { unfold interpret. rewrite Hu.
      assert (Hc : Text.contains "COMMENT" (Text.upper d) = true) by reflexivity.
      rewrite Hc. unfold d, text. now rewrite comment_text_after_first_line. }
    rewrite act_perform, Hi. repeat split.
    apply perform_comment_issued.
  - intros post_id d s Hu Hc.
    assert (Hi : interpret d = Skip) by (unfold interpret; now rewrite Hu, Hc).
    rewrite act_perform, Hi, perform_skip. repeat split.
    apply issued_app. cbn. now rewrite app_nil_r.
  - reflexivity.
Qed.

End Agent.

Import Scripted.

Lemma upvote_wins_witness :
  interpret both_tokens = Upvote
  /\ issued keyed (snd (act offline_env (PStr "7") (PStr both_tokens) keyed))
     = [Http "POST" "/posts/7/upvote" None None].
Proof.
  pose proof (upvote_wins offline_env (PStr "7") both_tokens keyed
                eq_refl eq_refl) as (Hi & _ & Hn & _).
  split; [exact Hi | exact Hn].
Defined.



Lemma comment_fallback_witness :
  interpret "COMMENT" = Comment "Interesting post!"
  /\ issued keyed (snd (act offline_env (PStr "7") (PStr "COMMENT") keyed))
     = [Http "POST" "/posts/7/comments"
             (Some [("content", PStr "Interesting post!")]) None]
  /\ interpret ("COMMENT" ++ Text.NL) = Comment "Interesting post!".
Proof.
  pose proof (comment_fallback offline_env (PStr "7") "COMMENT" "" keyed
                eq_refl eq_refl eq_refl eq_refl) as (Hi & _ & Hn).
  pose proof (comment_fallback offline_env (PStr "7") "COMMENT" Text.NL keyed
                eq_refl eq_refl eq_refl eq_refl) as (Hi' & _).
  split; [exact Hi | split; [exact Hn | exact Hi']].
Defined.

Lemma interpret_decision_witness :
  interpret "upvote" = Upvote
  /\ interpret plain_comment = Comment "Great point!"
  /\ interpret padded_comment = Comment "Great point!"
  /\ interpret "Not sure." = Skip.
Proof.
  pose proof (interpret_decision offline_env) as (Hup & Hco & Hsk & _).
  split; [|split; [|split]].
  - exact (proj1 (Hup (PStr "7") "upvote" keyed eq_refl)).
  - exact (proj1 (Hco (PStr "7") "Great point!" keyed eq_refl)).
  - exact (proj1 (Hco (PStr "7") " Great point!" keyed eq_refl)).
  - exact (proj1 (Hsk (PStr "7") "Not sure." keyed eq_refl eq_refl)).
Defined.

(** The text after the first line is not sent as it is: blank space around
    it is stripped. Here the decision holds no UPVOTE, its text after the
    first line starts with a space, and the comment sent does not. *)
Lemma comment_text_is_stripped :
  Text.contains "UPVOTE" (Text.upper padded_comment) = false
  /\ Text.after_first_line padded_comment = " Great point!"
  /\ interpret padded_comment = Comment "Great point!"
  /\ interpret padded_comment <> Comment (Text.after_first_line padded_comment)
  /\ issued keyed (snd (act offline_env (PStr "7") (PStr padded_comment) keyed))
     = [Http "POST" "/posts/7/comments"
             (Some [("content", PStr "Great point!")]) None].
Proof. repeat split. discriminate. Qed.

End DecisionFacts.

(* ================================================================== *)
(** ** The browsing pass *)
(* ================================================================== *)

(** A step of the shell that starts by reading a line. *)
Module ShellSteps.
Import Py Sys Shell.

Lemma then_input_typed {B} (prompt : string) (k : string -> R B)
      (line : string) (rest : list event) (s : state) :
  then_ (input prompt) k (Typed line :: rest) s
  = k line rest (add_console [prompt] s).
Proof. reflexivity. Qed.

Lemma then_ask_line_typed {B} (prompt : string) (k : string -> R B)
      (line : string) (rest : list event) (s : state) :
  then_ (ask_line prompt) k (Typed line :: rest) s
  = k (Text.strip line) rest (add_console [prompt] s).
Proof. reflexivity. Qed.

End ShellSteps.

Module BrowseFacts.
Import Py Sys MoltbookAgent SysFacts SocialFacts DecisionFacts.

Section Agent.
Variable E : Env.

Lemma get_profile_effect (s : state) :
  let s' := snd (get_profile E s) in
  net s' = (net s ++ when_keyed s profile_request)%list
  /\ api_key s' = api_key s
  /\ conversation_history s' = conversation_history s
  /\ slept s' = slept s.
Proof.
  unfold get_profile. run.
  pose proof (make_request_effect E "GET" "/agents/me" None None s)
    as (Hn & Hk & _ & Hh & _ & Hs).
  destruct (_make_request E "GET" "/agents/me" None None s) as [[r|e] s1];
    cbn [snd] in *; [|repeat split; assumption].
  destruct (truthy r); run; repeat split; assumption.
Qed.

Lemma get_profile_truthy (s : state) (profile : pyval) (s1 : state) :
  get_profile E s = (Ok profile, s1) ->
  truthy profile = true ->
  truthy (api_key s) = true.
Proof.
  intros Hp Ht. destruct (truthy (api_key s)) eqn:Hk; [reflexivity|].
  unfold get_profile in Hp. run_in Hp.
  rewrite (make_request_no_key E _ _ _ _ s Hk) in Hp.
  injection Hp as <- _. discriminate.
Qed.

Lemma get_feed_effect (s : state) :
  let s' := snd (get_feed E "hot" 10 s) in
  net s' = (net s ++ when_keyed s feed_request)%list
  /\ api_key s' = api_key s
  /\ conversation_history s' = conversation_history s
  /\ slept s' = slept s.
Proof.
  unfold get_feed.
  pose proof (make_request_effect E "GET" "/posts" None
                (Some [("sort", PStr "hot"); ("limit", PInt 10)]) s)
    as (Hn & Hk & _ & Hh & _ & Hs).
  repeat split; assumption.
Qed.

(** An empty or missing feed ends the pass on the spot. *)
Lemma browse_feed_nothing (feed : pyval) (s : state) :
  truthy feed = false \/ is_list feed = false ->
  browse_feed E feed s = (Ok tt, add_console [no_posts_text ++ Text.NL] s).
Proof.
  intros H. unfold browse_feed.
  assert (Hc : negb (truthy feed) || negb (is_list feed) = true).
  { destruct H as [-> | ->]; [reflexivity | apply orb_true_r]. }
  rewrite Hc. reflexivity.
Qed.

(** C7: when the feed fetch of a browsing pass returns the empty list, or
    fails and returns [None], the pass ends there: it prints that no posts
    were found and returns. The requests of the whole pass are the profile
    fetch and the feed fetch; no chat request and no vote or comment is
    issued, no prompt is recorded in the history, and the pass never
    sleeps. *)
Theorem empty_feed_aborts (s s1 s2 : state) (profile name feed : pyval) :
  get_profile E (add_console [starting_text ++ Text.NL] s) = (Ok profile, s1) ->
  truthy profile = true ->
  py_get profile "name" (PStr "Unknown") = Ok name ->
  get_feed E "hot" 10
    (add_console [fetching_text ++ Text.NL]
       (add_console [("Agent: " ++ fmt E name) ++ Text.NL] s1)) = (Ok feed, s2) ->
  feed = PList [] \/ feed = PNone ->
  let s' := add_console [no_posts_text ++ Text.NL] s2 in
  autonomous_browse E s = (Ok tt, s')
  /\ issued s s' = [profile_request; feed_request]
  /\ existsb is_chat_call (issued s s') = false
  /\ existsb is_vote_call (issued s s') = false
  /\ existsb is_comment_call (issued s s') = false
  /\ conversation_history s' = conversation_history s
  /\ slept s' = slept s.
Proof.
  intros Hp Ht Hname Hf Hfeed s'.
  assert (Hrun : autonomous_browse E s = (Ok tt, s')).
  { unfold autonomous_browse, browse_profile. run.
    rewrite Hp. run. rewrite Ht. cbn [negb]. rewrite Hname. run.
    rewrite Hf. run. apply browse_feed_nothing.
    destruct Hfeed as [-> | ->]; left; reflexivity. }
  pose proof (get_profile_truthy _ _ _ Hp Ht) as Hk.
  pose proof (get_profile_effect (add_console [starting_text ++ Text.NL] s))
    as (Hn1 & Hk1 & Hh1 & Hs1).
  rewrite Hp in Hn1, Hk1, Hh1, Hs1. cbn [snd] in *.
  pose proof (get_feed_effect
                (add_console [fetching_text ++ Text.NL]
                   (add_console [("Agent: " ++ fmt E name) ++ Text.NL] s1)))
    as (Hn2 & Hk2 & Hh2 & Hs2).
  rewrite Hf in Hn2, Hk2, Hh2, Hs2. cbn [snd] in *.
  unfold when_keyed in *.
  cbn [api_key add_console net conversation_history slept] in *.
  rewrite Hk in Hn1. rewrite Hk1, Hk in Hn2.
  assert (Hiss : issued s s' = [profile_request; feed_request]).
  { apply issued_app. unfold s'. cbn [net add_console].
    rewrite Hn2, Hn1, <- app_assoc. reflexivity. }
  split; [exact Hrun|]. split; [exact Hiss|].
  rewrite Hiss. repeat split.
  - unfold s'. cbn. congruence.
  - unfold s'. cbn. congruence.
Qed.

(** C10: a request answered with a 2xx status and an empty body makes
    [_make_request] return the empty dict, which is not [None] but is just
    as false; and every caller that looks at the result of an operation
    looks at its truth value only, so it treats this success as it treats
    a failure. The callers that look are, in the agent, [add_comment] and
    [create_post] (no confirmation is printed), [get_profile] (the profile
    is not stored), [register] (no key is stored), [autonomous_browse]
    (the pass stops at a false profile and at a false feed) and
    [heartbeat] (it reports a failed connection); in the shell, the
    commands profile, feed, search and submolts (nothing is shown); and in
    the examples, the first (no login line) and the third (no result is
    looked at). The other calls drop the result or pass it on. *)
Theorem empty_body_is_falsy (s : state) (method endpoint : string)
        (data params : option dict) (c : call) (r : http_response) :
  truthy (api_key s) = true ->
  request_of method endpoint data params = Some c ->
  moltbook_service E (net s) c = HttpResponse r ->
  (200 <= resp_status r < 300)%Z ->
  resp_text r = "" ->
  _make_request E method endpoint data params s = (Ok (PDict []), add_call c s)
  /\ PDict [] <> PNone
  /\ truthy (PDict []) = false /\ truthy PNone = false
  /\ (forall post_id content parent_id s0 r s1,
         _make_request E "POST" ("/posts/" ++ fmt E post_id ++ "/comments")
                       (Some (comment_data content parent_id)) None s0
         = (Ok r, s1) ->
         truthy r = false ->
         add_comment E post_id content parent_id s0 = (Ok r, s1))
  /\ (forall submolt title content url s0 r s1,
         _make_request E "POST" "/posts"
                       (Some (post_data submolt title content url)) None s0
         = (Ok r, s1) ->
         truthy r = false ->
         create_post E submolt title content url s0 = (Ok r, s1))
  /\ (forall s0 r s1,
         _make_request E "GET" "/agents/me" None None s0 = (Ok r, s1) ->
         truthy r = false ->
         get_profile E s0 = (Ok r, s1))
  /\ (forall name description s0 r s1,
         _make_request E "POST" "/agents/register"
                       (Some [("name", PStr name);
                              ("description", PStr description)])
                       None s0 = (Ok r, s1) ->
         truthy r = false ->
         register E name description s0 = (Ok r, s1))
  /\ (forall profile s0,
         truthy profile = false ->
         browse_profile E profile s0 =
         (Ok tt, add_console [no_profile_text ++ Text.NL] s0))
  /\ (forall feed s0,
         truthy feed = false ->
         browse_feed E feed s0 =
         (Ok tt, add_console [no_posts_text ++ Text.NL] s0))
  /\ (forall now s0 profile s1,
         get_profile E
           (add_console [(Text.NL ++ "💓 Heartbeat at " ++ now) ++ Text.NL] s0)
         = (Ok profile, s1) ->
         truthy profile = false ->
         heartbeat E now s0 =
         (Ok tt, add_console ["✗ Failed to connect" ++ Text.NL] s1))
  /\ (forall keys s0 profile s1,
         get_profile E s0 = (Ok profile, s1) ->
         truthy profile = false ->
         Shell.do_profile E keys s0 = (Shell.Done tt, keys, s1))
  /\ (forall line rest s0 feed s1,
         get_feed E (Shell.or_else (Text.strip line) "hot") 10
                  (add_console ["Sort by (hot/new/top): "] s0)
         = (Ok feed, s1) ->
         truthy feed = false ->
         Shell.do_feed E (Shell.Typed line :: rest) s0
         = (Shell.Done tt, rest, s1))
  /\ (forall line rest s0 results s1,
         search E (Text.strip line) 20 (add_console ["Search query: "] s0)
         = (Ok results, s1) ->
         truthy results = false ->
         Shell.do_search E (Shell.Typed line :: rest) s0
         = (Shell.Done tt, rest, s1))
  /\ (forall keys s0 submolts s1,
         list_submolts E s0 = (Ok submolts, s1) ->
         truthy submolts = false ->
         Shell.do_submolts E keys s0 = (Shell.Done tt, keys, s1))
  /\ (forall s0 profile s1,
         get_profile E
           (Examples.fresh_agent Examples.placeholder_key
              (add_console
                 [("Example 1: Autonomous Agent" ++ Text.NL) ++ Text.NL] s0))
         = (Ok profile, s1) ->
         truthy profile = false ->
         Examples.example_autonomous_agent E s0 = autonomous_browse E s1)
  /\ (forall s0 results s1,
         search E "machine learning" 20
           (Examples.fresh_agent Examples.placeholder_key
              (add_console
                 [("Example 3: Search and Engage" ++ Text.NL) ++ Text.NL] s0))
         = (Ok results, s1) ->
         truthy results = false ->
         Examples.example_search_and_engage E s0 = (Ok tt, s1)).
Proof.
  intros Hk Hc Hr Hs Ht.
  split; [exact (make_request_empty_body E _ _ _ _ c r s Hk Hc Hr Hs Ht)|].
  split; [discriminate|]. split; [reflexivity|]. split; [reflexivity|].
  repeat match goal with |- _ /\ _ => split end.
  - intros post_id content parent_id s0 r0 s1 H Hf.
    rewrite add_comment_unfold. unfold bind. rewrite H. run.
    rewrite Hf. reflexivity.
  - intros submolt title content url s0 r0 s1 H Hf.
    rewrite create_post_unfold. unfold bind. rewrite H. run.
    rewrite Hf. reflexivity.
  - intros s0 r0 s1 H Hf. unfold get_profile. run. rewrite H, Hf. reflexivity.
  - intros name description s0 r0 s1 H Hf. unfold register. run.
    rewrite H, Hf. reflexivity.
  - intros profile s0 Hf. unfold browse_profile. rewrite Hf. reflexivity.
  - intros feed s0 Hf. apply browse_feed_nothing. left. exact Hf.
  - intros now s0 profile s1 H Hf. unfold heartbeat. run.
    rewrite H, Hf. reflexivity.
  - intros keys s0 profile s1 H Hf.
    unfold Shell.do_profile, Shell.then_, Shell.call_agent.
    rewrite H, Hf. reflexivity.
  - intros line rest s0 feed s1 H Hf.
    unfold Shell.do_feed. rewrite ShellSteps.then_ask_line_typed.
    cbv beta zeta. unfold Shell.then_, Shell.call_agent.
    rewrite H, Hf. reflexivity.
  - intros line rest s0 results s1 H Hf.
    unfold Shell.do_search. rewrite ShellSteps.then_ask_line_typed.
    cbv beta zeta. unfold Shell.then_, Shell.call_agent.
    rewrite H, Hf. reflexivity.
  - intros keys s0 submolts s1 H Hf.
    unfold Shell.do_submolts, Shell.then_, Shell.call_agent.
    rewrite H, Hf. reflexivity.
  - intros s0 profile s1 H Hf.
    unfold Examples.example_autonomous_agent, Examples.new_agent. run.
    rewrite H, Hf. reflexivity.
  - intros s0 results s1 H Hf.
    unfold Examples.example_search_and_engage, Examples.new_agent. run.
    rewrite H, Hf. reflexivity.
Qed.

End Agent.

Import Scripted.

Lemma empty_feed_aborts_witness :
  autonomous_browse empty_feed_env keyed =
    (Ok tt,
     add_console
       [no_posts_text ++ Text.NL]
       (add_call feed_request
          (add_console
             [fetching_text ++ Text.NL]
             (add_console
                [("Agent: " ++ "molty") ++ Text.NL]
                (with_agent_info profile_value
                   (add_call profile_request
                      (add_console [starting_text ++ Text.NL] keyed)))))))
  /\ issued keyed (snd (autonomous_browse broken_feed_env keyed))
     = [profile_request; feed_request].
Proof.
  split.
  - exact (proj1 (empty_feed_aborts empty_feed_env keyed _ _ profile_value
                    (PStr "molty") (PList [])
                    eq_refl eq_refl eq_refl eq_refl (or_introl eq_refl))).
  - pose proof (empty_feed_aborts broken_feed_env keyed _ _ profile_value
                  (PStr "molty") PNone
                  eq_refl eq_refl eq_refl eq_refl (or_intror eq_refl))
      as (Hrun & Hiss & _).
    rewrite Hrun. exact Hiss.
Defined.

Lemma empty_body_is_falsy_witness :
  add_comment no_content_env (PStr "7") "Nice idea!" None keyed =
    (Ok (PDict []), add_call (comment_request no_content_env (PStr "7") "Nice idea!") keyed)
  /\ add_comment offline_env (PStr "7") "Nice idea!" None keyed =
    (Ok PNone,
     add_console ["Moltbook API Error: offline" ++ Text.NL]
       (add_call (comment_request offline_env (PStr "7") "Nice idea!") keyed)).
Proof.
  pose proof (empty_body_is_falsy no_content_env keyed "POST"
                "/posts/7/comments" (Some [("content", PStr "Nice idea!")]) None
                _ _ eq_refl eq_refl eq_refl ltac:(cbn; lia) eq_refl)
    as (Hreq & _ & _ & _ & Hadd & _).
  split.
  - exact (Hadd (PStr "7") "Nice idea!" None keyed _ _ Hreq eq_refl).
  - reflexivity.
Defined.

End BrowseFacts.

(* ================================================================== *)
(** ** More about the chat client *)
(* ================================================================== *)

Module ChatCoverage.
Import Py Sys PollinationsAI MoltbookAgent SysFacts ChatFacts DecisionFacts.

Section Client.
Variable E : Env.

(** X1: whatever happens to the request, [chat] sends it once: there is no
    retry, also when the stream is cut or a frame makes the aggregation
    raise, and nothing of the agent is touched. *)
Theorem chat_sends_once (messages : list message) (stream : bool) (s : state) :
  let s' := snd (chat E messages stream s) in
  issued s s' = [ChatPost messages stream]
  /\ api_key s' = api_key s
  /\ agent_info s' = agent_info s
  /\ conversation_history s' = conversation_history s
  /\ streaming s' = streaming s
  /\ slept s' = slept s.
Proof.
  intros s'. destruct (chat_effect E messages stream s)
    as (Hk & Hi & Hh & Hst & Hn & Hsl).
  fold s' in Hk, Hi, Hh, Hst, Hn, Hsl.
  repeat split; try assumption.
  apply issued_app. exact Hn.
Qed.

(** The loop over lines that never show the sentinel: it ends with the
    lines, normally or by the error of the connection. *)
Lemma stream_loop_exhausted (lines : list string) (ending : option string) :
  forallb (admissible E) lines = true ->
  forall (acc : string) (s : state),
    stream_loop E lines ending acc s =
    (match ending with
     | Some msg => Raise (RequestException msg None)
     | None => Ok (acc ++ Text.join "" (map (contribution E) lines))
     end,
     add_console (filter nonempty (map (contribution E) lines)) s).
Proof.
  induction lines as [|line lines IH]; intros Hall acc s.
  - cbn [map filter Text.join stream_loop]. rewrite add_console_nil.
    destruct ending; [reflexivity|]. unfold ret. now rewrite append_empty_r.
  - cbn [forallb] in Hall. apply andb_prop in Hall.
    destruct Hall as [Hline Hrest]. specialize (IH Hrest).
    cbn [map]. rewrite join_empty_cons. cbn [stream_loop].
    unfold admissible, decodes, is_sentinel, contribution, payload in *.
    destruct (String.eqb line "") eqn:Hl.
    { rewrite IH. reflexivity. }
    destruct (decode_utf8 E line) as [t|]; [|discriminate].
    destruct (Text.startswith "data: " t).
    2:{ rewrite IH. reflexivity. }
    destruct (String.eqb (Text.strip (Text.slice_from 6 t)) "[DONE]");
      [discriminate|].
    destruct (json_loads E (Text.slice_from 6 t)) as [data| |l];
      [|rewrite IH; reflexivity|discriminate].
    simpl in Hline. unfold bind.
    rewrite (absorb_chunk data acc s Hline), IH.
    rewrite add_console_app, append_assoc.
    cbn [filter]. destruct (nonempty (delta_content data)); reflexivity.
Qed.

(** X2: the sentinel is not needed: when the lines of an accepted response end
    without it and the connection closes normally, [chat] returns the
    concatenation of the contents all the same. *)
Theorem chat_stream_unterminated (messages : list message) (s : state)
        (r : chat_response) :
  ai_service E (net s) messages true = ChatResponse r ->
  is_error_status (chat_status r) = false ->
  stream_error r = None ->
  forallb (admissible E) (iter_lines r) = true ->
  chat E messages true s =
  (Ok (PStr (Text.join "" (map (contribution E) (iter_lines r)))),
   add_console (filter nonempty (map (contribution E) (iter_lines r))
                  ++ [Text.NL])
               (add_call (ChatPost messages true) s)).
Proof.
  intros Hreply Hstatus Hend Hall.
  unfold chat, post. run. rewrite Hreply. run. rewrite Hstatus, Hend.
  rewrite (stream_loop_exhausted _ None Hall). run.
  rewrite add_console_app. reflexivity.
Qed.

(** X3: a connection that breaks before the sentinel costs the whole reply:
    the fragments received so far were echoed to the console, but [chat]
    reports the error and returns the empty text. *)
Theorem chat_stream_broken (messages : list message) (s : state)
        (r : chat_response) (msg : string) :
  ai_service E (net s) messages true = ChatResponse r ->
  is_error_status (chat_status r) = false ->
  stream_error r = Some msg ->
  forallb (admissible E) (iter_lines r) = true ->
  chat E messages true s =
  (Ok (PStr ""),
   add_console (filter nonempty (map (contribution E) (iter_lines r))
                  ++ ["AI API Error: " ++ msg ++ Text.NL])
               (add_call (ChatPost messages true) s)).
Proof.
  intros Hreply Hstatus Hend Hall.
  unfold chat, post. run. rewrite Hreply. run. rewrite Hstatus, Hend.
  rewrite (stream_loop_exhausted _ (Some msg) Hall). run.
  rewrite add_console_app, append_assoc. reflexivity.
Qed.

(** X4: without streaming, a reply that is valid JSON but lacks the expected
    fields is not turned into the empty text: the lookup of line 82 raises
    and [chat] lets the exception through. A body that is no object raises
    [TypeError], an object without [choices] raises [KeyError], an empty
    list of choices raises [IndexError]. *)
Theorem chat_plain_malformed (messages : list message) (s : state)
        (r : chat_response) (data : pyval) :
  ai_service E (net s) messages false = ChatResponse r ->
  is_error_status (chat_status r) = false ->
  json_loads E (chat_text r) = Parsed data ->
  let s' := add_call (ChatPost messages false) s in
  (match data with PDict _ => False | _ => True end ->
   chat E messages false s = (Raise TypeError, s'))
  /\ (forall d, data = PDict d -> dict_get "choices" d = None ->
                chat E messages false s = (Raise KeyError, s'))
  /\ (forall d, data = PDict d -> dict_get "choices" d = Some (PList []) ->
                chat E messages false s = (Raise IndexError, s')).
Proof.
  intros Hreply Hstatus Hjson s'.
  assert (Hrun : chat E messages false s =
                 except_request
                   (choices <- lift (subscript_key data "choices") ;;
                    first <- lift (subscript_0 choices) ;;
                    m <- lift (subscript_key first "message") ;;
                    lift (subscript_key m "content"))
                   (fun e _ => print ("AI API Error: " ++ e) ;; ret (PStr ""))
                   s').
  { unfold chat, post, response_json. run. rewrite Hreply. run.
    rewrite Hstatus, Hjson. reflexivity. }
  rewrite Hrun. repeat split.
  - intros Hd. destruct data; try contradiction; reflexivity.
  - intros d -> Hc. run. cbn [subscript_key]. rewrite Hc. reflexivity.
  - intros d -> Hc. run. cbn [subscript_key]. rewrite Hc. reflexivity.
Qed.

(** X5: without streaming, the content of the first choice is returned as it
    is, text or not, and nothing is printed. *)
Theorem chat_plain_reply (messages : list message) (s : state)
        (r : chat_response) (d first m : dict) (rest : list pyval)
        (content : pyval) :
  ai_service E (net s) messages false = ChatResponse r ->
  is_error_status (chat_status r) = false ->
  json_loads E (chat_text r) = Parsed (PDict d) ->
  dict_get "choices" d = Some (PList (PDict first :: rest)) ->
  dict_get "message" first = Some (PDict m) ->
  dict_get "content" m = Some content ->
  chat E messages false s =
  (Ok content, add_call (ChatPost messages false) s).
Proof.
  intros Hreply Hstatus Hjson Hc Hm Hco.
  unfold chat, post, response_json. run. rewrite Hreply. run.
  rewrite Hstatus, Hjson. run. cbn [subscript_key]. rewrite Hc. run.
  cbn [subscript_0 subscript_key]. rewrite Hm. run.
  cbn [subscript_key]. rewrite Hco. reflexivity.
Qed.

End Client.

Import Scripted.

Lemma chat_stream_unterminated_witness :
  chat unterminated_env [] true (init PNone true) =
  (Ok (PStr "Hello"),
   add_console ["Hel"; "lo"; Text.NL]
               (add_call (ChatPost [] true) (init PNone true))).
Proof.
  exact (chat_stream_unterminated unterminated_env [] (init PNone true) _
           eq_refl eq_refl eq_refl eq_refl).
Defined.

Lemma chat_stream_broken_witness :
  chat broken_stream_env [] true (init PNone true) =
  (Ok (PStr ""),
   add_console ["Hel"; "lo"; "AI API Error: Connection broken" ++ Text.NL]
               (add_call (ChatPost [] true) (init PNone true))).
Proof.
  exact (chat_stream_broken broken_stream_env [] (init PNone true) _
           "Connection broken" eq_refl eq_refl eq_refl eq_refl).
Defined.

Lemma chat_plain_malformed_witness :
  chat no_choices_env [] false (init PNone false) =
  (Raise KeyError, add_call (ChatPost [] false) (init PNone false)).
Proof.
  pose proof (chat_plain_malformed no_choices_env [] (init PNone false) _
                (PDict []) eq_refl eq_refl eq_refl) as (_ & Hkey & _).
  exact (Hkey [] eq_refl eq_refl).
Defined.

Lemma chat_plain_reply_witness :
  chat plain_reply_env [] false (init PNone false) =
  (Ok (PStr "UPVOTE"), add_call (ChatPost [] false) (init PNone false)).
Proof.
  exact (chat_plain_reply plain_reply_env [] (init PNone false) _ _ _ _ _ _
           eq_refl eq_refl eq_refl eq_refl eq_refl eq_refl).
Defined.

End ChatCoverage.

(* ================================================================== *)
(** ** More about the social client *)
(* ================================================================== *)

Module SocialCoverage.
Import Py Sys MoltbookAgent SysFacts SocialFacts DecisionFacts BrowseFacts.

Section Agent.
Variable E : Env.


(** X7: a method other than GET, POST, PATCH and DELETE is refused before
    anything is sent: the result is [None]. *)
Theorem make_request_unsupported (method endpoint : string)
        (data params : option dict) (s : state) :
  truthy (api_key s) = true ->
  method <> "GET" -> method <> "POST" ->
  method <> "PATCH" -> method <> "DELETE" ->
  _make_request E method endpoint data params s =
  (Ok PNone, add_console [("Unsupported method: " ++ method) ++ Text.NL] s).
Proof.
  intros Hk Hg Hp Hpa Hd. unfold _make_request, send, request_of. run.
  rewrite Hk. cbn [negb].
  apply String.eqb_neq in Hg, Hp, Hpa, Hd. rewrite Hg, Hp, Hpa, Hd.
  reflexivity.
Qed.

(** X8: an answer with a 4xx or 5xx status is a failure even when its body is
    JSON: the body is not parsed; the error and the text of the response
    are printed and the result is [None]. *)
Theorem make_request_error_status (method endpoint : string)
        (data params : option dict) (c : call) (r : http_response)
        (s : state) :
  truthy (api_key s) = true ->
  request_of method endpoint data params = Some c ->
  moltbook_service E (net s) c = HttpResponse r ->
  is_error_status (resp_status r) = true ->
  _make_request E method endpoint data params s =
  (Ok PNone,
   add_console [("Moltbook API Error: " ++ resp_error r) ++ Text.NL;
                ("Response: " ++ resp_text r) ++ Text.NL]
               (add_call c s)).
Proof.
  intros Hk Hc Hr Hs. unfold _make_request, send. run.
  rewrite Hk, Hc. cbn [negb]. run. rewrite Hr. run. rewrite Hs.
  rewrite add_console_app. reflexivity.
Qed.

(** X9: registration goes through [_make_request] like everything else, so an
    agent that has no key yet cannot register: no request is sent, the
    result is [None] and the key stays unset. *)
Theorem register_needs_key (name description : string) (s : state) :
  truthy (api_key s) = false ->
  register E name description s = (Ok PNone, add_console [no_key_message] s)
  /\ issued s (snd (register E name description s)) = []
  /\ api_key (snd (register E name description s)) = api_key s.
Proof.
  intros Hk.
  assert (Hrun : register E name description s =
                 (Ok PNone, add_console [no_key_message] s)).
  { unfold register. run. rewrite (make_request_no_key E _ _ _ _ s Hk).
    reflexivity. }
  rewrite Hrun. repeat split.
  apply issued_app. cbn. now rewrite app_nil_r.
Qed.

(** X10: when the registration request returns an object, [register] returns
    it; the key of the agent becomes its [api_key] field when it has one
    and is left alone when it has none. No further request is sent. *)
Theorem register_stores_key (name description : string) (s s1 : state)
        (d : dict) :
  _make_request E "POST" "/agents/register"
                (Some [("name", PStr name); ("description", PStr description)])
                None s = (Ok (PDict d), s1) ->
  d <> [] ->
  let s' := snd (register E name description s) in
  fst (register E name description s) = Ok (PDict d)
  /\ api_key s' = match dict_get "api_key" d with
                  | Some key => key
                  | None => api_key s1
                  end
  /\ net s' = net s1
  /\ (dict_get "api_key" d = None -> s' = s1).
Proof.
  intros Hreq Hd s'. unfold s', register. run. rewrite Hreq.
  destruct d as [|kv d']; [contradiction|].
  cbn [truthy py_in py_get subscript_key].
  destruct (dict_get "api_key" (kv :: d')) as [key|]; run;
    repeat split; try reflexivity. discriminate.
Qed.

(** X11: setting a key is what lets requests through: after [set_api_key] with
    a text that is not empty the next profile fetch is sent; after setting
    the empty text it is not. *)
Theorem set_api_key_then_profile (key : string) (s : state) :
  let s' := snd ((set_api_key key ;; get_profile E) s) in
  issued s s' = if String.eqb key "" then [] else [profile_request].
Proof.
  intros s'.
  set (s0 := add_console ["✓ API key set successfully" ++ Text.NL]
                         (with_api_key (PStr key) s)).
  assert (Heq : (set_api_key key ;; get_profile E) s = get_profile E s0)
    by reflexivity.
  unfold s'. rewrite Heq.
  destruct (get_profile_effect E s0) as (Hn & _).
  apply issued_app. rewrite Hn. unfold when_keyed, s0. cbn.
  destruct (String.eqb key ""); cbn; [now rewrite app_nil_r | reflexivity].
Qed.

(** X12: the request of [create_post] carries the submolt and the title, then
    the content and the url when they are given and not empty; and
    [create_post] returns or raises what that request does. *)
Theorem create_post_request (submolt title : string)
        (content url : option string) (s : state) :
  let run := create_post E submolt title content url s in
  fst run
  = fst (_make_request E "POST" "/posts"
           (Some (post_data submolt title content url)) None s)
  /\ issued s (snd run) =
     when_keyed s (Http "POST" "/posts"
                        (Some (post_data submolt title content url)) None).
Proof.
  intros run. unfold run, create_post, post_data, optional_field, dict. run.
  set (data := match url with
               | Some u => if given url then dict_set "url" (PStr u) _ else _
               | None => _
               end).
  assert (Hdata : data =
                  ([("submolt", PStr submolt); ("title", PStr title)]
                     ++ match content with
                        | Some v => if given content then [("content", PStr v)]
                                    else []
                        | None => []
                        end
                     ++ match url with
                        | Some v => if given url then [("url", PStr v)] else []
                        | None => []
                        end)%list).
  { unfold data. destruct content as [c|], url as [u|];
      try destruct (given (Some c)); try destruct (given (Some u));
      reflexivity. }
  rewrite Hdata. clear Hdata data.
  set (data := (_ ++ _)%list).
  match goal with
  | |- context [_make_request E ?m ?ep ?d ?pa s] =>
      destruct (make_request_effect E m ep d pa s) as (Hn & _);
      destruct (_make_request E m ep d pa s) as [[r'|e] s1]
  end; cbn [fst snd] in *;
    [destruct (truthy r'); run|]; (split; [reflexivity|]);
    apply issued_app; exact Hn.
Qed.

(** X13: the request of [add_comment] carries the content and, when a parent
    is given and not empty, its id; and [add_comment] returns or raises
    what that request does. *)
Theorem add_comment_request (post_id : pyval) (content : string)
        (parent_id : option string) (s : state) :
  let run := add_comment E post_id content parent_id s in
  fst run
  = fst (_make_request E "POST" ("/posts/" ++ fmt E post_id ++ "/comments")
           (Some (comment_data content parent_id)) None s)
  /\ issued s (snd run) =
     when_keyed s (Http "POST" ("/posts/" ++ fmt E post_id ++ "/comments")
                        (Some (comment_data content parent_id)) None).
Proof.
  intros run. unfold run, add_comment, comment_data, optional_field, dict. run.
  set (data := match parent_id with
               | Some p => if given parent_id then dict_set _ _ _ else _
               | None => _
               end).
  assert (Hdata : data =
                  ([("content", PStr content)]
                     ++ match parent_id with
                        | Some v => if given parent_id
                                    then [("parent_id", PStr v)] else []
                        | None => []
                        end)%list).
  { unfold data. destruct parent_id as [p|];
      try destruct (given (Some p)); reflexivity. }
  rewrite Hdata. clear Hdata data.
  set (data := (_ ++ _)%list).
  set (endpoint := "/posts/" ++ fmt E post_id ++ "/comments").
  match goal with
  | |- context [_make_request E ?m ?ep ?d ?pa s] =>
      destruct (make_request_effect E m ep d pa s) as (Hn & _);
      destruct (_make_request E m ep d pa s) as [[r'|e] s1]
  end; cbn [fst snd] in *;
    [destruct (truthy r'); run|]; (split; [reflexivity|]);
    apply issued_app; exact Hn.
Qed.

End Agent.

Import Scripted.

Lemma make_request_unsupported_witness :
  _make_request offline_env "PUT" "/posts/7" None None keyed =
  (Ok PNone, add_console ["Unsupported method: PUT" ++ Text.NL] keyed).
Proof.
  apply (make_request_unsupported offline_env "PUT" "/posts/7" None None keyed);
    [reflexivity | discriminate | discriminate | discriminate | discriminate].
Defined.

Lemma make_request_error_status_witness :
  upvote_post forbidden_env (PStr "7") keyed =
  (Ok PNone,
   add_console ["Moltbook API Error: 403 Client Error" ++ Text.NL;
                "Response: agent not claimed" ++ Text.NL]
               (add_call (upvote_request forbidden_env (PStr "7")) keyed)).
Proof.
  exact (make_request_error_status forbidden_env "POST" "/posts/7/upvote"
           None None _ _ keyed eq_refl eq_refl eq_refl eq_refl).
Defined.

(** A body that runs into the limit on the digits of an integer: the
    request was sent, and [_make_request] raises [ValueError]. *)
Example make_request_long_number :
  _make_request long_number_env "GET" "/posts" None None keyed
  = (Raise ValueError, add_call (Http "GET" "/posts" None None) keyed).
Proof. reflexivity. Qed.

Lemma register_needs_key_witness :
  register registrar_env "molty" "a friendly agent" (init PNone true) =
  (Ok PNone, add_console [no_key_message] (init PNone true)).
Proof.
  exact (proj1 (register_needs_key registrar_env "molty" "a friendly agent"
                  (init PNone true) eq_refl)).
Defined.

Lemma register_stores_key_witness :
  fst (register registrar_env "molty" "a friendly agent" keyed)
  = Ok registered_value
  /\ api_key (snd (register registrar_env "molty" "a friendly agent" keyed))
     = PStr "moltbook_sk_1".
Proof.
  pose proof (register_stores_key registrar_env "molty" "a friendly agent"
                keyed _ _ eq_refl ltac:(discriminate)) as (Hr & Hk & _).
  split; [exact Hr | exact Hk].
Defined.

End SocialCoverage.

(* ================================================================== *)
(** ** Bounds on what a computation does *)
(* ================================================================== *)

Module BoundFacts.
Import Py Sys MoltbookAgent SysFacts SocialFacts DecisionFacts.

Lemma within_refl (s : state) : within 0 0 0 s s.
Proof. exists []. rewrite app_nil_r. cbn. repeat split; lia. Qed.

Lemma within_same (s s' : state) :
  net s' = net s -> slept s' = slept s -> within 0 0 0 s s'.
Proof.
  intros Hn Hs. exists []. rewrite app_nil_r, Hn, Hs.
  cbn. repeat split; lia.
Qed.

Lemma within_quiet (s s' : state) : quiet s s' -> within 0 0 0 s s'.
Proof. intros (_ & _ & _ & _ & Hn & Hs). now apply within_same. Qed.

Lemma within_weaken (a b c a' b' c' : nat) (s s' : state) :
  within a b c s s' -> (a <= a')%nat -> (b <= b')%nat -> (c <= c')%nat ->
  within a' b' c' s s'.
Proof.
  intros (l & Hn & Hl & Hc & Hs) Ha Hb Hc'. exists l. repeat split; try lia.
  exact Hn.
Qed.

Lemma within_trans (a b c a' b' c' : nat) (s1 s2 s3 : state) :
  within a b c s1 s2 -> within a' b' c' s2 s3 ->
  within (a + a') (b + b') (c + c') s1 s3.
Proof.
  intros (l & Hn & Hl & Hc & Hs) (l' & Hn' & Hl' & Hc' & Hs').
  exists (l ++ l')%list. rewrite Hn', Hn, app_assoc.
  rewrite length_app, filter_app, length_app. repeat split; lia.
Qed.

Section Monad.
Context {A B : Type}.

Lemma bounded_ret (a : A) : bounded 0 0 0 (ret a).
Proof. intros s. apply within_refl. Qed.

Lemma bounded_raise (e : exn) : bounded 0 0 0 (@raise A e).
Proof. intros s. apply within_refl. Qed.

Lemma bounded_lift (r : result A) : bounded 0 0 0 (lift r).
Proof. intros s. apply within_refl. Qed.

Lemma bounded_weaken (a b c a' b' c' : nat) (m : M A) :
  bounded a b c m -> (a <= a')%nat -> (b <= b')%nat -> (c <= c')%nat ->
  bounded a' b' c' m.
Proof. intros H Ha Hb Hc s. eapply within_weaken; eauto. Qed.

Lemma bounded_bind (a b c a' b' c' : nat) (m : M A) (k : A -> M B) :
  bounded a b c m -> (forall x, bounded a' b' c' (k x)) ->
  bounded (a + a') (b + b') (c + c') (bind m k).
Proof.
  intros Hm Hk s. unfold bind. specialize (Hm s).
  destruct (m s) as [[x|e] s1]; cbn [snd] in *.
  - eapply within_trans; [exact Hm | apply Hk].
  - eapply within_weaken; [exact Hm | lia | lia | lia].
Qed.

(** A step that issues nothing and does not sleep costs nothing. *)
Lemma bounded_then (a b c : nat) (m : M A) (k : A -> M B) :
  bounded 0 0 0 m -> (forall x, bounded a b c (k x)) ->
  bounded a b c (bind m k).
Proof. intros Hm Hk. apply (bounded_bind 0 0 0 a b c); assumption. Qed.

(** What follows a pure step may rely on its value. *)
Lemma bounded_after_lift (a b c : nat) (r : result A) (k : A -> M B) :
  (forall x, r = Ok x -> bounded a b c (k x)) ->
  bounded a b c (bind (lift r) k).
Proof.
  intros Hk s. unfold bind, lift. destruct r as [x|e]; cbn [snd].
  - apply (Hk x eq_refl).
  - eapply within_weaken; [apply within_refl | lia | lia | lia].
Qed.

Lemma only_ret (P : call -> bool) (a : A) : only P (ret a).
Proof. intros s. exists []. now rewrite app_nil_r. Qed.

Lemma only_lift (P : call -> bool) (r : result A) : only P (lift r).
Proof. intros s. exists []. now rewrite app_nil_r. Qed.

Lemma only_bind (P : call -> bool) (m : M A) (k : A -> M B) :
  only P m -> (forall x, only P (k x)) -> only P (bind m k).
Proof.
  intros Hm Hk s. unfold bind. destruct (Hm s) as (l & Hn & Hl).
  destruct (m s) as [[x|e] s1]; cbn [snd] in *.
  - destruct (Hk x s1) as (l' & Hn' & Hl').
    exists (l ++ l')%list. rewrite Hn', Hn, app_assoc, forallb_app, Hl, Hl'.
    split; reflexivity.
  - exists l. split; assumption.
Qed.

End Monad.

Lemma bounded_print (text : string) : bounded 0 0 0 (print text).
Proof. intros s. apply within_quiet, quiet_add_console. Qed.

Lemma only_print (P : call -> bool) (text : string) : only P (print text).
Proof. intros s. exists []. cbn. now rewrite app_nil_r. Qed.

Lemma bounded_sleep (n : nat) : bounded 0 0 n (sleep n).
Proof.
  intros s. exists []. cbn. rewrite app_nil_r. repeat split; lia.
Qed.

Lemma request_of_http (method endpoint : string) (data params : option dict)
      (c : call) :
  request_of method endpoint data params = Some c -> is_chat_call c = false.
Proof.
  unfold request_of. intros H.
  repeat match type of H with
         | (if ?b then _ else _) = _ => destruct b
         end; try discriminate; injection H as <-; reflexivity.
Qed.

Section Agent.
Variable E : Env.

Lemma bounded_make_request (method endpoint : string)
      (data params : option dict) :
  bounded 1 0 0 (_make_request E method endpoint data params).
Proof.
  intros s.
  destruct (make_request_effect E method endpoint data params s)
    as (Hn & _ & _ & _ & _ & Hs).
  eexists. split; [exact Hn|]. rewrite Hs.
  destruct (truthy (api_key s)); [|cbn; repeat split; lia].
  destruct (request_of method endpoint data params) as [c|] eqn:Hc;
    [|cbn; repeat split; lia].
  cbn. rewrite (request_of_http _ _ _ _ _ Hc). cbn. repeat split; lia.
Qed.

Lemma bounded_get_profile : bounded 1 0 0 (get_profile E).
Proof.
  unfold get_profile.
  apply (bounded_bind 1 0 0 0 0 0); [apply bounded_make_request|].
  intros result. apply bounded_then; [|intros; apply bounded_ret].
  destruct (truthy result); [|apply bounded_ret].
  intros s. now apply within_same.
Qed.

Lemma bounded_upvote_post (post_id : pyval) :
  bounded 1 0 0 (upvote_post E post_id).
Proof. apply bounded_make_request. Qed.

Lemma bounded_add_comment (post_id : pyval) (content : string)
      (parent_id : option string) :
  bounded 1 0 0 (add_comment E post_id content parent_id).
Proof.
  unfold add_comment.
  apply (bounded_bind 1 0 0 0 0 0); [apply bounded_make_request|].
  intros result. apply bounded_then; [|intros; apply bounded_ret].
  destruct (truthy result); [apply bounded_print | apply bounded_ret].
Qed.

Lemma bounded_chat (messages : list message) (stream : bool) :
  bounded 1 1 0 (PollinationsAI.chat E messages stream).
Proof.
  intros s. destruct (ChatFacts.chat_effect E messages stream s)
    as (_ & _ & _ & _ & Hn & Hs).
  exists [ChatPost messages stream]. cbn in *. rewrite Hn, Hs.
  repeat split; lia.
Qed.

Lemma bounded_ask_ai (user_message : string) (system_prompt : option string) :
  bounded 1 1 0 (ask_ai E user_message system_prompt).
Proof.
  unfold ask_ai. apply bounded_then; [intros s; apply within_refl|].
  intros s0. apply (bounded_bind 1 1 0 0 0 0); [apply bounded_chat|].
  intros response.
  apply bounded_then; [intros s; now apply within_same|].
  intros _.
  apply bounded_then; [intros s; now apply within_same|].
  intros _. apply bounded_ret.
Qed.

Lemma bounded_act (post_id decision : pyval) :
  bounded 1 0 0 (act E post_id decision).
Proof.
  unfold act. destruct decision;
    try (eapply bounded_weaken; [apply bounded_raise | lia | lia | lia]).
  destruct (Text.contains "UPVOTE" (Text.upper s)).
  - apply bounded_then; [apply bounded_print|]. intros _.
    apply (bounded_bind 1 0 0 0 0 0); [apply bounded_upvote_post|].
    intros; apply bounded_ret.
  - destruct (Text.contains "COMMENT" (Text.upper s)).
    + apply bounded_then; [apply bounded_print|]. intros _.
      apply bounded_then; [apply bounded_print|]. intros _.
      apply (bounded_bind 1 0 0 0 0 0); [apply bounded_add_comment|].
      intros; apply bounded_ret.
    + eapply bounded_weaken; [apply bounded_print | lia | lia | lia].
Qed.

Lemma bounded_browse_post (idx : Z) (post : pyval) :
  bounded 2 1 2 (browse_post E idx post).
Proof.
  unfold browse_post.
  apply bounded_then; [apply bounded_print|]. intros _.
  apply bounded_then; [apply bounded_lift|]. intros post_title.
  apply bounded_then; [apply bounded_lift|]. intros post_content.
  apply bounded_then; [apply bounded_lift|]. intros post_id.
  apply bounded_then; [apply bounded_lift|]. intros submolt.
  apply bounded_then; [apply bounded_lift|]. intros score.
  apply bounded_then; [apply bounded_print|]. intros _.
  apply bounded_then; [apply bounded_print|]. intros _.
  apply bounded_then; [apply bounded_print|]. intros _.
  apply bounded_then; [apply bounded_lift|]. intros content500.
  apply (bounded_bind 1 1 0 1 0 2); [apply bounded_ask_ai|]. intros decision.
  apply (bounded_bind 1 0 0 0 0 2); [apply bounded_act|]. intros _.
  apply bounded_sleep.
Qed.

Lemma bounded_browse_posts (posts : list pyval) :
  forall idx,
    bounded (2 * List.length posts) (List.length posts)
            (2 * List.length posts) (browse_posts E idx posts).
Proof.
  induction posts as [|post rest IH]; intros idx; cbn [browse_posts].
  - apply bounded_ret.
  - eapply bounded_weaken.
    + apply (bounded_bind 2 1 2); [apply bounded_browse_post|].
      intros _. apply IH.
    + cbn [List.length]. lia.
    + cbn [List.length]. lia.
    + cbn [List.length]. lia.
Qed.

Lemma bounded_browse_feed (feed : pyval) : bounded 10 5 10 (browse_feed E feed).
Proof.
  unfold browse_feed.
  destruct (negb (truthy feed) || negb (is_list feed)).
  { eapply bounded_weaken; [apply bounded_print | lia | lia | lia]. }
  destruct feed;
    try (eapply bounded_weaken; [apply bounded_ret | lia | lia | lia]).
  apply bounded_then; [apply bounded_print|]. intros _.
  pose proof (length_firstn 5 l) as Hlen.
  eapply bounded_weaken.
  - apply (bounded_bind (2 * List.length (firstn 5 l))
                        (List.length (firstn 5 l))
                        (2 * List.length (firstn 5 l)) 0 0 0);
      [apply (bounded_browse_posts (firstn 5 l) 1)|].
    intros _. apply bounded_print.
  - lia.
  - lia.
  - lia.
Qed.

Lemma bounded_browse_profile (profile : pyval) :
  bounded 11 5 10 (browse_profile E profile).
Proof.
  unfold browse_profile. destruct (negb (truthy profile)).
  { eapply bounded_weaken; [apply bounded_print | lia | lia | lia]. }
  apply bounded_then; [apply bounded_lift|]. intros agent_name.
  apply bounded_then; [apply bounded_print|]. intros _.
  apply bounded_then; [apply bounded_print|]. intros _.
  apply (bounded_bind 1 0 0 10 5 10); [apply bounded_make_request|].
  intros feed. apply bounded_browse_feed.
Qed.

Lemma bounded_autonomous_browse : bounded 12 5 10 (autonomous_browse E).
Proof.
  unfold autonomous_browse.
  apply bounded_then; [apply bounded_print|]. intros _.
  apply (bounded_bind 1 0 0 11 5 10); [apply bounded_get_profile|].
  intros profile. apply bounded_browse_profile.
Qed.

End Agent.
End BoundFacts.

(* ================================================================== *)
(** ** More about the conversation and the browsing pass *)
(* ================================================================== *)

Module BrowseCoverage.
Import Py Sys MoltbookAgent SysFacts TextFacts SocialFacts ConversationFacts.
Import DecisionFacts BrowseFacts BoundFacts.

Lemma has_newline_app (a b : string) :
  Text.has_newline (a ++ b) = Text.has_newline a || Text.has_newline b.
Proof.
  induction a as [|c a IH]; simpl; [reflexivity|].
  rewrite IH. now rewrite orb_assoc.
Qed.

Lemma split_lines_head (x h : string) (t : list string) :
  Text.split_lines x = h :: t -> Text.has_newline h = false.
Proof.
  revert h t. induction x as [|c x IH]; intros h t; simpl.
  - intros H. injection H as <- _. reflexivity.
  - destruct (Ascii.eqb c Text.LF) eqn:Hc.
    + intros H. injection H as <- _. reflexivity.
    + destruct (Text.split_lines x) as [|h' t'] eqn:Hs.
      * intros H. injection H as <- _. simpl. now rewrite Hc.
      * intros H. injection H as <- _. simpl. rewrite Hc.
        apply (IH h' t' eq_refl).
Qed.

Lemma lstrip_idem (s : string) : Text.lstrip (Text.lstrip s) = Text.lstrip s.
Proof.
  induction s as [|c r IH]; simpl; [reflexivity|].
  destruct (Text.isspace c) eqn:Hc; [exact IH|]. simpl. now rewrite Hc.
Qed.

Lemma strip_idem (s : string) : Text.strip (Text.strip s) = Text.strip s.
Proof.
  unfold Text.strip. rewrite lstrip_rstrip, lstrip_idem, rstrip_idem.
  reflexivity.
Qed.

(** The remainder of a stripped text after its first line is not blank. *)
Lemma stripped_remainder (d h : string) (t : list string) :
  Text.split_lines (Text.strip d) = h :: t -> t <> [] ->
  Text.all_space (Text.join Text.NL t) = false.
Proof.
  intros Hs Ht.
  destruct (Text.all_space (Text.join Text.NL t)) eqn:Hall; [|reflexivity].
  exfalso.
  pose proof (join_split_lines (Text.strip d)) as Hj. rewrite Hs in Hj.
  destruct t as [|t0 t']; [contradiction|].
  change (Text.join Text.NL (h :: t0 :: t'))
    with (h ++ Text.NL ++ Text.join Text.NL (t0 :: t')) in Hj.
  set (J := Text.join Text.NL (t0 :: t')) in *.
  pose proof (split_lines_head _ _ _ Hs) as Hh.
  assert (Hr : Text.rstrip (Text.strip d) = Text.rstrip h).
  { rewrite <- Hj at 1. rewrite rstrip_app.
    assert (Hb : Text.rstrip (Text.NL ++ J) = "").
    { apply rstrip_empty. change (Text.NL ++ J) with (String Text.LF J).
      cbn [Text.all_space]. rewrite Hall. reflexivity. }
    rewrite Hb. reflexivity. }
  unfold Text.strip in Hr at 1. rewrite rstrip_idem in Hr.
  fold (Text.strip d) in Hr.
  assert (Hn : Text.has_newline (Text.strip d) = true).
  { rewrite <- Hj, has_newline_app. simpl. apply orb_true_r. }
  rewrite Hr, (has_newline_rstrip _ Hh) in Hn. discriminate.
Qed.

(** X14: the comment [autonomous_browse] sends is never empty and never blank,
    and it carries no blank space at either end: the text after the first
    line of a stripped decision always holds a visible character, and a
    decision of one line gets the fixed comment. *)
Theorem comment_text_never_blank (decision : string) :
  comment_text_of decision <> ""
  /\ Text.all_space (comment_text_of decision) = false
  /\ Text.strip (comment_text_of decision) = comment_text_of decision.
Proof.
  unfold comment_text_of.
  destruct (Text.split_lines (Text.strip decision)) as [|h t] eqn:Hs.
  { repeat split. discriminate. }
  destruct t as [|t0 t'].
  { repeat split. discriminate. }
  cbn [List.length Nat.ltb Nat.leb tl].
  pose proof (stripped_remainder decision h (t0 :: t') Hs ltac:(discriminate))
    as Hall.
  assert (Hne : Text.strip (Text.join Text.NL (t0 :: t')) <> "").
  { intros H. apply strip_empty in H. congruence. }
  repeat split.
  - exact Hne.
  - destruct (Text.all_space (Text.strip (Text.join Text.NL (t0 :: t'))))
      eqn:Ha; [|reflexivity].
    apply strip_empty in Ha. rewrite strip_idem in Ha. contradiction.
  - apply strip_idem.
Qed.

Section Agent.
Variable E : Env.

Lemma ask_ai_effect (user_message : string) (system_prompt : option string)
      (s : state) :
  let run := ask_ai E user_message system_prompt s in
  net (snd run) =
    (net s ++ [ChatPost (request_messages user_message system_prompt s)
                        (streaming s)])%list
  /\ slept (snd run) = slept s
  /\ api_key (snd run) = api_key s
  /\ conversation_history (snd run) =
     (conversation_history s
        ++ match fst run with
           | Ok r => [Message "user" (PStr user_message);
                      Message "assistant" r]
           | Raise _ => []
           end)%list.
Proof.
  intros run. unfold run. rewrite ask_ai_unfold.
  destruct (ChatFacts.chat_effect E
              (request_messages user_message system_prompt s) (streaming s) s)
    as (Hk & _ & Hh & _ & Hn & Hs).
  destruct (PollinationsAI.chat E _ (streaming s) s) as [[r|e] s1];
    cbn [fst snd] in *; cbn; rewrite ?Hh, ?app_nil_r, <- ?app_assoc;
    repeat split; assumption.
Qed.

(** X15: a call of [ask_ai] that raises leaves the history as it was: the
    user message is recorded only together with a reply. The request was
    sent all the same. *)
Theorem ask_ai_raise_keeps_history (user_message : string)
        (system_prompt : option string) (s : state) (e : exn) :
  fst (ask_ai E user_message system_prompt s) = Raise e ->
  conversation_history (snd (ask_ai E user_message system_prompt s))
  = conversation_history s
  /\ issued s (snd (ask_ai E user_message system_prompt s))
     = [ChatPost (request_messages user_message system_prompt s)
                 (streaming s)].
Proof.
  intros Hr.
  destruct (ask_ai_effect user_message system_prompt s)
    as (Hn & _ & _ & Hh).
  rewrite Hr, app_nil_r in Hh. split; [exact Hh|].
  apply issued_app. exact Hn.
Qed.

Lemma chat_failure (messages : list message) (stream : bool) (msg : string)
      (s : state) :
  transport_failure (ai_service E (net s) messages stream) = Some msg ->
  PollinationsAI.chat E messages stream s =
  (Ok (PStr ""),
   add_console ["AI API Error: " ++ msg ++ Text.NL]
               (add_call (ChatPost messages stream) s)).
Proof.
  intros H. unfold PollinationsAI.chat, PollinationsAI.post. run.
  unfold transport_failure in H.
  destruct (ai_service E (net s) messages stream) as [m|r]; run.
  - injection H as ->. rewrite append_assoc. reflexivity.
  - destruct (is_error_status (chat_status r)); [|discriminate].
    injection H as ->. run. rewrite append_assoc. reflexivity.
Qed.

(** X16: a chat request that fails in transport is not kept out of the
    conversation: [ask_ai] returns the empty text and records the user
    message followed by an empty assistant message, which the window of
    the next requests will carry. *)
Theorem ask_ai_records_failure (user_message : string)
        (system_prompt : option string) (s : state) (msg : string) :
  transport_failure
    (ai_service E (net s) (request_messages user_message system_prompt s)
                (streaming s)) = Some msg ->
  fst (ask_ai E user_message system_prompt s) = Ok (PStr "")
  /\ conversation_history (snd (ask_ai E user_message system_prompt s)) =
     (conversation_history s
        ++ [Message "user" (PStr user_message);
            Message "assistant" (PStr "")])%list.
Proof.
  intros H. rewrite ask_ai_unfold, (chat_failure _ _ msg s H). cbn.
  rewrite <- app_assoc. split; reflexivity.
Qed.

(** X17: one browsing pass is bounded: at most twelve requests (the profile,
    the feed, and for each of at most five posts one chat request and one
    vote or comment), at most five of them to the chat service, and at
    most ten seconds of sleep; this holds whether the pass completes or
    stops on an exception. *)
Theorem browse_pass_bounded (s : state) :
  let s' := snd (autonomous_browse E s) in
  (List.length (issued s s') <= 12)%nat
  /\ (List.length (filter is_chat_call (issued s s')) <= 5)%nat
  /\ (slept s <= slept s' <= slept s + 10)%nat.
Proof.
  intros s'. destruct (bounded_autonomous_browse E s) as (l & Hn & Hl & Hc & Hs).
  fold s' in Hn, Hs. rewrite (issued_app s s' l Hn).
  repeat split; lia.
Qed.

Lemma act_history (post_id decision : pyval) (s : state) :
  conversation_history (snd (act E post_id decision s))
  = conversation_history s.
Proof.
  unfold act. destruct decision; try reflexivity.
  destruct (Text.contains "UPVOTE" (Text.upper s0)).
  - unfold upvote_post. run.
    set (s1 := add_console _ s).
    destruct (make_request_effect E "POST"
                ("/posts/" ++ fmt E post_id ++ "/upvote") None None s1)
      as (_ & _ & _ & Hh & _).
    destruct (_make_request E "POST" _ None None s1) as [[r|e] s2];
      cbn [snd] in *; exact Hh.
  - destruct (Text.contains "COMMENT" (Text.upper s0)); [|reflexivity].
    unfold add_comment. run.
    set (s1 := add_console _ (add_console _ s)).
    destruct (make_request_effect E "POST"
                ("/posts/" ++ fmt E post_id ++ "/comments")
                (Some [("content", PStr (comment_text_of s0))]) None s1)
      as (_ & _ & _ & Hh & _).
    destruct (_make_request E "POST"
                ("/posts/" ++ fmt E post_id ++ "/comments")
                (Some [("content", PStr (comment_text_of s0))]) None s1)
      as [[r|e] s2]; cbn [snd] in *; [|exact Hh].
    destruct (truthy r); run; exact Hh.
Qed.

(** X18: what a post that was processed to the end has cost, whatever the
    decision: one chat request, followed by at most one request to
    Moltbook; two more entries in the history; and two seconds of sleep. *)
Theorem browse_post_cost (idx : Z) (post : pyval) (s : state) :
  fst (browse_post E idx post s) = Ok tt ->
  let s' := snd (browse_post E idx post s) in
  slept s' = slept s + 2
  /\ List.length (conversation_history s')
     = List.length (conversation_history s) + 2
  /\ exists messages rest,
      issued s s' = ChatPost messages (streaming s) :: rest
      /\ (List.length rest <= 1)%nat
      /\ filter is_chat_call rest = [].
Proof.
  unfold browse_post. run.
  destruct post; cbn [py_get]; run; try discriminate.
  destruct (py_slice_to E 500 _) as [content500|e]; run; [|discriminate].
  match goal with
  | |- context [ask_ai E ?u None ?s0] =>
      set (prompt := u); set (s1 := s0)
  end.
  destruct (ask_ai_effect prompt None s1) as (Hn & Hs & _ & Hh).
  destruct (ask_ai E prompt None s1) as [[decision|e] s2];
    cbn [fst snd] in *; [|discriminate].
  match goal with
  | |- context [act E ?pid decision s2] => set (post_id := pid)
  end.
  destruct (bounded_act E post_id decision s2) as (l & Hl & Hlen & Hc & Hsl).
  pose proof (act_history post_id decision s2) as Hah.
  destruct (act E post_id decision s2) as [[[]|e] s3];
    cbn [fst snd] in *; [|discriminate].
  intros _. cbn [slept add_sleep conversation_history].
  split; [unfold s1 in Hs; cbn in Hs; lia|].
  split.
  - rewrite Hah, Hh, length_app. unfold s1. cbn. lia.
  - exists (request_messages prompt None s1), l.
    split; [|split; [exact Hlen|]].
    + apply issued_app. cbn [net add_sleep]. rewrite Hl, Hn.
      unfold s1. cbn. rewrite <- app_assoc. reflexivity.
    + destruct (filter is_chat_call l); [reflexivity | cbn in Hc; lia].
Qed.

End Agent.
End BrowseCoverage.

(* ================================================================== *)
(** ** Passes that stop early, the heartbeat and the examples *)
(* ================================================================== *)

Module PassCoverage.
Import Py Sys MoltbookAgent Examples SysFacts SocialFacts ConversationFacts.
Import DecisionFacts BrowseFacts BoundFacts BrowseCoverage.

Section Agent.
Variable E : Env.

(** X19: a post whose content is neither a text nor a list, such as the [null]
    content of a link post, cannot be sliced: the loop raises at that
    post, before any request for it, and the posts after it are not looked
    at. The exception is [TypeError], except for a content that is an
    object where slices can be hashed (Python 3.12 and later): there the
    slice is looked up as a key and the exception is [KeyError]. *)
Theorem browse_unsliceable_content (idx : Z) (d : dict) (c : pyval)
        (rest : list pyval) (s : state) :
  dict_get "content" d = Some c ->
  match c with PStr _ | PList _ => False | _ => True end ->
  let run := browse_posts E idx (PDict d :: rest) s in
  fst run = Raise (match c with
                   | PDict _ => if hashable_slices E then KeyError
                                else TypeError
                   | _ => TypeError
                   end)
  /\ issued s (snd run) = []
  /\ conversation_history (snd run) = conversation_history s.
Proof.
  intros Hc Hbad run. unfold run. cbn [browse_posts]. unfold browse_post. run.
  cbn [py_get]. rewrite Hc. run.
  destruct c; try contradiction; cbn [py_slice_to]; run;
    try destruct (hashable_slices E);
    (repeat split; [apply issued_app; cbn; now rewrite app_nil_r]).
Qed.

(** X20: a feed item that is not an object has no [get]: the loop raises
    [AttributeError] at that item, before any request for it. *)
Theorem browse_item_not_object (idx : Z) (post : pyval)
        (rest : list pyval) (s : state) :
  match post with PDict _ => False | _ => True end ->
  let run := browse_posts E idx (post :: rest) s in
  fst run = Raise AttributeError
  /\ issued s (snd run) = []
  /\ conversation_history (snd run) = conversation_history s.
Proof.
  intros Hbad run. unfold run. cbn [browse_posts]. unfold browse_post. run.
  destruct post; try contradiction; cbn [py_get]; run;
    (repeat split; [apply issued_app; cbn; now rewrite app_nil_r]).
Qed.

(** X21: without a profile there is no pass: when the profile fetch returns a
    false value, [autonomous_browse] says so and returns; the feed is not
    fetched, and the only request of the pass is the profile fetch, if the
    agent has a key at all. *)
Theorem browse_without_profile (s s1 : state) (profile : pyval) :
  get_profile E (add_console [starting_text ++ Text.NL] s) = (Ok profile, s1) ->
  truthy profile = false ->
  autonomous_browse E s = (Ok tt, add_console [no_profile_text ++ Text.NL] s1)
  /\ issued s (snd (autonomous_browse E s)) = when_keyed s profile_request.
Proof.
  intros Hp Hf.
  assert (Hrun : autonomous_browse E s =
                 (Ok tt, add_console [no_profile_text ++ Text.NL] s1)).
  { unfold autonomous_browse, browse_profile. run. rewrite Hp. run.
    rewrite Hf. reflexivity. }
  split; [exact Hrun|]. rewrite Hrun. apply issued_app.
  destruct (get_profile_effect E (add_console [starting_text ++ Text.NL] s))
    as (Hn & _).
  rewrite Hp in Hn. exact Hn.
Qed.

Lemma autonomous_browse_starts (s : state) :
  exists rest,
    net (snd (autonomous_browse E s)) =
    (net s ++ when_keyed s profile_request ++ rest)%list.
Proof.
  set (s0 := add_console [starting_text ++ Text.NL] s).
  assert (Heq : autonomous_browse E s =
                (profile <- get_profile E ;; browse_profile E profile) s0)
    by reflexivity.
  rewrite Heq. unfold bind.
  destruct (get_profile_effect E s0) as (Hn & _).
  destruct (get_profile E s0) as [[profile|e] s1]; cbn [snd] in *.
  - destruct (bounded_browse_profile E profile s1) as (l & Hl & _).
    exists l. rewrite Hl, Hn, <- app_assoc. reflexivity.
  - exists []. rewrite app_nil_r. exact Hn.
Qed.

(** X22: a heartbeat that cannot get the profile reports the failure and does
    nothing else; one that gets it starts a browsing pass, which fetches
    the profile once more: the first two requests of such a heartbeat are
    both the profile fetch. *)
Theorem heartbeat_outcome (now : string) (s s1 : state) (profile : pyval) :
  get_profile E (add_console [(Text.NL ++ "💓 Heartbeat at " ++ now) ++ Text.NL] s)
  = (Ok profile, s1) ->
  (truthy profile = false ->
   heartbeat E now s =
     (Ok tt, add_console ["✗ Failed to connect" ++ Text.NL] s1)
   /\ issued s (snd (heartbeat E now s)) = when_keyed s profile_request)
  /\ (forall name,
         truthy profile = true ->
         py_get profile "name" (PStr "Unknown") = Ok name ->
         heartbeat E now s =
           autonomous_browse E
             (add_console [("✓ Connected as " ++ fmt E name) ++ Text.NL] s1)
         /\ exists rest,
             issued s (snd (heartbeat E now s)) =
             profile_request :: profile_request :: rest).
Proof.
  intros Hp.
  destruct (get_profile_effect E
              (add_console [(Text.NL ++ "💓 Heartbeat at " ++ now) ++ Text.NL] s))
    as (Hn & Hk & _).
  rewrite Hp in Hn, Hk. cbn [snd net api_key add_console] in Hn, Hk.
  split.
  - intros Hf.
    assert (Hrun : heartbeat E now s =
                   (Ok tt, add_console ["✗ Failed to connect" ++ Text.NL] s1)).
    { unfold heartbeat. run. rewrite Hp. run. rewrite Hf. reflexivity. }
    split; [exact Hrun|]. rewrite Hrun. apply issued_app. exact Hn.
  - intros name Ht Hname.
    assert (Hrun : heartbeat E now s =
                   autonomous_browse E
                     (add_console [("✓ Connected as " ++ fmt E name) ++ Text.NL]
                                  s1)).
    { unfold heartbeat. run. rewrite Hp. run. rewrite Ht, Hname. reflexivity. }
    split; [exact Hrun|]. rewrite Hrun.
    pose proof (get_profile_truthy E _ _ _ Hp Ht) as Hkey.
    cbn [api_key add_console] in Hkey.
    destruct (autonomous_browse_starts
                (add_console [("✓ Connected as " ++ fmt E name) ++ Text.NL] s1))
      as (rest & Hrest).
    exists rest. apply issued_app. rewrite Hrest.
    unfold when_keyed in *. cbn [api_key add_console net] in *.
    rewrite Hk, Hkey, Hn, Hkey, <- app_assoc. reflexivity.
Qed.

(** X23: Example 2 sends one chat request, made of the system prompt and the
    user message only (the agent is new, its history empty), and nothing
    to Moltbook: the generated post is printed, not posted. *)
Theorem example_guided_posting_request (s : state) :
  issued s (snd (example_guided_posting E s)) =
  [ChatPost [Message "system" (PStr guided_system_prompt);
             Message "user" (PStr guided_user_message)] true].
Proof.
  unfold example_guided_posting, new_agent. run.
  match goal with
  | |- context [ask_ai E _ _ ?s0] => set (s1 := s0)
  end.
  destruct (ask_ai_effect E guided_user_message (Some guided_system_prompt) s1)
    as (Hn & _).
  destruct (ask_ai E guided_user_message (Some guided_system_prompt) s1)
    as [[r|e] s2]; cbn [snd] in *; run; apply issued_app; exact Hn.
Qed.

(** X25: Example 1 reads [profile['name']] where the agent itself uses
    [profile.get]: a profile without a name makes the example raise
    [KeyError] right after the profile fetch, before any browsing. *)
Theorem example_autonomous_agent_needs_name (s s1 : state) (d : dict) :
  get_profile E
    (fresh_agent placeholder_key
       (add_console [("Example 1: Autonomous Agent" ++ Text.NL) ++ Text.NL] s))
  = (Ok (PDict d), s1) ->
  d <> [] ->
  dict_get "name" d = None ->
  example_autonomous_agent E s = (Raise KeyError, s1)
  /\ issued s s1 = [profile_request].
Proof.
  intros Hp Hd Hname. split.
  - unfold example_autonomous_agent, new_agent. run. rewrite Hp. run.
    destruct d; [contradiction|]. cbn [truthy subscript_key]. rewrite Hname.
    reflexivity.
  - destruct (get_profile_effect E
                (fresh_agent placeholder_key
                   (add_console [("Example 1: Autonomous Agent" ++ Text.NL)
                                   ++ Text.NL] s))) as (Hn & _).
    rewrite Hp in Hn. apply issued_app. exact Hn.
Qed.

Lemma chars_length (n : nat) (t : string) :
  (List.length (chars (Text.slice_to n t)) <= n)%nat.
Proof.
  revert t. induction n as [|n IH]; intros t; destruct t; cbn; try lia.
  specialize (IH t). lia.
Qed.

Lemma bounded_engage_post (post : pyval) : bounded 1 1 0 (engage_post E post).
Proof.
  unfold engage_post.
  apply bounded_then; [apply bounded_lift|]. intros title.
  apply bounded_then; [apply bounded_lift|]. intros content.
  apply bounded_then; [apply bounded_lift|]. intros content200.
  apply bounded_then; [apply bounded_lift|]. intros score.
  apply (bounded_bind 1 1 0 0 0 0); [apply bounded_ask_ai|]. intros decision.
  apply bounded_then; [apply bounded_lift|]. intros shown.
  apply bounded_then; [apply bounded_print|]. intros _.
  apply bounded_print.
Qed.

Lemma bounded_engage_posts (posts : list pyval) :
  bounded (List.length posts) (List.length posts) 0 (engage_posts E posts).
Proof.
  induction posts as [|post rest IH]; cbn [engage_posts List.length].
  - apply bounded_ret.
  - apply (bounded_bind 1 1 0); [apply bounded_engage_post|].
    intros _. exact IH.
Qed.

Lemma only_make_request (P : call -> bool) (method endpoint : string)
      (data params : option dict) :
  (forall c, request_of method endpoint data params = Some c -> P c = true) ->
  only P (_make_request E method endpoint data params).
Proof.
  intros HP s.
  destruct (make_request_effect E method endpoint data params s) as (Hn & _).
  eexists. split; [exact Hn|].
  destruct (truthy (api_key s)); [|reflexivity].
  destruct (request_of method endpoint data params) as [c|] eqn:Hc;
    [|reflexivity].
  cbn. now rewrite (HP c eq_refl).
Qed.

Lemma only_ask_ai (user_message : string) (system_prompt : option string) :
  only harmless (ask_ai E user_message system_prompt).
Proof.
  intros s. destruct (ask_ai_effect E user_message system_prompt s) as (Hn & _).
  eexists. split; [exact Hn | reflexivity].
Qed.

Lemma only_engage_posts (posts : list pyval) :
  only harmless (engage_posts E posts).
Proof.
  induction posts as [|post rest IH]; cbn [engage_posts].
  - apply only_ret.
  - apply only_bind; [|intros _; exact IH].
    unfold engage_post.
    apply only_bind; [apply only_lift|]. intros title.
    apply only_bind; [apply only_lift|]. intros content.
    apply only_bind; [apply only_lift|]. intros content200.
    apply only_bind; [apply only_lift|]. intros score.
    apply only_bind; [apply only_ask_ai|]. intros decision.
    apply only_bind; [apply only_lift|]. intros shown.
    apply only_bind; [apply only_print|]. intros _.
    apply only_print.
Qed.

Lemma iter_slice_length (n : nat) (v w : pyval) (l : list pyval) :
  py_slice_to E n v = Ok w -> py_iter w = Ok l -> (List.length l <= n)%nat.
Proof.
  destruct v; cbn [py_slice_to]; try discriminate; intros H; injection H as <-;
    cbn [py_iter]; intros H; injection H as <-.
  - apply chars_length.
  - rewrite length_firstn. lia.
Qed.

Lemma bounded_example_search : bounded 4 3 0 (example_search_and_engage E).
Proof.
  unfold example_search_and_engage.
  apply bounded_then; [apply bounded_print|]. intros _.
  apply bounded_then; [intros s0; now apply within_same|]. intros _.
  apply (bounded_bind 1 0 0 3 3 0); [apply bounded_make_request|].
  intros results. destruct (truthy results);
    [|eapply bounded_weaken; [apply bounded_ret | lia | lia | lia]].
  apply bounded_then; [apply bounded_lift|]. intros n.
  apply bounded_then; [apply bounded_print|]. intros _.
  apply bounded_after_lift. intros first3 Hslice.
  apply bounded_after_lift. intros posts Hiter.
  pose proof (iter_slice_length 3 _ _ _ Hslice Hiter) as Hlen.
  eapply bounded_weaken; [apply bounded_engage_posts | lia | lia | lia].
Qed.

Lemma search_is_harmless (c : call) :
  request_of "GET" "/search" None
             (Some [("q", PStr "machine learning"); ("limit", PInt 20)])
  = Some c ->
  harmless c = true.
Proof. intros H. injection H as <-. reflexivity. Qed.

Lemma only_example_search : only harmless (example_search_and_engage E).
Proof.
  unfold example_search_and_engage.
  apply only_bind; [apply only_print|]. intros _.
  apply only_bind; [intros s0; exists []; cbn; now rewrite app_nil_r|].
  intros _.
  apply only_bind; [apply only_make_request, search_is_harmless|].
  intros results. destruct (truthy results); [|apply only_ret].
  apply only_bind; [apply only_lift|]. intros n.
  apply only_bind; [apply only_print|]. intros _.
  apply only_bind; [apply only_lift|]. intros first3.
  apply only_bind; [apply only_lift|]. intros posts.
  apply only_engage_posts.
Qed.

(** X24: Example 3 only reads and asks: it sends the search and then at most
    three chat requests, never a vote or a comment, and it never sleeps,
    whatever the search returns and wherever the run stops. *)
Theorem example_search_and_engage_bounded (s : state) :
  let s' := snd (example_search_and_engage E s) in
  (List.length (issued s s') <= 4)%nat
  /\ (List.length (filter is_chat_call (issued s s')) <= 3)%nat
  /\ forallb harmless (issued s s') = true
  /\ slept s' = slept s.
Proof.
  intros s'.
  destruct (bounded_example_search s) as (l & Hn & Hl & Hc & Hs).
  destruct (only_example_search s) as (l' & Hn' & Hl').
  fold s' in Hn, Hn', Hs.
  rewrite (issued_app s s' l Hn). repeat split; try lia.
  rewrite <- (issued_app s s' l Hn), (issued_app s s' l' Hn'). exact Hl'.
Qed.

End Agent.

Import Scripted.

Lemma ask_ai_raise_keeps_history_witness :
  conversation_history (snd (ask_ai null_env "hi" None (init PNone true))) = []
  /\ issued (init PNone true) (snd (ask_ai null_env "hi" None (init PNone true)))
     = [ChatPost [Message "user" (PStr "hi")] true].
Proof.
  exact (ask_ai_raise_keeps_history null_env "hi" None (init PNone true)
           TypeError eq_refl).
Defined.

Lemma ask_ai_records_failure_witness :
  fst (ask_ai silent_env "hi" None (init PNone true)) = Ok (PStr "")
  /\ conversation_history (snd (ask_ai silent_env "hi" None (init PNone true)))
     = [Message "user" (PStr "hi"); Message "assistant" (PStr "")].
Proof.
  exact (ask_ai_records_failure silent_env "hi" None (init PNone true)
           "timed out" eq_refl).
Defined.

Lemma browse_post_cost_witness :
  slept (snd (browse_post silent_env 1 (PDict []) keyed)) = 2
  /\ List.length
       (conversation_history (snd (browse_post silent_env 1 (PDict []) keyed)))
     = 2.
Proof.
  pose proof (browse_post_cost silent_env 1 (PDict []) keyed eq_refl)
    as (Hs & Hh & _).
  split; [exact Hs | exact Hh].
Defined.

Lemma browse_unsliceable_content_witness :
  fst (browse_posts empty_feed_env 1 [PDict link_post; PDict []] keyed)
  = Raise TypeError
  /\ issued keyed
       (snd (browse_posts empty_feed_env 1 [PDict link_post; PDict []] keyed))
     = []
  /\ fst (browse_posts empty_feed_env 1 [PDict object_post] keyed)
     = Raise KeyError
  /\ fst (browse_posts (older_python empty_feed_env) 1 [PDict object_post]
            keyed)
     = Raise TypeError.
Proof.
  pose proof (browse_unsliceable_content empty_feed_env 1 link_post PNone
                [PDict []] keyed eq_refl I) as (Hr & Hi & _).
  pose proof (browse_unsliceable_content empty_feed_env 1 object_post
                (PDict [("text", PStr "hi")]) [] keyed eq_refl I)
    as (Hnew & _).
  pose proof (browse_unsliceable_content (older_python empty_feed_env) 1
                object_post (PDict [("text", PStr "hi")]) [] keyed eq_refl I)
    as (Hold & _).
  split; [exact Hr | split; [exact Hi | split; [exact Hnew | exact Hold]]].
Defined.

Lemma browse_item_not_object_witness :
  fst (browse_posts empty_feed_env 1 [PStr "post"] keyed)
  = Raise AttributeError.
Proof.
  exact (proj1 (browse_item_not_object empty_feed_env 1 (PStr "post") []
                  keyed I)).
Defined.

Lemma browse_without_profile_witness :
  issued keyed (snd (autonomous_browse offline_env keyed)) = [profile_request]
  /\ issued (init PNone true)
       (snd (autonomous_browse offline_env (init PNone true))) = [].
Proof.
  split.
  - exact (proj2 (browse_without_profile offline_env keyed _ PNone
                    eq_refl eq_refl)).
  - exact (proj2 (browse_without_profile offline_env (init PNone true) _ PNone
                    eq_refl eq_refl)).
Defined.

Lemma heartbeat_outcome_witness :
  issued keyed (snd (heartbeat offline_env "2026-01-01 00:00:00" keyed))
  = [profile_request]
  /\ exists rest,
      issued keyed (snd (heartbeat empty_feed_env "2026-01-01 00:00:00" keyed))
      = profile_request :: profile_request :: rest.
Proof.
  split.
  - pose proof (heartbeat_outcome offline_env "2026-01-01 00:00:00" keyed _
                  PNone eq_refl) as (Hfail & _).
    exact (proj2 (Hfail eq_refl)).
  - pose proof (heartbeat_outcome empty_feed_env "2026-01-01 00:00:00" keyed _
                  profile_value eq_refl) as (_ & Hok).
    exact (proj2 (Hok (PStr "molty") eq_refl eq_refl)).
Defined.

(** The same heartbeat, run: the profile twice, then the feed. *)
Example heartbeat_empty_feed :
  issued keyed (snd (heartbeat empty_feed_env "2026-01-01 00:00:00" keyed))
  = [profile_request; profile_request; feed_request].
Proof. reflexivity. Qed.

Lemma example_autonomous_agent_needs_name_witness :
  fst (example_autonomous_agent nameless_env (init PNone true))
  = Raise KeyError.
Proof.
  pose proof (example_autonomous_agent_needs_name nameless_env
                (init PNone true) _ [("karma", PInt 1)]
                eq_refl ltac:(discriminate) eq_refl) as (Hrun & _).
  rewrite Hrun. reflexivity.
Defined.

(** Example 3 against a search that finds two posts and a chat service
    that cannot be reached: the search and two chat requests. *)
Example example_search_finds_two :
  map is_chat_call
      (issued (init PNone true)
              (snd (example_search_and_engage finder_env (init PNone true))))
  = [false; true; true].
Proof. reflexivity. Qed.

End PassCoverage.

(* ================================================================== *)
(** ** The interactive shell *)
(* ================================================================== *)

Module ShellFacts.
Import Py Sys MoltbookAgent Shell SysFacts SocialFacts DecisionFacts ShellSteps.
Import BrowseFacts BoundFacts BrowseCoverage.

Section Reading.
Context {A B : Type}.

Lemma reads_done (a : A) : reads (done a).
Proof. intros keys s. exists []. reflexivity. Qed.

Lemma reads_call_agent (m : M A) : reads (call_agent m).
Proof.
  intros keys s. exists []. unfold call_agent.
  destruct (m s) as [[a|e] s']; reflexivity.
Qed.

Lemma reads_then (r : R A) (k : A -> R B) :
  reads r -> (forall a, reads (k a)) -> reads (then_ r k).
Proof.
  intros Hr Hk keys s. unfold then_. destruct (Hr keys s) as (used & Hu).
  destruct (r keys s) as [[[a|g] keys'] s']; cbn [fst snd] in *.
  - destruct (Hk a keys' s') as (used' & Hu').
    exists (used ++ used')%list. rewrite <- app_assoc, <- Hu'. exact Hu.
  - exists used. exact Hu.
Qed.

End Reading.

Lemma reads_input (prompt : string) : reads (input prompt).
Proof.
  intros keys s. unfold input. destruct keys as [|[line|] rest].
  - exists []. reflexivity.
  - exists [Typed line]. reflexivity.
  - exists [CtrlC]. reflexivity.
Qed.

Lemma reads_ask_line (prompt : string) : reads (ask_line prompt).
Proof.
  apply reads_then; [apply reads_input | intros; apply reads_done].
Qed.

Lemma reads_say (text : string) : reads (say text).
Proof. apply reads_call_agent. Qed.

Lemma reads_say_all (lines : list string) : reads (say_all lines).
Proof.
  induction lines as [|line rest IH]; cbn [say_all].
  - apply reads_done.
  - apply reads_then; [apply reads_say | intros; exact IH].
Qed.

Lemma reads_for_each (body : pyval -> R unit) (items : list pyval) :
  (forall item, reads (body item)) -> reads (for_each body items).
Proof.
  intros Hb. induction items as [|item rest IH]; cbn [for_each].
  - apply reads_done.
  - apply reads_then; [apply Hb | intros; exact IH].
Qed.

(** Goals of the form [reads r] for a computation put together from the
    pieces above. *)
Ltac reading :=
  repeat first
    [ apply reads_done
    | apply reads_say
    | apply reads_say_all
    | apply reads_ask_line
    | apply reads_input
    | apply reads_call_agent
    | apply reads_for_each; intros ?
    | apply reads_then; [|intros ?]
    | match goal with
      | |- reads (if ?b then _ else _) => destruct b
      | |- reads (match ?x with _ => _ end) => destruct x
      end ].

Section Agent.
Variable E : Env.
Variable message_of : exn -> string.
Variable clock : state -> string.

Lemma reads_do_heartbeat : reads (do_heartbeat E clock).
Proof. intros keys s. apply reads_call_agent. Qed.

Lemma reads_do_ask : reads (do_ask E).
Proof.
  unfold do_ask. apply reads_then; [apply reads_ask_line|]. intros question.
  apply reads_then; [apply reads_say|]. intros _.
  apply reads_then; [apply reads_call_agent|]. intros response.
  intros keys s. destruct (negb (streaming s)).
  - apply reads_say.
  - apply reads_done.
Qed.

Lemma reads_command (command : string) :
  reads
    (if String.eqb command "help" then say_all help_lines
     else if String.eqb command "register" then do_register E
     else if String.eqb command "setkey" then do_setkey
     else if String.eqb command "profile" then do_profile E
     else if String.eqb command "feed" then do_feed E
     else if String.eqb command "post" then do_post E
     else if String.eqb command "search" then do_search E
     else if String.eqb command "submolts" then do_submolts E
     else if String.eqb command "browse" then call_agent (autonomous_browse E)
     else if String.eqb command "heartbeat" then do_heartbeat E clock
     else if String.eqb command "ask" then do_ask E
     else say ("Unknown command: " ++ command
               ++ ". Type 'help' for available commands.")).
Proof.
  repeat match goal with
         | |- reads (if ?b then _ else _) => destruct b
         end;
    try apply reads_do_heartbeat; try apply reads_do_ask;
    unfold do_register, do_setkey, do_profile, do_feed, do_post, do_search,
      do_submolts, show_feed_post, show_search_post, show_submolt;
    reading.
Qed.

(** What one turn does to the input: at the end of the input it raises
    [EOFError]; otherwise it uses the first event and perhaps more. *)
Lemma turn_uses (keys : list event) (s : state) :
  (keys = [] /\ fst (fst (turn E clock keys s)) = Raised EOFError)
  \/ exists e used,
      keys = (e :: used ++ snd (fst (turn E clock keys s)))%list.
Proof.
  destruct keys as [|e rest]; [left; split; reflexivity|]. right.
  exists e. unfold turn, then_ at 1, input.
  destruct e as [line|]; [|exists []; reflexivity].
  cbn [fst snd].
  set (command := Text.lower (Text.strip line)).
  set (s' := add_console _ s).
  destruct (String.eqb command ""); [exists []; reflexivity|].
  destruct (String.eqb command "quit" || String.eqb command "exit").
  - exists []. reflexivity.
  - match goal with
    | |- context [then_ ?r ?k rest s'] =>
        assert (Hr : reads (then_ r k))
          by (apply reads_then; [apply reads_command | intros; apply reads_done]);
        destruct (Hr rest s') as (used & Hu); exists used;
        f_equal; exact Hu
    end.
Qed.

(** The turn that breaks the loop is the one that reads quit or exit. *)
Lemma turn_breaks (keys : list event) (s : state) :
  fst (fst (turn E clock keys s)) = Done true ->
  exists e rest, keys = e :: rest /\ types_quit e = true.
Proof.
  destruct keys as [|e rest]; [discriminate|].
  intros H. exists e, rest. split; [reflexivity|].
  revert H. unfold turn, then_ at 1, input.
  destruct e as [line|]; [|discriminate].
  cbn [fst snd types_quit]. unfold command_of.
  set (command := Text.lower (Text.strip line)).
  set (s' := add_console _ s).
  destruct (String.eqb command ""); [discriminate|].
  destruct (String.eqb command "quit" || String.eqb command "exit");
    [reflexivity|].
  unfold then_.
  match goal with
  | |- context [match ?x rest s' with _ => _ end] =>
      destruct (x rest s') as [[[[]|g] keys'] s'']
  end; discriminate.
Qed.

(** With more turns than events the loop comes to its end: each turn
    uses an event, or finds the input at its end. *)
Lemma loop_ends (turns : nat) :
  forall keys s,
    (List.length keys < turns)%nat ->
    loop E message_of clock turns keys s <> OutOfTurns.
Proof.
  induction turns as [|turns IH]; intros keys s Hlen; [lia|].
  cbn [loop].
  destruct (turn_uses keys s) as [(-> & Heof)|(e & used & Hk)].
  - destruct (turn E clock [] s) as [[[b|g] keys'] s']; cbn [fst] in Heof;
      [discriminate|]. injection Heof as ->. discriminate.
  - destruct (turn E clock keys s) as [[[b|g] keys'] s']; cbn [fst snd] in Hk.
    + assert (List.length keys' < turns)%nat
        by (rewrite Hk in Hlen; cbn [List.length] in Hlen;
            rewrite length_app in Hlen; lia).
      destruct b; [discriminate | now apply IH].
    + assert (List.length keys' < turns)%nat
        by (rewrite Hk in Hlen; cbn [List.length] in Hlen;
            rewrite length_app in Hlen; lia).
      destruct g; [now apply IH | discriminate | now apply IH].
Qed.

(* ---------------------------------------------------------------- *)
(** *** An agent without a key *)

Section Keyless.
Context {A B : Type}.

Lemma keyless_still (m : M A) :
  (forall s, truthy (api_key s) = false ->
     api_key (snd (m s)) = api_key s /\ net (snd (m s)) = net s) ->
  keyless m.
Proof.
  intros H s Hk. destruct (H s Hk) as (Ha & Hn). split.
  - now rewrite Ha.
  - exists []. rewrite Hn, app_nil_r. split; reflexivity.
Qed.

Lemma keyless_lift (r : result A) : keyless (lift r).
Proof. apply keyless_still. intros; split; reflexivity. Qed.

Lemma keyless_shell_done (a : A) : keyless_shell (done a).
Proof.
  intros keys s Hk. split; [exact Hk|]. exists [].
  cbn. rewrite app_nil_r. split; reflexivity.
Qed.

Lemma keyless_shell_call_agent (m : M A) :
  keyless m -> keyless_shell (call_agent m).
Proof.
  intros Hm keys s Hk. unfold call_agent.
  destruct (Hm s Hk) as (Ha & Hn).
  destruct (m s) as [[a|e] s']; exact (conj Ha Hn).
Qed.

Lemma keyless_shell_then (r : R A) (k : A -> R B) :
  keyless_shell r -> (forall a, keyless_shell (k a)) ->
  keyless_shell (then_ r k).
Proof.
  intros Hr Hk keys s Hs. unfold then_.
  destruct (Hr keys s Hs) as (Ha & l & Hn & Hl).
  destruct (r keys s) as [[[a|g] keys'] s']; cbn [fst snd] in *.
  - destruct (Hk a keys' s' Ha) as (Ha' & l' & Hn' & Hl').
    split; [exact Ha'|]. exists (l ++ l')%list. split.
    + now rewrite Hn', Hn, app_assoc.
    + now rewrite forallb_app, Hl, Hl'.
  - split; [exact Ha|]. now exists l.
Qed.

End Keyless.

Lemma keyless_print (text : string) : keyless (print text).
Proof. apply keyless_still. intros; split; reflexivity. Qed.

Lemma keyless_shell_input (prompt : string) : keyless_shell (input prompt).
Proof.
  intros keys s Hk. unfold input.
  destruct keys as [|[line|] rest]; cbn [snd net api_key add_console];
    (split; [exact Hk|]); exists []; rewrite app_nil_r; split; reflexivity.
Qed.

Lemma keyless_shell_ask_line (prompt : string) :
  keyless_shell (ask_line prompt).
Proof.
  apply keyless_shell_then;
    [apply keyless_shell_input | intros; apply keyless_shell_done].
Qed.

Lemma keyless_shell_say (text : string) : keyless_shell (say text).
Proof. apply keyless_shell_call_agent, keyless_print. Qed.

Lemma keyless_shell_say_all (lines : list string) :
  keyless_shell (say_all lines).
Proof.
  induction lines as [|line rest IH]; cbn [say_all].
  - apply keyless_shell_done.
  - apply keyless_shell_then; [apply keyless_shell_say | intros; exact IH].
Qed.

Lemma keyless_shell_for_each (body : pyval -> R unit) (items : list pyval) :
  (forall item, keyless_shell (body item)) ->
  keyless_shell (for_each body items).
Proof.
  intros Hb. induction items as [|item rest IH]; cbn [for_each].
  - apply keyless_shell_done.
  - apply keyless_shell_then; [apply Hb | intros; exact IH].
Qed.

(** Without a key every method that goes through [_make_request] stops
    at its first request. *)
Lemma keyless_make_request (method endpoint : string)
      (data params : option dict) :
  keyless (_make_request E method endpoint data params).
Proof.
  apply keyless_still. intros s Hk.
  rewrite (make_request_no_key E method endpoint data params s Hk).
  split; reflexivity.
Qed.

Lemma keyless_get_profile : keyless (get_profile E).
Proof.
  apply keyless_still. intros s Hk. unfold get_profile, bind.
  rewrite (make_request_no_key E "GET" "/agents/me" None None s Hk).
  split; reflexivity.
Qed.

Lemma keyless_register (name description : string) :
  keyless (register E name description).
Proof.
  apply keyless_still. intros s Hk. unfold register, bind.
  rewrite (make_request_no_key E "POST" "/agents/register" _ None s Hk).
  split; reflexivity.
Qed.

Lemma keyless_create_post (submolt title : string)
      (content url : option string) :
  keyless (create_post E submolt title content url).
Proof.
  apply keyless_still. intros s Hk. unfold create_post, bind.
  rewrite (make_request_no_key E "POST" "/posts" _ None s Hk).
  split; reflexivity.
Qed.

Lemma keyless_autonomous_browse : keyless (autonomous_browse E).
Proof.
  apply keyless_still. intros s Hk.
  unfold autonomous_browse, get_profile, bind, print, write.
  rewrite (make_request_no_key E "GET" "/agents/me" None None
             (add_console [starting_text ++ Text.NL] s) Hk).
  split; reflexivity.
Qed.

Lemma keyless_heartbeat (now : string) : keyless (heartbeat E now).
Proof.
  apply keyless_still. intros s Hk.
  unfold heartbeat, get_profile, bind, print, write.
  rewrite (make_request_no_key E "GET" "/agents/me" None None
             (add_console [(Text.NL ++ "💓 Heartbeat at " ++ now) ++ Text.NL] s)
             Hk).
  split; reflexivity.
Qed.

Lemma keyless_ask_ai (user_message : string) (system_prompt : option string) :
  keyless (ask_ai E user_message system_prompt).
Proof.
  intros s Hk.
  destruct (ask_ai_effect E user_message system_prompt s)
    as (Hn & _ & Ha & _).
  split; [now rewrite Ha|]. eexists. split; [exact Hn | reflexivity].
Qed.

(** Goals of the form [keyless_shell r] for a computation put together
    from the pieces above. *)
Ltac keying :=
  repeat first
    [ apply keyless_shell_done
    | apply keyless_shell_say
    | apply keyless_shell_say_all
    | apply keyless_shell_ask_line
    | apply keyless_shell_input
    | apply keyless_shell_call_agent;
      first [ apply keyless_lift | apply keyless_print
            | apply keyless_make_request | apply keyless_get_profile
            | apply keyless_register | apply keyless_create_post
            | apply keyless_autonomous_browse
            | apply keyless_heartbeat | apply keyless_ask_ai ]
    | apply keyless_shell_for_each; intros ?
    | apply keyless_shell_then; [|intros ?]
    | match goal with
      | |- keyless_shell (if ?b then _ else _) => destruct b
      | |- keyless_shell (match ?x with _ => _ end) => destruct x
      end ].

Lemma keyless_shell_do_heartbeat : keyless_shell (do_heartbeat E clock).
Proof.
  intros keys s. apply keyless_shell_call_agent, keyless_heartbeat.
Qed.

Lemma keyless_shell_do_ask : keyless_shell (do_ask E).
Proof.
  unfold do_ask.
  apply keyless_shell_then; [apply keyless_shell_ask_line|]. intros question.
  apply keyless_shell_then; [apply keyless_shell_say|]. intros _.
  apply keyless_shell_then;
    [apply keyless_shell_call_agent, keyless_ask_ai|]. intros response.
  intros keys s. destruct (negb (streaming s)).
  - apply keyless_shell_say.
  - apply keyless_shell_done.
Qed.

(** Every command but [setkey] leaves an agent without a key as it is. *)
Lemma keyless_shell_command (command : string) :
  String.eqb command "setkey" = false ->
  keyless_shell
    (if String.eqb command "help" then say_all help_lines
     else if String.eqb command "register" then do_register E
     else if String.eqb command "setkey" then do_setkey
     else if String.eqb command "profile" then do_profile E
     else if String.eqb command "feed" then do_feed E
     else if String.eqb command "post" then do_post E
     else if String.eqb command "search" then do_search E
     else if String.eqb command "submolts" then do_submolts E
     else if String.eqb command "browse" then call_agent (autonomous_browse E)
     else if String.eqb command "heartbeat" then do_heartbeat E clock
     else if String.eqb command "ask" then do_ask E
     else say ("Unknown command: " ++ command
               ++ ". Type 'help' for available commands.")).
Proof.
  intros ->.
  repeat match goal with
         | |- keyless_shell (if ?b then _ else _) => destruct b
         end;
    try apply keyless_shell_do_heartbeat; try apply keyless_shell_do_ask;
    unfold do_register, do_profile, do_feed, do_post, do_search,
      do_submolts, show_feed_post, show_search_post, show_submolt,
      get_feed, search, list_submolts;
    keying.
Qed.

Lemma keyless_turn (keys : list event) (s : state) :
  truthy (api_key s) = false ->
  match keys with e :: _ => types_setkey e = false | [] => True end ->
  truthy (api_key (snd (turn E clock keys s))) = false
  /\ exists l, net (snd (turn E clock keys s)) = (net s ++ l)%list
               /\ forallb is_chat_call l = true.
Proof.
  intros Hk He.
  destruct keys as [|[line|] rest];
    [ apply (keyless_shell_input (Text.NL ++ "> ") [] s Hk)
    | | apply (keyless_shell_input (Text.NL ++ "> ") (CtrlC :: rest) s Hk) ].
  unfold turn. rewrite then_input_typed. cbv beta zeta.
  cbn [types_setkey] in He. unfold command_of in He.
  set (command := Text.lower (Text.strip line)) in *.
  set (s' := add_console _ s) in *.
  change (net s) with (net s').
  destruct (String.eqb command "").
  { exact (keyless_shell_done false rest s' Hk). }
  destruct (String.eqb command "quit" || String.eqb command "exit").
  { assert (Hq : keyless_shell (then_ (say "Goodbye!") (fun _ => done true)))
      by keying.
    exact (Hq rest s' Hk). }
  match goal with
  | |- context [then_ ?r ?k rest s'] =>
      assert (Hr : keyless_shell (then_ r k))
        by (apply keyless_shell_then;
            [apply (keyless_shell_command command He)
            | intros; apply keyless_shell_done]);
      exact (Hr rest s' Hk)
  end.
Qed.

(** The unread input is what is left of the input: what holds of no
    event holds of none that is left. *)
Lemma turn_leaves (P : event -> bool) (keys : list event) (s : state) :
  existsb P keys = false ->
  existsb P (snd (fst (turn E clock keys s))) = false.
Proof.
  intros H. destruct (turn_uses keys s) as [(-> & Heof)|(e & used & Hk)].
  - destruct (turn E clock [] s) as [[o keys'] s'] eqn:Ht.
    unfold turn, then_, input in Ht. injection Ht as _ <- _. reflexivity.
  - rewrite Hk in H. cbn [existsb] in H. rewrite existsb_app in H.
    apply Bool.orb_false_iff in H as (_ & H).
    apply Bool.orb_false_iff in H as (_ & H). exact H.
Qed.

Lemma loop_keyless (turns : nat) :
  forall keys s s',
    truthy (api_key s) = false ->
    existsb types_setkey keys = false ->
    final (loop E message_of clock turns keys s) = Some s' ->
    truthy (api_key s') = false
    /\ exists l, net s' = (net s ++ l)%list /\ forallb is_chat_call l = true.
Proof.
  induction turns as [|turns IH]; intros keys s s' Hk He Hf; [discriminate|].
  cbn [loop] in Hf.
  assert (Hfirst : match keys with
                   | e :: _ => types_setkey e = false
                   | [] => True
                   end).
  { destruct keys as [|e rest]; [exact I|]. cbn [existsb] in He.
    now apply Bool.orb_false_iff in He. }
  destruct (keyless_turn keys s Hk Hfirst) as (Ha & l & Hn & Hl).
  pose proof (turn_leaves types_setkey keys s He) as Hrest.
  destruct (turn E clock keys s) as [[o keys'] s1]; cbn [fst snd] in *.
  assert (Hgo : forall out,
             final (loop E message_of clock turns keys' (add_console out s1))
               = Some s' ->
             truthy (api_key s') = false
             /\ exists l', net s' = (net s ++ l')%list
                           /\ forallb is_chat_call l' = true).
  { intros out Hout.
    destruct (IH keys' (add_console out s1) s' Ha Hrest Hout)
      as (Ha' & l' & Hn' & Hl').
    split; [exact Ha'|]. exists (l ++ l')%list. split.
    - rewrite Hn'. cbn [net add_console]. now rewrite Hn, app_assoc.
    - now rewrite forallb_app, Hl, Hl'. }
  assert (Hstop : forall out, add_console out s1 = s' ->
             truthy (api_key s') = false
             /\ exists l', net s' = (net s ++ l')%list
                           /\ forallb is_chat_call l' = true).
  { intros out <-. split; [exact Ha|]. now exists l. }
  destruct o as [[]|[e| |]].
  - injection Hf as <-. split; [exact Ha|]. now exists l.
  - destruct (IH keys' s1 s' Ha Hrest Hf) as (Ha' & l' & Hn' & Hl').
    split; [exact Ha'|]. exists (l ++ l')%list. split.
    + now rewrite Hn', Hn, app_assoc.
    + now rewrite forallb_app, Hl, Hl'.
  - exact (Hgo _ Hf).
  - injection Hf as Hf. exact (Hstop _ Hf).
  - exact (Hgo _ Hf).
Qed.

(** Without a line that reads quit or exit the loop goes on until the
    input is at its end. *)
Lemma loop_starves (turns : nat) :
  forall keys s,
    existsb types_quit keys = false ->
    (List.length keys < turns)%nat ->
    exists s', loop E message_of clock turns keys s = Starved s'.
Proof.
  induction turns as [|turns IH]; intros keys s Hq Hlen; [lia|].
  cbn [loop].
  pose proof (turn_uses keys s) as Hu.
  pose proof (turn_breaks keys s) as Hb.
  pose proof (turn_leaves types_quit keys s Hq) as Hrest.
  destruct (turn E clock keys s) as [[o keys'] s1]; cbn [fst snd] in *.
  assert (Hshort : o <> Raised EOFError -> (List.length keys' < turns)%nat).
  { intros Ho. destruct Hu as [(_ & Heof)|(e & used & Hk)];
      [contradiction|].
    rewrite Hk in Hlen. cbn [List.length] in Hlen.
    rewrite length_app in Hlen. lia. }
  destruct o as [[]|[e| |]].
  - destruct (Hb eq_refl) as (e & rest & -> & He).
    cbn [existsb] in Hq. rewrite He in Hq. discriminate.
  - apply IH; [exact Hrest | apply Hshort; discriminate].
  - apply IH; [exact Hrest | apply Hshort; discriminate].
  - eexists. reflexivity.
  - apply IH; [exact Hrest | apply Hshort; discriminate].
Qed.

End Agent.
End ShellFacts.

Module ShellCoverage.
Import Py Sys MoltbookAgent Shell SysFacts DecisionFacts ShellSteps ShellFacts.

Section Agent.
Variable E : Env.
Variable message_of : exn -> string.
Variable clock : state -> string.

(** X26 ([interactive_mode], lines 353-360): a first line that reads quit
    or exit, in any case and with blanks around it, ends the session: the
    prompt and Goodbye! are printed after the banner, no request is sent,
    and the rest of the input is left unread. *)
Theorem quit_ends (turns : nat) (line : string) (rest : list event)
        (s : state) :
  types_quit (Typed line) = true ->
  interactive_mode E message_of clock (S turns) (Typed line :: rest) s
  = Quit rest
         (add_console ["Goodbye!" ++ Text.NL]
            (add_console [Text.NL ++ "> "] (add_console (banner s) s))).
Proof.
  intros Hq. unfold interactive_mode. cbn [loop].
  unfold turn. rewrite then_input_typed. cbv beta zeta.
  cbn [types_quit] in Hq. unfold command_of in Hq.
  set (command := Text.lower (Text.strip line)) in *.
  rewrite Hq.
  assert (Hne : String.eqb command "" = false).
  { apply Bool.orb_true_iff in Hq as [H|H];
      apply String.eqb_eq in H; rewrite H; reflexivity. }
  rewrite Hne. reflexivity.
Qed.

(** X27 ([interactive_mode], lines 353-446): nothing but quit or exit
    ends a session. If no line of the input reads quit or exit, then
    whatever the commands do, raise or are interrupted by, the loop goes
    on until the input is at its end, where [input()] raises. *)
Theorem only_quit_ends (turns : nat) (keys : list event) (s : state) :
  existsb types_quit keys = false ->
  (List.length keys < turns)%nat ->
  exists s', interactive_mode E message_of clock turns keys s = Starved s'.
Proof.
  intros Hq Hlen. unfold interactive_mode.
  apply loop_starves; assumption.
Qed.

(** X28 ([main], lines 449-466, and [interactive_mode]): started without
    [MOLTBOOK_API_KEY], or with an empty one, and as long as the operator
    does not give the setkey command, the program comes to its end with
    an agent that still has no key, and the only requests it has sent are
    chat requests: register, profile, feed, post, search, submolts,
    browse and heartbeat send nothing. *)
Theorem keyless_session (environ_key : option string) (turns : nat)
        (keys : list event) (s : state) :
  environ_key = None \/ environ_key = Some EmptyString ->
  existsb types_setkey keys = false ->
  (List.length keys < turns)%nat ->
  exists s',
    final (main E message_of clock environ_key turns keys s) = Some s'
    /\ truthy (api_key s') = false
    /\ forallb is_chat_call (issued s s') = true.
Proof.
  intros Hkey Hset Hlen. unfold main, interactive_mode.
  set (agent := add_console _ _).
  assert (Hk : truthy (api_key agent) = false)
    by (destruct Hkey as [-> | ->]; reflexivity).
  pose proof (loop_ends E message_of clock turns keys agent Hlen) as Hend.
  destruct (final (loop E message_of clock turns keys agent)) as [s'|] eqn:Hf.
  - exists s'. split; [reflexivity|].
    destruct (loop_keyless E message_of clock turns keys agent s' Hk Hset Hf)
      as (Ha & l & Hn & Hl).
    split; [exact Ha|].
    rewrite (issued_app s s' l); [exact Hl | exact Hn].
  - destruct (loop E message_of clock turns keys agent);
      try discriminate. contradiction.
Qed.

(** X29 ([interactive_mode], lines 383-385, and [set_api_key]): the
    setkey command stores the next line, stripped, as the key, whatever
    it is, says that the key is set and sends nothing; the turn does not
    end the session. *)
Theorem setkey_turn (line key : string) (rest : list event) (s : state) :
  types_setkey (Typed line) = true ->
  exists s',
    turn E clock (Typed line :: Typed key :: rest) s = (Done false, rest, s')
    /\ api_key s' = PStr (Text.strip key)
    /\ net s' = net s
    /\ console s'
       = (console s ++ [(Text.NL ++ "> ")%string; "API Key: ";
                        ("✓ API key set successfully" ++ Text.NL)%string])%list.
Proof.
  intros Hs. unfold turn. rewrite then_input_typed. cbv beta zeta.
  cbn [types_setkey] in Hs. unfold command_of in Hs.
  set (command := Text.lower (Text.strip line)) in *.
  apply String.eqb_eq in Hs. rewrite Hs.
  eexists. split; [reflexivity|]. cbn [api_key net console].
  repeat split. cbn [console add_console with_api_key].
  now rewrite <- !app_assoc.
Qed.

End Agent.

Lemma quit_ends_witness :
  interactive_mode Scripted.hello_env Scripted.class_name Scripted.still_clock
    1 Scripted.leaving_keys (init PNone true)
  = Quit [Typed "feed"]
         (add_console ["Goodbye!" ++ Text.NL]
            (add_console [Text.NL ++ "> "]
               (add_console (banner (init PNone true)) (init PNone true)))).
Proof.
  apply (quit_ends Scripted.hello_env Scripted.class_name Scripted.still_clock
           0 "  EXIT " [Typed "feed"] (init PNone true)).
  reflexivity.
Defined.

Lemma only_quit_ends_witness :
  exists s',
    interactive_mode Scripted.hello_env Scripted.class_name
      Scripted.still_clock 6 Scripted.restless_keys Scripted.keyed
    = Starved s'.
Proof.
  apply (only_quit_ends Scripted.hello_env Scripted.class_name
           Scripted.still_clock 6 Scripted.restless_keys Scripted.keyed).
  - reflexivity.
  - cbn. lia.
Defined.

Lemma keyless_session_witness :
  exists s',
    final (main Scripted.hello_env Scripted.class_name Scripted.still_clock
             None 12 Scripted.keyless_keys (init PNone true)) = Some s'
    /\ truthy (api_key s') = false
    /\ forallb is_chat_call (issued (init PNone true) s') = true.
Proof.
  apply (keyless_session Scripted.hello_env Scripted.class_name
           Scripted.still_clock None 12 Scripted.keyless_keys
           (init PNone true)).
  - left. reflexivity.
  - reflexivity.
  - cbn. lia.
Defined.

Lemma setkey_turn_witness :
  exists s',
    turn Scripted.hello_env Scripted.still_clock
      [Typed "SetKey"; Typed "   "; Typed "profile"] (init PNone true)
    = (Done false, [Typed "profile"], s')
    /\ api_key s' = PStr (Text.strip "   ")
    /\ net s' = net (init PNone true)
    /\ console s'
       = (console (init PNone true)
            ++ [(Text.NL ++ "> ")%string; "API Key: ";
                ("✓ API key set successfully" ++ Text.NL)%string])%list.
Proof.
  apply (setkey_turn Scripted.hello_env Scripted.still_clock
           "SetKey" "   " [Typed "profile"] (init PNone true)).
  reflexivity.
Defined.

(** The session of [keyless_keys] ends by its quit with one request sent,
    the chat request of its ask command. *)
Example keyless_session_sends_one_chat :
  match main Scripted.hello_env Scripted.class_name Scripted.still_clock
          None 12 Scripted.keyless_keys (init PNone true) with
  | Quit unread s' => (unread, List.length (net s'), map is_chat_call (net s'))
  | _ => ([CtrlC], 0%nat, [])
  end = ([], 1%nat, [true]).
Proof. vm_compute. reflexivity. Qed.

(** A blank key is stored as it is: the agent is told the key is set and
    is still refused at its next request. *)
Example blank_key_is_no_key :
  Text.strip "   " = EmptyString /\ truthy (PStr (Text.strip "   ")) = false.
Proof. split; reflexivity. Qed.

End ShellCoverage.
